(** * badminton_pred: the data pipeline of [dataset.py]

    A shallow embedding of the window sampler, the dataset expanders, the
    normalization statistics, the sample accessor and the batch collator of
    [dataset.py], and the properties of the specification that concern them.

    Conventions of the embedding.
    - Python integers are [Z]; a list or a one-dimensional array is a [list];
      a two-dimensional array or tensor carries its second dimension
      ([shape[1]]) next to its rows, because an array without rows still has
      a width.
    - Scalars are abstract: the class [Scalar] lists the arithmetic the
      source uses, so the structural theorems hold for every interpretation
      of it.  The theorems on the values of the statistics are stated for
      the binary floating-point formats of IEEE 754, as the Standard
      Library specifies them ([SpecFloat]), with rounding to nearest, ties
      to even: the feature arrays of the source are float32 (24 bits of
      precision), its label arrays float64 (53 bits), and a run of the
      model is in one format.  Casts between floating-point types
      ([.float()]) are the identity on scalars.
    - Integers of NumPy are machine integers: the frame ids are int32,
      and the difference [drop_frame - frame_ids[-1]] is computed in
      int32; [np.random.randint] draws in int64.
    - Exceptions are values of [exn]; a computation returns [Ok v] or
      [Raise e] together with the world it leaves.
    - The world holds the two global random generators ([numpy.random] and
      [random]) and the store of the statistics arrays, which the training
      dataset allocates and every evaluation dataset shares by reference. *)

From Stdlib Require Import Ascii String ZArith List Lia Bool Arith Permutation.
From Stdlib Require Import SpecFloat.
Import ListNotations.

Local Open Scope Z_scope.

(** ** Exceptions and results *)

Inductive exn : Type :=
| AssertionError
| IndexError
| TypeError
| ValueError
| OverflowError
| RuntimeError
| SystemError.

Inductive result (A : Type) : Type :=
| Ok (a : A)
| Raise (e : exn).

Arguments Ok {A} a.
Arguments Raise {A} e.

Definition is_ok {A} (r : result A) : bool :=
  match r with Ok _ => true | Raise _ => false end.

(** ** Scalars *)

Class Scalar (F : Type) : Type := {
  fzero : F;
  fadd : F -> F -> F;
  fsub : F -> F -> F;
  fmul : F -> F -> F;
  fdiv : F -> F -> F;
  fsqrt : F -> F;
  of_Z : Z -> F;
  (** the literal [1e-6] *)
  eps : F
}.

(** Integer arithmetic: an instance on which the model runs. *)
#[export] Instance Z_scalar : Scalar Z := {
  fzero := 0;
  fadd := Z.add;
  fsub := Z.sub;
  fmul := Z.mul;
  fdiv := Z.div;
  fsqrt := Z.sqrt;
  of_Z := fun z => z;
  eps := 1
}.

(** Binary floating-point arithmetic with [prec] bits of precision and
    exponents below [emax], every operation rounded to nearest, ties to
    even; [one_millionth] is the float that the literal [1e-6] is in the
    format. *)
Definition float_scalar (prec emax : Z) (one_millionth : spec_float)
    : Scalar spec_float := {|
  fzero := S754_zero false;
  fadd := SFadd prec emax;
  fsub := SFsub prec emax;
  fmul := SFmul prec emax;
  fdiv := SFdiv prec emax;
  fsqrt := SFsqrt prec emax;
  of_Z := fun z => binary_normalize prec emax z 0 false;
  eps := one_millionth
|}.

(** [1e-6] in float32: [8796093 * 2^-43], that is 9.99999997e-07. *)
Definition float32_eps : spec_float := S754_finite false 8796093 (-43).

(** [1e-6] in float64: [4722366482869645 * 2^-72]. *)
Definition float64_eps : spec_float :=
  S754_finite false 4722366482869645 (-72).

Definition float32 : Scalar spec_float := float_scalar 24 128 float32_eps.
Definition float64 : Scalar spec_float := float_scalar 53 1024 float64_eps.

(** ** Python sequences *)

Section PySeq.
Context {A : Type}.

Definition len (l : list A) : Z := Z.of_nat (length l).

(** A slice bound as Python normalizes it: a negative bound counts from
    the end, and both are clipped to [0, n]. *)
Definition slice_bound (i n : Z) : Z :=
  if i <? 0 then Z.max (i + n) 0 else Z.min i n.

(** [l[start:stop]] *)
Definition py_slice (l : list A) (start stop : Z) : list A :=
  let a := slice_bound start (len l) in
  let b := slice_bound stop (len l) in
  firstn (Z.to_nat (b - a)) (skipn (Z.to_nat a) l).

(** [l[i]] *)
Definition py_index (l : list A) (i : Z) : result A :=
  let j := if i <? 0 then i + len l else i in
  if (0 <=? j) && (j <? len l) then
    match nth_error l (Z.to_nat j) with
    | Some x => Ok x
    | None => Raise IndexError
    end
  else Raise IndexError.

(** [l[i] = v] on a position that exists. *)
Fixpoint list_set (l : list A) (i : nat) (v : A) : list A :=
  match l, i with
  | [], _ => []
  | _ :: t, O => v :: t
  | h :: t, S k => h :: list_set t k v
  end.

(** [l[i], l[j] = l[j], l[i]] *)
Definition swap (l : list A) (i j : nat) : list A :=
  match nth_error l i, nth_error l j with
  | Some a, Some b => list_set (list_set l i b) j a
  | _, _ => l
  end.
End PySeq.

(** ** Machine integers

    The frame ids of a sample are an [np.int32] array, and
    [np.random.randint] draws in [int64]. *)

Definition int32_min : Z := -2147483648.
Definition int32_max : Z := 2147483647.
Definition int64_min : Z := -9223372036854775808.
Definition int64_max : Z := 9223372036854775807.

Definition in_int32 (n : Z) : bool := (int32_min <=? n) && (n <=? int32_max).

(** The int32 that an integer result is stored as: it wraps around. *)
Definition wrap_int32 (n : Z) : Z :=
  (n - int32_min) mod 4294967296 + int32_min.

(** [n - x] for a Python integer [n] and an [np.int32] scalar [x]: [n] is
    converted to int32, which raises [OverflowError] outside the range of
    int32, and the difference is an int32, which wraps around. *)
Definition int32_rsub (n x : Z) : result Z :=
  if in_int32 n then Ok (wrap_int32 (n - x)) else Raise OverflowError.

(** ** Random generators

    A generator is a sequence of raw draws and a position in it; every
    outcome of the real generators is the outcome of some sequence. *)

Record rng : Type := { draws : nat -> nat; pos : nat }.

Definition advance (g : rng) : rng :=
  {| draws := draws g; pos := S (pos g) |}.

(** A value in [0, n) for [n > 0]. *)
Definition randbelow (n : nat) (g : rng) : nat * rng :=
  (Nat.modulo (draws g (pos g)) n, advance g).

(** [np.random.randint(low, high)], of dtype int64: a value in
    [low, high); [ValueError], before anything is drawn, when [low] or
    [high - 1] is outside int64 or the range is empty. *)
Definition randint_rng (low high : Z) (g : rng) : result Z * rng :=
  if low <? int64_min then (Raise ValueError, g)
  else if int64_max <? high - 1 then (Raise ValueError, g)
  else if low <? high then
    let (k, g') := randbelow (Z.to_nat (high - low)) g in
    (Ok (low + Z.of_nat k), g')
  else (Raise ValueError, g).

(** [random.shuffle(x)]:
    [for i in reversed(range(1, len(x))): j = randbelow(i + 1); swap]. *)
Fixpoint shuffle_from {A} (i : nat) (x : list A) (g : rng) : list A * rng :=
  match i with
  | O => (x, g)
  | S k =>
      let (j, g') := randbelow (S i) g in
      shuffle_from k (swap x i j) g'
  end.

Definition shuffle_rng {A} (x : list A) (g : rng) : list A * rng :=
  shuffle_from (length x - 1) x g.

(** ** Arrays, samples and the world *)

Section Model.
Context {F : Type} `{Scalar F}.

(** A two-dimensional array of shape [(length rows, ncols)]. *)
Record array2 : Type := { ncols : nat; rows : list (list F) }.

Definition wf_array2 (a : array2) : Prop :=
  Forall (fun r => length r = ncols a) (rows a).

(** The dictionary a sample is: [frames], [frame_ids], [drop_frame],
    [label_xyz]. *)
Record Sample : Type := {
  frames : array2;
  frame_ids : list Z;
  drop_frame : Z;
  label_xyz : list F
}.

(** A reference to a statistics array of shape [(1, W)] in the store; the
    store keeps the single row of the array. *)
Definition ref : Type := nat.

Record world : Type := {
  np_random : rng;
  py_random : rng;
  store : list (list F)
}.

(** *** Computations *)

Definition M (A : Type) : Type := world -> result A * world.

Definition ret {A} (a : A) : M A := fun w => (Ok a, w).

Definition raise {A} (e : exn) : M A := fun w => (Raise e, w).

Definition bind {A B} (m : M A) (k : A -> M B) : M B :=
  fun w =>
    match m w with
    | (Ok a, w') => k a w'
    | (Raise e, w') => (Raise e, w')
    end.

Definition lift {A} (r : result A) : M A := fun w => (r, w).

Notation "x <- m ;; k" := (bind m (fun x => k))
  (at level 61, m at next level, right associativity).

Definition randint (low high : Z) : M Z :=
  fun w =>
    let (r, g) := randint_rng low high (np_random w) in
    (r, {| np_random := g; py_random := py_random w; store := store w |}).

Definition shuffle {A} (x : list A) : M (list A) :=
  fun w =>
    let (x', g) := shuffle_rng x (py_random w) in
    (Ok x', {| np_random := np_random w; py_random := g; store := store w |}).

(** A new array in the store. *)
Definition alloc (a : list F) : M ref :=
  fun w =>
    (Ok (length (store w)),
     {| np_random := np_random w; py_random := py_random w;
        store := store w ++ [a] |}).

(** The array a reference points to.  A reference outside the store
    cannot arise in Python; the model reports it as [SystemError]. *)
Definition load (r : ref) : M (list F) :=
  fun w =>
    match nth_error (store w) r with
    | Some a => (Ok a, w)
    | None => (Raise SystemError, w)
    end.

(** A loop whose body appends entries to the list under construction. *)
Fixpoint for_each {X Y} (xs : list X) (body : X -> M (list Y)) : M (list Y) :=
  match xs with
  | [] => ret []
  | x :: t =>
      ys <- body x ;;
      zs <- for_each t body ;;
      ret (ys ++ zs)
  end.

(** [range(n)] *)
Definition range (n : Z) : list nat := seq 0 (Z.to_nat n).

(** *** The expanders *)

(** [resampling]: interior sub-windows, cut when the pool is expanded. *)
Definition resampling (samples : list Sample)
    (num_subsamples min_len max_len : Z) : M (list Sample) :=
  expanded_samples <-
    for_each samples (fun s =>
      let total_len := len (rows (frames s)) in
      for_each (range num_subsamples) (fun _ =>
        seq_len <- randint min_len (max_len + 1) ;;
        if total_len <? seq_len then ret []
        else
          end_idx <- randint (seq_len - 1) total_len ;;
          let start_idx := end_idx - seq_len + 1 in
          let sub_sample :=
            {| frames :=
                 {| ncols := ncols (frames s);
                    rows := py_slice (rows (frames s)) start_idx (end_idx + 1) |};
               frame_ids := py_slice (frame_ids s) start_idx (end_idx + 1);
               drop_frame := drop_frame s;
               label_xyz := label_xyz s |} in
          ret [sub_sample])) ;;
  shuffle expanded_samples.

(** [resampling_v2]: every sample copied [num_subsamples] times, whole. *)
Definition resampling_v2 (samples : list Sample) (num_subsamples : Z)
    : M (list Sample) :=
  expanded_samples <-
    for_each samples (fun s =>
      for_each (range num_subsamples) (fun _ =>
        let sub_sample :=
          {| frames := frames s;
             frame_ids := frame_ids s;
             drop_frame := drop_frame s;
             label_xyz := label_xyz s |} in
        ret [sub_sample])) ;;
  shuffle expanded_samples.

(** Every sample [r] times, in the order of the samples: the pool of
    [resampling_v2] before its order is shuffled. *)
Definition replicate (samples : list Sample) (r : Z) : list Sample :=
  flat_map (fun s => repeat s (Z.to_nat r)) samples.

(** *** numpy on the statistics *)

(** [np.concatenate(arrays, axis=0)] of two-dimensional arrays. *)
Definition np_concatenate (arrays : list array2) : result array2 :=
  match arrays with
  | [] => Raise ValueError
  | a :: rest =>
      if forallb (fun b => Nat.eqb (ncols b) (ncols a)) rest
      then Ok {| ncols := ncols a; rows := flat_map rows arrays |}
      else Raise ValueError
  end.

(** [np.stack(vectors, axis=0)] of one-dimensional arrays. *)
Definition np_stack (vectors : list (list F)) : result array2 :=
  match vectors with
  | [] => Raise ValueError
  | v :: rest =>
      if forallb (fun u => Nat.eqb (length u) (length v)) rest
      then Ok {| ncols := length v; rows := vectors |}
      else Raise ValueError
  end.

(** The sum of a column of an array of two or more columns: the rows are
    added one after the other, from zero.  No statement below depends on
    the sign of a sum that is zero. *)
Definition sum (xs : list F) : F := fold_left fadd xs fzero.

(** [x.mean()]: the sum divided by the number of rows.  numpy divides by
    the count in float64 and stores the quotient in the type of the array;
    for a float32 array of fewer than [2^24] rows that is the float32
    quotient, float64 having more than twice the precision of float32. *)
Definition mean (xs : list F) : F := fdiv (sum xs) (of_Z (len xs)).

(** [x.std()]: the deviations [x - x.mean()] are multiplied by
    themselves, and the root of their mean is taken. *)
Definition std (xs : list F) : F :=
  let m := mean xs in
  fsqrt (mean (map (fun x => fmul (fsub x m) (fsub x m)) xs)).

Definition column (j : nat) (a : array2) : list F :=
  map (fun r => nth j r fzero) (rows a).

(** [a.mean(axis=0, keepdims=True)]: the row of the [(1, ncols)] result. *)
Definition mean_axis0 (a : array2) : list F :=
  map (fun j => mean (column j a)) (seq 0 (ncols a)).

(** [a.std(axis=0, keepdims=True)] *)
Definition std_axis0 (a : array2) : list F :=
  map (fun j => std (column j a)) (seq 0 (ncols a)).

(** [v + 1e-6] *)
Definition add_eps (v : list F) : list F := map (fun x => fadd x eps) v.

(** Running a list of fallible computations in order. *)
Fixpoint collect {A B} (f : A -> result B) (l : list A) : result (list B) :=
  match l with
  | [] => Ok []
  | a :: t =>
      match f a with
      | Raise e => Raise e
      | Ok b =>
          match collect f t with
          | Raise e => Raise e
          | Ok bs => Ok (b :: bs)
          end
      end
  end.

(** [np.concatenate([s["label_xyz"], [s["drop_frame"] - s["frame_ids"][-1]]])] *)
Definition label_of (s : Sample) : result (list F) :=
  match py_index (frame_ids s) (-1) with
  | Raise e => Raise e
  | Ok last_id =>
      match int32_rsub (drop_frame s) last_id with
      | Raise e => Raise e
      | Ok time => Ok (label_xyz s ++ [of_Z time])
      end
  end.

(** The four statistics of a pool, as the constructor computes them:
    [(feature_mean, feature_std, label_mean, label_std)]. *)
Definition norm_stats (samples : list Sample)
    : result (list F * list F * list F * list F) :=
  match np_concatenate (map frames samples) with
  | Raise e => Raise e
  | Ok all_features =>
      match collect label_of samples with
      | Raise e => Raise e
      | Ok labels =>
          match np_stack labels with
          | Raise e => Raise e
          | Ok all_labels =>
              Ok (mean_axis0 all_features,
                  add_eps (std_axis0 all_features),
                  mean_axis0 all_labels,
                  add_eps (std_axis0 all_labels))
          end
      end
  end.

(** *** Broadcasting *)

Fixpoint zip_with {X Y Z'} (op : X -> Y -> Z') (a : list X) (b : list Y)
    : list Z' :=
  match a, b with
  | x :: a', y :: b' => op x y :: zip_with op a' b'
  | _, _ => []
  end.

(** Two sizes broadcast when they are equal or one of them is 1. *)
Definition bc_ok (n m : nat) : bool :=
  Nat.eqb n m || Nat.eqb m 1 || Nat.eqb n 1.

Definition bc_size (n m : nat) : nat :=
  if Nat.eqb n m then n else if Nat.eqb m 1 then n else m.

Definition bc_row (op : F -> F -> F) (a b : list F) : list F :=
  if Nat.eqb (length a) (length b) then zip_with op a b
  else if Nat.eqb (length b) 1 then map (fun x => op x (hd fzero b)) a
  else map (fun y => op (hd fzero a) y) b.

(** [a op b] on one-dimensional tensors. *)
Definition broadcast1 (op : F -> F -> F) (a b : list F) : result (list F) :=
  if bc_ok (length a) (length b) then Ok (bc_row op a b)
  else Raise RuntimeError.

(** [a op b] for [a] of shape [(L, ncols a)] and [b] of shape
    [(1, length b)]. *)
Definition broadcast2 (op : F -> F -> F) (a : array2) (b : list F)
    : result array2 :=
  if bc_ok (ncols a) (length b)
  then Ok {| ncols := bc_size (ncols a) (length b);
             rows := map (fun r => bc_row op r b) (rows a) |}
  else Raise RuntimeError.

(** *** The dataset *)

Record BadmintonDataset : Type := {
  self_samples : list Sample;
  self_min_len : Z;
  self_max_len : Z;
  self_mode : string;
  self_feature_mean : option ref;
  self_feature_std : option ref;
  self_label_mean : option ref;
  self_label_std : option ref;
  self_noise_std_x : option F;
  self_noise_std_y : option F
}.

(** [BadmintonDataset.__init__]; [None] is an argument left out. *)
Definition __init__ (samples : list Sample) (min_len max_len : Z)
    (mode : string) (num_subsamples : Z)
    (feature_mean feature_std label_mean label_std : option ref)
    : M BadmintonDataset :=
  if negb (0 <? len samples) then raise AssertionError
  else if String.eqb mode "train" then
    stats <- lift (norm_stats samples) ;;
    let '(f_mean, f_std, l_mean, l_std) := stats in
    r_feature_mean <- alloc f_mean ;;
    r_feature_std <- alloc f_std ;;
    r_label_mean <- alloc l_mean ;;
    r_label_std <- alloc l_std ;;
    std_x <- lift (py_index l_std 0) ;;
    std_y <- lift (py_index l_std 1) ;;
    expanded <- resampling_v2 samples num_subsamples ;;
    ret {| self_samples := expanded;
           self_min_len := min_len;
           self_max_len := max_len;
           self_mode := mode;
           self_feature_mean := Some r_feature_mean;
           self_feature_std := Some r_feature_std;
           self_label_mean := Some r_label_mean;
           self_label_std := Some r_label_std;
           self_noise_std_x := Some (fdiv std_x (of_Z 5));
           self_noise_std_y := Some (fdiv std_y (of_Z 5)) |}
  else
    ret {| self_samples := samples;
           self_min_len := min_len;
           self_max_len := max_len;
           self_mode := mode;
           self_feature_mean := feature_mean;
           self_feature_std := feature_std;
           self_label_mean := label_mean;
           self_label_std := label_std;
           self_noise_std_x := None;
           self_noise_std_y := None |}.

Definition __len__ (self : BadmintonDataset) : Z := len (self_samples self).

(** [torch.from_numpy(a)] of an attribute that may be [None]. *)
Definition from_numpy (a : option ref) : M (list F) :=
  match a with
  | None => raise TypeError
  | Some r => load r
  end.

(** The window of [__getitem__] (its lines 253 to 267): a random length
    clamped to the trajectory and anchored at its end when training, the
    last [max_len] frames otherwise.  Returns [(start_idx, end_idx)]. *)
Definition sample_window (self : BadmintonDataset) (total_len : Z)
    : M (Z * Z) :=
  if String.eqb (self_mode self) "train" then
    seq_len <- randint (self_min_len self) (self_max_len self + 1) ;;
    let seq_len := if total_len <? seq_len then total_len else seq_len in
    let end_idx := total_len - 1 in
    let start_idx := end_idx - seq_len + 1 in
    ret (start_idx, end_idx)
  else
    let seq_len := self_max_len self in
    let start_idx := total_len - seq_len in
    let end_idx := total_len - 1 in
    ret (start_idx, end_idx).

(** The rest of [__getitem__] (its lines 269 to 295): the sub-sample is cut
    and normalized. *)
Definition cut_and_normalize (self : BadmintonDataset) (s : Sample)
    (start_idx end_idx : Z) : M (array2 * Z * list F * F) :=
  let total_frames := frames s in
  let total_frame_ids := frame_ids s in
  let drop_frame := drop_frame s in
  let seq := {| ncols := ncols total_frames;
                rows := py_slice (rows total_frames) start_idx (end_idx + 1) |} in
  let frame_ids := py_slice total_frame_ids start_idx (end_idx + 1) in
  let length := len (rows seq) in
  let label_xyz_raw := label_xyz s in
  last_id <- lift (py_index frame_ids (-1)) ;;
  time <- lift (int32_rsub drop_frame last_id) ;;
  let label_time_raw := of_Z time in
  feature_mean <- from_numpy (self_feature_mean self) ;;
  seq <- lift (broadcast2 fsub seq feature_mean) ;;
  feature_std <- from_numpy (self_feature_std self) ;;
  seq <- lift (broadcast2 fdiv seq feature_std) ;;
  let label_all := label_xyz_raw ++ [label_time_raw] in
  label_mean <- from_numpy (self_label_mean self) ;;
  label_all <- lift (broadcast1 fsub label_all label_mean) ;;
  label_std <- from_numpy (self_label_std self) ;;
  label_all <- lift (broadcast1 fdiv label_all label_std) ;;
  let label_xyz_norm := py_slice label_all 0 3 in
  label_time_norm <- lift (py_index label_all 3) ;;
  ret (seq, length, label_xyz_norm, label_time_norm).

(** [BadmintonDataset.__getitem__]: the tuple
    [(seq, length, label_xyz_norm, label_time_norm)]. *)
Definition __getitem__ (self : BadmintonDataset) (idx : Z)
    : M (array2 * Z * list F * F) :=
  s <- lift (py_index (self_samples self) idx) ;;
  window <- sample_window self (len (rows (frames s))) ;;
  cut_and_normalize self s (fst window) (snd window).

Definition get_norm_stats (self : BadmintonDataset)
    : option ref * option ref * option ref * option ref :=
  (self_feature_mean self, self_feature_std self,
   self_label_mean self, self_label_std self).

(** *** The collator *)

(** [torch.stack(tensors, dim=0)]: the tensors must have one shape. *)
Definition stack2 (tensors : list array2) : result (list (list (list F))) :=
  match tensors with
  | [] => Raise RuntimeError
  | t :: rest =>
      if forallb (fun u => Nat.eqb (length (rows u)) (length (rows t))
                           && Nat.eqb (ncols u) (ncols t)) rest
      then Ok (map rows tensors)
      else Raise RuntimeError
  end.

Definition stack1 {X} (tensors : list (list X)) : result (list (list X)) :=
  match tensors with
  | [] => Raise RuntimeError
  | t :: rest =>
      if forallb (fun u => Nat.eqb (length u) (length t)) rest
      then Ok tensors
      else Raise RuntimeError
  end.

(** [torch.cat([pad, seq], dim=0)] for [pad] of width [feature_dim]. *)
Definition cat (feature_dim : nat) (pad : list (list F)) (seq : array2)
    : result array2 :=
  if Nat.eqb (ncols seq) feature_dim
  then Ok {| ncols := feature_dim; rows := pad ++ rows seq |}
  else Raise RuntimeError.

(** [torch.zeros(n, feature_dim)] *)
Definition zeros (n : Z) (feature_dim : nat) : list (list F) :=
  repeat (repeat fzero feature_dim) (Z.to_nat n).

(** [torch.ones(n, dtype=torch.bool)] *)
Definition ones (n : Z) : result (list bool) :=
  if n <? 0 then Raise RuntimeError else Ok (repeat true (Z.to_nat n)).

(** [mask[:stop] = v] *)
Definition fill_prefix {X} (mask : list X) (stop : Z) (v : X) : list X :=
  let b := Z.to_nat (slice_bound stop (len mask)) in
  repeat v b ++ skipn b mask.

(** [max(lengths)] of a sequence that is not empty. *)
Definition max_of (l0 : Z) (lengths : list Z) : Z :=
  fold_left Z.max lengths l0.

(** An element of a batch: [(seq, length, label_xyz, label_time)]. *)
Definition example : Type := array2 * Z * list F * F.

Definition seq_of (b : example) : array2 := fst (fst (fst b)).
Definition length_of (b : example) : Z := snd (fst (fst b)).
Definition xyz_of (b : example) : list F := snd (fst b).
Definition time_of (b : example) : F := snd b.

(** One round of the loop of [collate_fn_dynamic]: the padded sequence and
    its mask. *)
Definition pad_one (feature_dim : nat) (max_len : Z) (sl : array2 * Z)
    : result (array2 * list bool) :=
  let (seq, l) := sl in
  let pad_len := max_len - l in
  match (if 0 <? pad_len
         then cat feature_dim (zeros pad_len feature_dim) seq
         else Ok seq) with
  | Raise e => Raise e
  | Ok seq_padded =>
      match ones max_len with
      | Raise e => Raise e
      | Ok mask => Ok (seq_padded, fill_prefix mask pad_len false)
      end
  end.

(** [collate_fn_dynamic]: the tuple
    [(seqs_padded, lengths, masks, xyzs, times)]. *)
Definition collate_fn_dynamic (batch : list example)
    : result (list (list (list F)) * list Z * list (list bool)
              * list (list F) * list F) :=
  let seqs := map seq_of batch in
  let lengths := map length_of batch in
  let xyzs := map xyz_of batch in
  let times := map time_of batch in
  match seqs, lengths with
  | seq0 :: _, l0 :: lengths' =>
      let feature_dim := ncols seq0 in
      let max_len := max_of l0 lengths' in
      match collect (pad_one feature_dim max_len) (combine seqs lengths) with
      | Raise e => Raise e
      | Ok padded =>
          match stack2 (map fst padded) with
          | Raise e => Raise e
          | Ok seqs_padded =>
              match stack1 (map snd padded) with
              | Raise e => Raise e
              | Ok masks =>
                  match stack1 xyzs with
                  | Raise e => Raise e
                  | Ok xyzs => Ok (seqs_padded, lengths, masks, xyzs, times)
                  end
              end
          end
      end
  | _, _ => Raise ValueError
  end.

(** *** The down-sampler *)

(** The sub-sample [down_sampling] cuts from [s] for a drawn [seq_len]:
    [start_idx = total_len - seq_len + 1], the slices
    [[start_idx:total_len]]. *)
Definition down_sample_cut (total_len : Z) (s : Sample) (seq_len : Z)
    : Sample :=
  let start_idx := total_len - seq_len + 1 in
  {| frames := {| ncols := ncols (frames s);
                  rows := py_slice (rows (frames s)) start_idx total_len |};
     frame_ids := py_slice (frame_ids s) start_idx total_len;
     drop_frame := drop_frame s;
     label_xyz := label_xyz s |}.

(** [down_sampling]: one sub-sample per sample; [total_len] is the length
    of the first sample, for all of them. *)
Definition down_sampling (samples : list Sample) (min_len max_len : Z)
    : M (list Sample) :=
  first <- lift (py_index samples 0) ;;
  let total_len := len (rows (frames first)) in
  expanded_samples <-
    for_each samples (fun s =>
      seq_len <- randint min_len (max_len + 1) ;;
      let sub_sample := down_sample_cut total_len s seq_len in
      ret [sub_sample]) ;;
  shuffle expanded_samples.

(** *** Vocabulary of the statements *)

(** The four arrays a tuple of [get_norm_stats] refers to in a world. *)
Definition stats_values (w : world)
    (stats : option ref * option ref * option ref * option ref)
    : option (list F * list F * list F * list F) :=
  match stats with
  | (Some r1, Some r2, Some r3, Some r4) =>
      match nth_error (store w) r1, nth_error (store w) r2,
            nth_error (store w) r3, nth_error (store w) r4 with
      | Some a1, Some a2, Some a3, Some a4 => Some (a1, a2, a3, a4)
      | _, _, _, _ => None
      end
  | _ => None
  end.

(** A sequence of [__getitem__] accesses, each on the training dataset
    ([true]) or on the evaluation dataset ([false]), whatever each returns
    or raises: the world it leaves. *)
Fixpoint run_accesses (train eval : BadmintonDataset)
    (accesses : list (bool * Z)) (w : world) : world :=
  match accesses with
  | [] => w
  | (on_train, idx) :: rest =>
      run_accesses train eval rest
        (snd (__getitem__ (if on_train then train else eval) idx w))
  end.

(** An element of a batch as the accessor produces it: a sequence of
    [length] frames of width [feature_dim] and three coordinates. *)
Definition wf_example (feature_dim : nat) (b : example) : Prop :=
  wf_array2 (seq_of b)
  /\ ncols (seq_of b) = feature_dim
  /\ length_of b = len (rows (seq_of b))
  /\ 1 <= length_of b
  /\ length (xyz_of b) = 3%nat.

(** A trajectory of the data model: frames of one width, as many frame ids
    as frames, at least one frame, three landing coordinates. *)
Definition wf_sample (s : Sample) : Prop :=
  wf_array2 (frames s)
  /\ len (frame_ids s) = len (rows (frames s))
  /\ 1 <= len (rows (frames s))
  /\ length (label_xyz s) = 3%nat.


(** The sub-sample [resampling] cuts from [s] for a drawn length and a
    drawn end index: [start_idx = end_idx - seq_len + 1], the slices
    [[start_idx:end_idx+1]]. *)
Definition interior_cut (s : Sample) (seq_len end_idx : Z) : Sample :=
  {| frames := {| ncols := ncols (frames s);
                  rows := py_slice (rows (frames s))
                            (end_idx - seq_len + 1) (end_idx + 1) |};
     frame_ids := py_slice (frame_ids s) (end_idx - seq_len + 1) (end_idx + 1);
     drop_frame := drop_frame s;
     label_xyz := label_xyz s |}.

(** What the replicas of [s] append in [resampling], given the pair
    [(seq_len, end_idx)] drawn for each: a replica whose length exceeds the
    trajectory appends nothing (its end index is not drawn), every other
    replica appends its cut. *)
Definition replicas_of (s : Sample) (draws : list (Z * Z)) : list Sample :=
  flat_map (fun d => if len (rows (frames s)) <? fst d then []
                     else [interior_cut s (fst d) (snd d)]) draws.

(** The draws of the replicas of [s]: one pair per replica, the length in
    [[min_len, max_len]] and, when it does not exceed the trajectory, the
    end index in [[seq_len - 1, total_len - 1]]. *)
Definition draws_of_sample (num_subsamples min_len max_len : Z) (s : Sample)
    (draws : list (Z * Z)) : Prop :=
  length draws = Z.to_nat num_subsamples
  /\ Forall (fun d =>
              min_len <= fst d <= max_len
              /\ (fst d <= len (rows (frames s)) ->
                  fst d - 1 <= snd d <= len (rows (frames s)) - 1)) draws.

(** A trajectory whose number of frames is one that an array can have. *)
Definition array_sized (s : Sample) : Prop :=
  len (rows (frames s)) <= int64_max.

(** The label vector of a sample whose [frame_ids] is not empty. *)
Definition label_vector (s : Sample) : list F :=
  match label_of s with
  | Ok v => v
  | Raise _ => []
  end.

(** A computation that leaves the store as it found it. *)
Definition keeps_store {A} (m : M A) : Prop :=
  forall w, store (snd (m w)) = store w.

(** A computation that leaves the whole world as it found it. *)
Definition keeps_world {A} (m : M A) : Prop :=
  forall w, snd (m w) = w.

End Model.

Arguments array2 : clear implicits.
Arguments Sample : clear implicits.
Arguments world : clear implicits.
Arguments M : clear implicits.
Arguments BadmintonDataset : clear implicits.
Arguments example : clear implicits.

Notation "x <- m ;; k" := (bind m (fun x => k))
  (at level 61, m at next level, right associativity).

(** ** The parser and the loader

    The text of a file is the list of its lines, as the iteration over the
    open file yields them; characters are ASCII.  A file that cannot be
    opened or decoded has no lines ([None]).  The conversions [int] and
    [float] of Python are parameters: they return [None] where Python
    raises [ValueError]. *)

(** The exceptions of the parser: those of the dataset, and one more. *)
Inductive exception : Type :=
| Builtin (e : exn)
| OSError.

Inductive parsed (A : Type) : Type :=
| Parsed (a : A)
| Failed (e : exception).

Arguments Parsed {A} a.
Arguments Failed {A} e.

(** [c.isspace()] for an ASCII character. *)
Definition is_space (c : Ascii.ascii) : bool :=
  let n := Ascii.nat_of_ascii c in
  ((9 <=? n) && (n <=? 13) || (28 <=? n) && (n <=? 32))%nat.

Fixpoint lstrip_chars (l : list Ascii.ascii) : list Ascii.ascii :=
  match l with
  | c :: t => if is_space c then lstrip_chars t else l
  | [] => []
  end.

(** [s.strip()] *)
Definition strip (s : string) : string :=
  string_of_list_ascii
    (rev (lstrip_chars (rev (lstrip_chars (list_ascii_of_string s))))).

(** [s.split(sep)] for a separator of one character: the pieces between
    the separators, at least one. *)
Fixpoint split_chars (sep : Ascii.ascii) (l : list Ascii.ascii)
    : list (list Ascii.ascii) :=
  match l with
  | [] => [[]]
  | c :: t =>
      if Ascii.eqb c sep then [] :: split_chars sep t
      else match split_chars sep t with
           | piece :: pieces => (c :: piece) :: pieces
           | [] => [[c]]
           end
  end.

Definition split (sep : Ascii.ascii) (s : string) : list string :=
  map string_of_list_ascii (split_chars sep (list_ascii_of_string s)).

(** [s.endswith(suffix)] *)
Definition endswith (s suffix : string) : bool :=
  let l := list_ascii_of_string s in
  let u := list_ascii_of_string suffix in
  (length u <=? length l)%nat
  && String.eqb (string_of_list_ascii (skipn (length l - length u) l)) suffix.

Fixpoint insert_sorted (x : string) (l : list string) : list string :=
  match l with
  | [] => [x]
  | y :: t => if String.leb x y then x :: l else y :: insert_sorted x t
  end.

(** [sorted(names)]: strings in the order of their characters' codes. *)
Definition sorted (names : list string) : list string :=
  fold_right insert_sorted [] names.

Section Parser.
Context {F : Type} `{Scalar F}.
Variable py_int : string -> option Z.
Variable py_float : string -> option F.

(** [np.array(list(map(float, s.split(","))), dtype=np.float32)] *)
Fixpoint floats_of (pieces : list string) : option (list F) :=
  match pieces with
  | [] => Some []
  | p :: t =>
      match py_float p with
      | None => None
      | Some x =>
          match floats_of t with
          | None => None
          | Some xs => Some (x :: xs)
          end
      end
  end.

(** A line [head:values]: [a, b = ln.split(":")], [int(a)] and the floats
    of [b.split(",")]; [None] where Python raises [ValueError]. *)
Definition parse_line (ln : string) : option (Z * list F) :=
  match split ":"%char ln with
  | [head; values] =>
      match py_int head with
      | None => None
      | Some n =>
          match floats_of (split ","%char values) with
          | None => None
          | Some xs => Some (n, xs)
          end
      end
  | _ => None
  end.

(** The loop over the frame lines: [coords[:63]] when a line has not 63
    values. *)
Fixpoint parse_frames (lns : list string) : option (list Z * list (list F)) :=
  match lns with
  | [] => Some ([], [])
  | ln :: t =>
      match parse_line ln with
      | None => None
      | Some (fid, coords) =>
          let coords := if negb (len coords =? 63)
                        then py_slice coords 0 63 else coords in
          match parse_frames t with
          | None => None
          | Some (frame_ids, frames) => Some (fid :: frame_ids, coords :: frames)
          end
      end
  end.

(** [np.array(frame_ids, dtype=np.int32)]: an integer outside the range
    of int32 raises [OverflowError]. *)
Definition int32_array (frame_ids : list Z) : parsed (list Z) :=
  if forallb in_int32 frame_ids
  then Parsed frame_ids
  else Failed (Builtin OverflowError).

(** The lines of a file that are not blank, stripped. *)
Definition stripped_lines (text : list string) : list string :=
  filter (fun ln => negb (String.eqb ln EmptyString))
    (map strip text).

(** [parse_sample_file], on the text of the file at [file_path]. *)
Definition parse_sample_file (file : option (list string)) : parsed (Sample F) :=
  match file with
  | None => Failed OSError
  | Some text =>
      let lines := stripped_lines text in
      if len lines <? 2 then Failed (Builtin ValueError)
      else
        let last_line := last lines EmptyString in
        match parse_line last_line with
        | None => Failed (Builtin ValueError)
        | Some (drop_frame, drop_xyz) =>
            match parse_frames (removelast lines) with
            | None => Failed (Builtin ValueError)
            | Some (frame_ids, frames) =>
                match np_stack frames with
                | Raise e => Failed (Builtin e)
                | Ok stacked =>
                    match int32_array frame_ids with
                    | Failed e => Failed e
                    | Parsed ids =>
                        Parsed {| frames := stacked;
                                  frame_ids := ids;
                                  drop_frame := drop_frame;
                                  label_xyz := drop_xyz |}
                    end
                end
            end
        end
  end.

(** The file of a name in a folder. *)
Fixpoint lookup_file (folder : list (string * option (list string)))
    (fn : string) : option (list string) :=
  match folder with
  | [] => None
  | (name, file) :: t => if String.eqb name fn then file else lookup_file t fn
  end.

(** The loop of [load_all_samples] over the sorted names: the samples
    appended and the names printed as skipped. *)
Fixpoint load_loop (folder : list (string * option (list string)))
    (suffix : string) (names : list string) : list (Sample F) * list string :=
  match names with
  | [] => ([], [])
  | fn :: t =>
      let (samples, skipped) := load_loop folder suffix t in
      if negb (endswith fn suffix) then (samples, skipped)
      else
        match parse_sample_file (lookup_file folder fn) with
        | Parsed s => (s :: samples, skipped)
        | Failed _ => (samples, fn :: skipped)
        end
  end.

(** [load_all_samples]: a folder is the list of its entries, each a name
    and the text of the file, in the order in which [os.listdir] lists
    them. *)
Definition load_all_samples (folder : list (string * option (list string)))
    (suffix : string) : list (Sample F) * list string :=
  load_loop folder suffix (sorted (map fst folder)).
End Parser.

(** ** Vocabulary of the statements on floating-point values *)







(** ** Concrete inputs

    Inputs over integer scalars on which the model is run. *)

Definition ex_rng : rng := {| draws := fun n => (7 * n + 3)%nat; pos := 0 |}.

Definition ex_world : world Z :=
  {| np_random := ex_rng; py_random := ex_rng; store := [] |}.

(** A trajectory of [n] frames of width 2 with frame ids [0 .. n-1]. *)
Definition ex_sample (n : nat) (drop : Z) : Sample Z :=
  {| frames := {| ncols := 2;
                  rows := map (fun i => [Z.of_nat i; 10 * Z.of_nat i]) (seq 0 n) |};
     frame_ids := map Z.of_nat (seq 0 n);
     drop_frame := drop;
     label_xyz := [100; 50; 0] |}.

(** A world whose store holds four statistics arrays: zero means and unit
    deviations of widths 2 and 4. *)
Definition ex_stats_world : world Z :=
  {| np_random := ex_rng; py_random := ex_rng;
     store := [[0; 0]; [1; 1]; [0; 0; 0; 0]; [1; 1; 1; 1]] |}.

(** An evaluation dataset over [samples] that refers to those arrays. *)
Definition ex_eval (samples : list (Sample Z)) (max_len : Z)
    : BadmintonDataset Z :=
  {| self_samples := samples;
     self_min_len := 10;
     self_max_len := max_len;
     self_mode := "test";
     self_feature_mean := Some 0%nat;
     self_feature_std := Some 1%nat;
     self_label_mean := Some 2%nat;
     self_label_std := Some 3%nat;
     self_noise_std_x := None;
     self_noise_std_y := None |}.

(** A training-mode construction over two trajectories, copied twice. *)
Definition ex_train_run : result (BadmintonDataset Z) * world Z :=
  __init__ [ex_sample 3 5; ex_sample 4 6] 2 3 "train" 2 None None None None
    ex_world.

Definition ex_train : BadmintonDataset Z :=
  match fst ex_train_run with
  | Ok train => train
  | Raise _ => ex_eval [] 0
  end.

Definition ex_train_world : world Z := snd ex_train_run.

(** A batch of three sequences of width 1 and of lengths 3, 5 and 2. *)
Definition ex_batch : list (example Z) :=
  [ ({| ncols := 1; rows := [[1]; [2]; [3]] |}, 3, [1; 2; 3], 7);
    ({| ncols := 1; rows := [[1]; [2]; [3]; [4]; [5]] |}, 5, [4; 5; 6], 8);
    ({| ncols := 1; rows := [[1]; [2]] |}, 2, [7; 8; 9], 9) ].

(** What the training dataset above returns at an index, in the world the
    construction left. *)
Definition ex_train_item (idx : Z) : example Z :=
  match fst (__getitem__ ex_train idx ex_train_world) with
  | Ok item => item
  | Raise _ => ({| ncols := 0; rows := [] |}, 0, [], 0)
  end.

(** A conversion of decimal numerals, with an optional minus sign, that
    stands for [int] and [float] on the concrete files below. *)
Fixpoint ex_digits (acc : Z) (l : list ascii) : option Z :=
  match l with
  | [] => Some acc
  | c :: t =>
      let n := nat_of_ascii c in
      if ((48 <=? n) && (n <=? 57))%nat
      then ex_digits (10 * acc + Z.of_nat (n - 48)) t
      else None
  end.

Definition ex_int (s : string) : option Z :=
  match list_ascii_of_string s with
  | [] => None
  | c :: t =>
      if Ascii.eqb c "-"%char
      then match t with
           | [] => None
           | _ => option_map Z.opp (ex_digits 0 t)
           end
      else ex_digits 0 (c :: t)
  end.

(** A file of two frames of three values and a landing line, with a blank
    line and spaces around. *)
Definition ex_file : list string :=
  [ "0:1,2,3"%string; "  "%string; " 1:4,5,6 "%string; "7:10,20,30"%string ].

(** A folder: a good file, a file without frames, a file that cannot be
    read, and a file of another kind. *)
Definition ex_folder : list (string * option (list string)) :=
  [ ("b.txt"%string, Some [ "7:10,20,30"%string ]);
    ("a.txt"%string, Some ex_file);
    ("c.txt"%string, None);
    ("notes.md"%string, Some ex_file) ].

(** Inputs over float32 scalars. *)

Definition ex_float_world : world spec_float :=
  {| np_random := ex_rng; py_random := ex_rng; store := [] |}.

Definition ex_f32 (z : Z) : spec_float := @of_Z _ float32 z.

(** [3.3] as float32: [13841203 * 2^-22]. *)
Definition ex_f32_3_3 : spec_float := S754_finite false 13841203 (-22).

Definition ex_float_sample (rows0 : list (list spec_float)) (drop : Z)
    : Sample spec_float :=
  {| frames := {| ncols := 2; rows := rows0 |};
     frame_ids := map Z.of_nat (seq 0 (length rows0));
     drop_frame := drop;
     label_xyz := [ex_f32 100; ex_f32 50; ex_f32 0] |}.


Definition ex_float_run (pool : list (Sample spec_float)) (r : Z)
    : result (BadmintonDataset spec_float) * world spec_float :=
  @__init__ _ float32 pool 1 2 "train" r None None None None ex_float_world.


(** [n] trajectories of one frame whose two features are 3.3. *)
Definition ex_float_const (n : nat) : list (Sample spec_float) :=
  repeat (ex_float_sample [[ex_f32_3_3; ex_f32_3_3]] 5) n.

(** A trajectory of one frame whose two features are the integer [z]. *)
Definition ex_float_one (z : Z) : Sample spec_float :=
  ex_float_sample [[ex_f32 z; ex_f32 z]] 5.

(** * Properties *)

(** ** Python sequences *)

Section PySeqFacts.
Context {A : Type}.
Implicit Types l : list A.

Lemma len_nonneg l : 0 <= len l.
Proof. unfold len; lia. Qed.

Lemma slice_bound_inside i n : 0 <= i <= n -> slice_bound i n = i.
Proof.
  intros Hi. unfold slice_bound.
  destruct (Z.ltb_spec i 0); lia.
Qed.

(** A slice whose bounds lie inside the list. *)
Lemma py_slice_inside l start stop :
  0 <= start <= stop -> stop <= len l ->
  py_slice l start stop
  = firstn (Z.to_nat (stop - start)) (skipn (Z.to_nat start) l).
Proof.
  intros H1 H2. unfold py_slice.
  rewrite !slice_bound_inside by lia. reflexivity.
Qed.

Lemma py_slice_inside_length l start stop :
  0 <= start <= stop -> stop <= len l ->
  len (py_slice l start stop) = stop - start.
Proof.
  intros H1 H2. rewrite py_slice_inside by assumption.
  unfold len in *. rewrite length_firstn, length_skipn. lia.
Qed.

(** A slice that runs to the end of the list. *)
Lemma py_slice_suffix l start :
  0 <= start <= len l ->
  py_slice l start (len l) = skipn (Z.to_nat start) l.
Proof.
  intros H1. rewrite py_slice_inside by lia.
  apply firstn_all2. unfold len in *. rewrite length_skipn. lia.
Qed.

Lemma py_slice_all l : py_slice l 0 (len l) = l.
Proof.
  rewrite py_slice_suffix by (pose proof (len_nonneg l); lia).
  reflexivity.
Qed.

(** A negative start counts from the end. *)
Lemma py_slice_negative_start l start stop :
  - len l <= start < 0 ->
  py_slice l start stop = py_slice l (start + len l) stop.
Proof.
  intros H1. unfold py_slice. f_equal; f_equal.
  - f_equal. unfold slice_bound.
    destruct (Z.ltb_spec start 0); destruct (Z.ltb_spec (start + len l) 0); lia.
  - unfold slice_bound.
    destruct (Z.ltb_spec start 0); destruct (Z.ltb_spec (start + len l) 0); lia.
Qed.

(** A start below [-len l] is clipped to the beginning. *)
Lemma py_slice_clipped_start l start stop :
  start <= - len l ->
  py_slice l start stop = py_slice l 0 stop.
Proof.
  intros H1. pose proof (len_nonneg l) as Hl. unfold py_slice.
  assert (E : slice_bound start (len l) = slice_bound 0 (len l)).
  { unfold slice_bound. simpl.
    destruct (Z.ltb_spec start 0); lia. }
  rewrite E. reflexivity.
Qed.

(** An empty slice. *)
Lemma py_slice_empty l start stop :
  0 <= stop <= start -> py_slice l start stop = [].
Proof.
  intros H1. unfold py_slice.
  assert (E : Z.to_nat (slice_bound stop (len l) - slice_bound start (len l)) = 0%nat).
  { unfold slice_bound.
    destruct (Z.ltb_spec stop 0); destruct (Z.ltb_spec start 0); lia. }
  rewrite E. reflexivity.
Qed.

Lemma py_index_inside l i :
  0 <= i < len l ->
  exists x, py_index l i = Ok x /\ nth_error l (Z.to_nat i) = Some x.
Proof.
  intros Hi. unfold py_index.
  destruct (Z.ltb_spec i 0); [lia|].
  destruct (Z.leb_spec 0 i); [|lia].
  destruct (Z.ltb_spec i (len l)); [|lia]. simpl.
  destruct (nth_error l (Z.to_nat i)) eqn:E.
  - eauto.
  - apply nth_error_None in E. unfold len in *. lia.
Qed.

Lemma py_index_negative l i :
  - len l <= i < 0 ->
  exists x, py_index l i = Ok x /\ nth_error l (Z.to_nat (i + len l)) = Some x.
Proof.
  intros Hi. unfold py_index.
  destruct (Z.ltb_spec i 0); [|lia].
  destruct (Z.leb_spec 0 (i + len l)); [|lia].
  destruct (Z.ltb_spec (i + len l) (len l)); [|lia]. simpl.
  destruct (nth_error l (Z.to_nat (i + len l))) eqn:E.
  - eauto.
  - apply nth_error_None in E. unfold len in *. lia.
Qed.

(** An index in range, counted from either end, names an element. *)
Lemma py_index_in_range l i :
  - len l <= i < len l -> exists x, py_index l i = Ok x /\ In x l.
Proof.
  intros Hi. destruct (Z.ltb_spec i 0).
  - destruct (py_index_negative l i) as (x & E & N); [lia|].
    exists x. split; [assumption|]. eapply nth_error_In; eassumption.
  - destruct (py_index_inside l i) as (x & E & N); [lia|].
    exists x. split; [assumption|]. eapply nth_error_In; eassumption.
Qed.

Lemma py_index_empty i : py_index (@nil A) i = Raise IndexError.
Proof.
  unfold py_index.
  destruct ((0 <=? (if i <? 0 then i + len (@nil A) else i))
            && ((if i <? 0 then i + len (@nil A) else i) <? len (@nil A))) eqn:E;
    [|reflexivity].
  apply andb_true_iff in E. destruct E as [E1 E2].
  apply Z.leb_le in E1. apply Z.ltb_lt in E2.
  unfold len in *. simpl in *. lia.
Qed.

(** [l[-1]] of a list that is not empty is its last element. *)
Lemma py_index_last l d :
  l <> [] -> py_index l (-1) = Ok (last l d).
Proof.
  intros Hl.
  assert (Hn : 1 <= len l).
  { destruct l; [congruence|]. unfold len. simpl. lia. }
  destruct (py_index_negative l (-1)) as (x & E & N); [lia|].
  rewrite E. f_equal.
  destruct (exists_last Hl) as (l' & a & ->).
  rewrite last_last.
  assert (E' : Z.to_nat (-1 + len (l' ++ [a])) = length l').
  { unfold len. rewrite length_app. cbn [length]. lia. }
  rewrite E' in N.
  rewrite nth_error_app2 in N by apply Nat.le_refl.
  rewrite Nat.sub_diag in N. simpl in N. congruence.
Qed.

Lemma last_skipn l n d :
  (n < length l)%nat -> last (skipn n l) d = last l d.
Proof.
  revert n. induction l as [|a l IH]; intros n Hn; [simpl in Hn; lia|].
  destruct n as [|n]; [reflexivity|].
  simpl in Hn. simpl skipn. rewrite IH by lia.
  destruct l; [simpl in Hn; lia|]. reflexivity.
Qed.
End PySeqFacts.

(** ** The shuffle is a permutation *)

Section ShuffleFacts.
Context {A : Type}.
Implicit Types l x : list A.

Lemma list_set_head_perm l j a b :
  nth_error l j = Some b ->
  Permutation (b :: list_set l j a) (a :: l).
Proof.
  revert j. induction l as [|h t IH]; intros [|j] Hj; simpl in Hj; try discriminate.
  - injection Hj as ->. simpl. apply perm_swap.
  - simpl. specialize (IH j Hj).
    eapply perm_trans; [apply perm_swap|].
    eapply perm_trans; [apply perm_skip, IH|]. apply perm_swap.
Qed.

Lemma list_set_same l i a :
  nth_error l i = Some a -> list_set l i a = l.
Proof.
  revert i. induction l as [|h t IH]; intros [|i] Hi; simpl in *; try discriminate.
  - congruence.
  - f_equal. auto.
Qed.

Lemma swap_perm l i j : Permutation (swap l i j) l.
Proof.
  unfold swap.
  destruct (nth_error l i) as [a|] eqn:Ei; [|reflexivity].
  destruct (nth_error l j) as [b|] eqn:Ej; [|reflexivity].
  revert i j Ei Ej. induction l as [|h t IH]; intros i j Ei Ej.
  - destruct i; discriminate.
  - destruct i as [|i], j as [|j]; simpl in Ei, Ej; simpl.
    + injection Ei as ->. injection Ej as ->. reflexivity.
    + injection Ei as ->. apply list_set_head_perm. assumption.
    + injection Ej as ->. apply list_set_head_perm. assumption.
    + apply perm_skip. apply IH; assumption.
Qed.

Lemma shuffle_from_perm i x g :
  Permutation (fst (shuffle_from i x g)) x.
Proof.
  revert x g. induction i as [|k IH]; intros x g; simpl; [reflexivity|].
  eapply perm_trans; [apply IH|]. apply swap_perm.
Qed.

Lemma shuffle_rng_perm x g : Permutation (fst (shuffle_rng x g)) x.
Proof. apply shuffle_from_perm. Qed.
End ShuffleFacts.

(** ** Machine integers *)

Lemma in_int32_spec n : in_int32 n = true <-> int32_min <= n <= int32_max.
Proof.
  unfold in_int32. rewrite andb_true_iff, Z.leb_le, Z.leb_le. reflexivity.
Qed.

(** A difference that fits in int32 is not changed by the wrap-around. *)
Lemma wrap_int32_small n : in_int32 n = true -> wrap_int32 n = n.
Proof.
  intros Hn. apply in_int32_spec in Hn. unfold wrap_int32, int32_min, int32_max in *.
  rewrite Z.mod_small by lia. lia.
Qed.

Lemma wrap_int32_range n : in_int32 (wrap_int32 n) = true.
Proof.
  apply in_int32_spec. unfold wrap_int32, int32_min, int32_max.
  pose proof (Z.mod_pos_bound (n - -2147483648) 4294967296). lia.
Qed.

Lemma int32_rsub_ok n x :
  in_int32 n = true -> int32_rsub n x = Ok (wrap_int32 (n - x)).
Proof. intros Hn. unfold int32_rsub. rewrite Hn. reflexivity. Qed.

Lemma int32_rsub_overflow n x :
  in_int32 n = false -> int32_rsub n x = Raise OverflowError.
Proof. intros Hn. unfold int32_rsub. rewrite Hn. reflexivity. Qed.

Lemma int32_rsub_inv n x t :
  int32_rsub n x = Ok t -> in_int32 n = true /\ t = wrap_int32 (n - x).
Proof.
  unfold int32_rsub. destruct (in_int32 n); [|discriminate].
  intros E. injection E as <-. auto.
Qed.

(** ** Draws *)

(** A draw from a range of int64 that is not empty is a value of the
    range, and the generator moves by one. *)
Lemma randint_rng_ok low high g :
  int64_min <= low -> high - 1 <= int64_max -> low < high ->
  exists v, low <= v < high
            /\ randint_rng low high g = (Ok v, advance g).
Proof.
  intros Hlow Hhigh Hlt. unfold randint_rng, randbelow.
  destruct (Z.ltb_spec low int64_min); [lia|].
  destruct (Z.ltb_spec int64_max (high - 1)); [lia|].
  destruct (Z.ltb_spec low high); [|lia].
  eexists. split; [|reflexivity].
  match goal with |- context [Nat.modulo ?a ?b] =>
    pose proof (Nat.mod_upper_bound a b) as Hk
  end.
  lia.
Qed.

(** A draw that returns: the range was one of int64 and not empty. *)
Lemma randint_rng_inv low high g v g' :
  randint_rng low high g = (Ok v, g') ->
  low <= v < high /\ int64_min <= low /\ high - 1 <= int64_max
  /\ g' = advance g.
Proof.
  unfold randint_rng, randbelow.
  destruct (Z.ltb_spec low int64_min); [discriminate|].
  destruct (Z.ltb_spec int64_max (high - 1)); [discriminate|].
  destruct (Z.ltb_spec low high); [|discriminate].
  intros E. injection E as <- <-.
  match goal with |- context [Nat.modulo ?a ?b] =>
    pose proof (Nat.mod_upper_bound a b) as Hk
  end.
  repeat split; lia.
Qed.

(** A draw that fails raises [ValueError] and leaves the generator. *)
Lemma randint_rng_raise low high g e g' :
  randint_rng low high g = (Raise e, g') -> e = ValueError /\ g' = g.
Proof.
  unfold randint_rng, randbelow.
  destruct (low <? int64_min); [intros E; injection E as <- <-; auto|].
  destruct (int64_max <? high - 1); [intros E; injection E as <- <-; auto|].
  destruct (low <? high); [discriminate|].
  intros E; injection E as <- <-; auto.
Qed.

(** The draw fails when a bound is outside int64 or the range is empty. *)
Lemma randint_rng_fails low high g :
  low < int64_min \/ int64_max < high - 1 \/ high <= low ->
  randint_rng low high g = (Raise ValueError, g).
Proof.
  intros Hbad. unfold randint_rng.
  destruct (Z.ltb_spec low int64_min); [reflexivity|].
  destruct (Z.ltb_spec int64_max (high - 1)); [reflexivity|].
  destruct (Z.ltb_spec low high); [lia|reflexivity].
Qed.

(** ** Computations *)

Section MonadFacts.
Context {F : Type} `{Scalar F}.

Lemma bind_ok {A B} (m : M F A) (k : A -> M F B) w a w' :
  m w = (Ok a, w') -> bind m k w = k a w'.
Proof. intros E. unfold bind. rewrite E. reflexivity. Qed.

Lemma bind_raise {A B} (m : M F A) (k : A -> M F B) w e w' :
  m w = (Raise e, w') -> bind m k w = (Raise e, w').
Proof. intros E. unfold bind. rewrite E. reflexivity. Qed.

(** What a successful sequence was made of. *)
Lemma bind_inv {A B} (m : M F A) (k : A -> M F B) w b w2 :
  bind m k w = (Ok b, w2) ->
  exists a w1, m w = (Ok a, w1) /\ k a w1 = (Ok b, w2).
Proof.
  unfold bind. destruct (m w) as [[a|e] w1]; intros E.
  - eauto.
  - discriminate.
Qed.

Lemma lift_inv {A} (r : result A) (w : world F) a w' :
  lift r w = (Ok a, w') -> r = Ok a /\ w' = w.
Proof. unfold lift. intros E. injection E as -> ->. auto. Qed.

Lemma ret_inv {A} (a b : A) (w w' : world F) :
  ret a w = (Ok b, w') -> b = a /\ w' = w.
Proof. unfold ret. intros E. injection E as -> ->. auto. Qed.

(** A loop whose body only computes appends the bodies' lists. *)
Lemma for_each_pure {X Y} (xs : list X) (body : X -> M F (list Y))
    (f : X -> list Y) w :
  (forall x w', In x xs -> body x w' = (Ok (f x), w')) ->
  for_each xs body w = (Ok (flat_map f xs), w).
Proof.
  induction xs as [|x t IH]; intros Hb; simpl; [reflexivity|].
  erewrite bind_ok by (apply Hb; left; reflexivity).
  erewrite bind_ok by (apply IH; intros; apply Hb; right; assumption).
  reflexivity.
Qed.

Lemma flat_map_const_singleton {X Y} (xs : list X) (y : Y) :
  flat_map (fun _ => [y]) xs = repeat y (length xs).
Proof. induction xs; simpl; congruence. Qed.

Lemma sub_sample_eta (s : Sample F) :
  {| frames := frames s; frame_ids := frame_ids s;
     drop_frame := drop_frame s; label_xyz := label_xyz s |} = s.
Proof. destruct s; reflexivity. Qed.

Lemma replicate_length (samples : list (Sample F)) r :
  0 <= r -> len (replicate samples r) = r * len samples.
Proof.
  intros Hr. unfold replicate, len.
  induction samples as [|s t IH]; simpl; [lia|].
  rewrite length_app, repeat_length. lia.
Qed.

Lemma replicate_In (samples : list (Sample F)) r e :
  In e (replicate samples r) <-> In e samples /\ 1 <= r.
Proof.
  unfold replicate. rewrite in_flat_map. split.
  - intros (s & Hs & He). apply repeat_spec in He as E. subst e.
    split; [assumption|]. destruct (Z.to_nat r) eqn:E; [destruct He|lia].
  - intros (Hs & Hr). exists e. split; [assumption|].
    destruct (Z.to_nat r) eqn:E; [lia|]. left. reflexivity.
Qed.

(** [resampling_v2] never fails, consumes only the shuffle's draws and
    returns the replicated pool in the order the shuffle leaves. *)
Lemma resampling_v2_run (samples : list (Sample F)) r w :
  resampling_v2 samples r w
  = (Ok (fst (shuffle_rng (replicate samples r) (py_random w))),
     {| np_random := np_random w;
        py_random := snd (shuffle_rng (replicate samples r) (py_random w));
        store := store w |}).
Proof.
  unfold resampling_v2.
  erewrite bind_ok.
  2:{ apply for_each_pure with (f := fun s => repeat s (Z.to_nat r)).
      intros s w' _.
      erewrite for_each_pure with (f := fun _ => [s]).
      - rewrite flat_map_const_singleton. unfold range.
        rewrite length_seq. reflexivity.
      - intros k w'' _. rewrite sub_sample_eta. reflexivity. }
  unfold shuffle. fold (@replicate F samples r).
  destruct (shuffle_rng (replicate samples r) (py_random w)); reflexivity.
Qed.
End MonadFacts.

(** ** The lazy expander *)

Section Expander.
Context {F : Type} `{Scalar F}.

(** C7. For every list of samples and every replication factor
    [r = num_subsamples], [resampling_v2] returns [r * N] entries; every
    entry holds the whole [frames], [frame_ids], [drop_frame] and
    [label_xyz] of one input sample; as a multiset the result is the input
    with every sample repeated [r] times, so only the order is shuffled,
    and with [r >= 1] every input sample is present; 4 copies of 10
    samples are 40 entries. *)
Theorem resampling_v2_replicates (samples : list (Sample F)) (r : Z)
    (w : world F) :
  0 <= r ->
  exists expanded w',
    resampling_v2 samples r w = (Ok expanded, w')
    /\ len expanded = r * len samples
    /\ (forall e, In e expanded ->
          exists s, In s samples
            /\ frames e = frames s /\ frame_ids e = frame_ids s
            /\ drop_frame e = drop_frame s /\ label_xyz e = label_xyz s)
    /\ Permutation expanded (replicate samples r)
    /\ (1 <= r -> forall s, In s samples -> In s expanded)
    /\ (r = 4 -> len samples = 10 -> len expanded = 40).
Proof.
  intros Hr. rewrite resampling_v2_run.
  set (g := py_random w).
  pose proof (shuffle_rng_perm (replicate samples r) g) as P.
  eexists. eexists. split; [reflexivity|].
  assert (L : len (fst (shuffle_rng (replicate samples r) g)) = r * len samples).
  { unfold len. rewrite (Permutation_length P).
    apply (replicate_length samples r Hr). }
  split; [exact L|].
  split.
  { intros e He. exists e.
    apply (Permutation_in _ P) in He. apply replicate_In in He.
    destruct He as [He _]. repeat split; assumption. }
  split; [exact P|].
  split.
  { intros Hr1 s Hs. apply (Permutation_in _ (Permutation_sym P)).
    apply replicate_In. split; assumption. }
  intros -> E. rewrite L, E. reflexivity.
Qed.
End Expander.

Lemma resampling_v2_replicates_witness :
  exists expanded w',
    resampling_v2 [ex_sample 3 5; ex_sample 4 6] 4 ex_world = (Ok expanded, w')
    /\ len expanded = 4 * len [ex_sample 3 5; ex_sample 4 6]
    /\ (forall e, In e expanded ->
          exists s, In s [ex_sample 3 5; ex_sample 4 6]
            /\ frames e = frames s /\ frame_ids e = frame_ids s
            /\ drop_frame e = drop_frame s /\ label_xyz e = label_xyz s)
    /\ Permutation expanded (replicate [ex_sample 3 5; ex_sample 4 6] 4)
    /\ (1 <= 4 -> forall s, In s [ex_sample 3 5; ex_sample 4 6] -> In s expanded)
    /\ (4 = 4 -> len [ex_sample 3 5; ex_sample 4 6] = 10 -> len expanded = 40).
Proof.
  apply (resampling_v2_replicates [ex_sample 3 5; ex_sample 4 6] 4 ex_world).
  lia.
Defined.

(** ** The sample accessor *)

Section AccessorFacts.
Context {F : Type} `{Scalar F}.

Lemma from_numpy_some r (w : world F) a :
  nth_error (store w) r = Some a -> from_numpy (Some r) w = (Ok a, w).
Proof. intros E. unfold from_numpy, load. rewrite E. reflexivity. Qed.

Lemma from_numpy_none (w : world F) :
  from_numpy None w = (Raise TypeError, w).
Proof. reflexivity. Qed.

Lemma bc_ok_same n : bc_ok n n = true.
Proof. unfold bc_ok. rewrite Nat.eqb_refl. reflexivity. Qed.

Lemma bc_size_same n : bc_size n n = n.
Proof. unfold bc_size. rewrite Nat.eqb_refl. reflexivity. Qed.

Lemma bc_row_same (op : F -> F -> F) a b :
  length a = length b -> bc_row op a b = zip_with op a b.
Proof. intros E. unfold bc_row. rewrite E, Nat.eqb_refl. reflexivity. Qed.

Lemma zip_with_length {X Y Z'} (op : X -> Y -> Z') a b :
  length a = length b -> length (zip_with op a b) = length a.
Proof.
  revert b. induction a as [|x a IH]; intros [|y b] E; simpl in *;
    try discriminate; [reflexivity|].
  f_equal. apply IH. lia.
Qed.

Lemma zip_with_nth {X Y Z'} (op : X -> Y -> Z') a b i dx dy dz :
  (i < length a)%nat -> (i < length b)%nat ->
  nth i (zip_with op a b) dz = op (nth i a dx) (nth i b dy).
Proof.
  revert a b. induction i as [|i IH]; intros [|x a] [|y b] Ha Hb;
    simpl in *; try lia; [reflexivity|].
  apply IH; lia.
Qed.

(** A row of the right width is normalized element by element. *)
Lemma normalize_row_same (r mean_row std_row : list F) :
  length r = length mean_row -> length r = length std_row ->
  bc_row fdiv (bc_row fsub r mean_row) std_row
  = zip_with fdiv (zip_with fsub r mean_row) std_row.
Proof.
  intros E1 E2. rewrite (bc_row_same fsub) by assumption.
  apply bc_row_same. rewrite zip_with_length; assumption.
Qed.

(** The accessor past the window, when nothing fails: the world is left as
    it was. *)
Lemma cut_and_normalize_run (self : BadmintonDataset F) s start_idx end_idx
    (w : world F) last_id time r1 r2 r3 r4 f_mean f_std l_mean l_std t :
  py_index (py_slice (frame_ids s) start_idx (end_idx + 1)) (-1) = Ok last_id ->
  int32_rsub (drop_frame s) last_id = Ok time ->
  get_norm_stats self = (Some r1, Some r2, Some r3, Some r4) ->
  nth_error (store w) r1 = Some f_mean ->
  nth_error (store w) r2 = Some f_std ->
  nth_error (store w) r3 = Some l_mean ->
  nth_error (store w) r4 = Some l_std ->
  bc_ok (ncols (frames s)) (length f_mean) = true ->
  bc_ok (bc_size (ncols (frames s)) (length f_mean)) (length f_std) = true ->
  bc_ok (length (label_xyz s ++ [of_Z time]))
        (length l_mean) = true ->
  bc_ok (length (bc_row fsub (label_xyz s ++ [of_Z time])
                        l_mean))
        (length l_std) = true ->
  py_index (bc_row fdiv
              (bc_row fsub (label_xyz s ++ [of_Z time])
                      l_mean) l_std) 3 = Ok t ->
  cut_and_normalize self s start_idx end_idx w
  = (Ok ({| ncols := bc_size (bc_size (ncols (frames s)) (length f_mean))
                             (length f_std);
            rows := map (fun r => bc_row fdiv r f_std)
                      (map (fun r => bc_row fsub r f_mean)
                         (py_slice (rows (frames s)) start_idx (end_idx + 1))) |},
         len (py_slice (rows (frames s)) start_idx (end_idx + 1)),
         py_slice (bc_row fdiv
                     (bc_row fsub
                        (label_xyz s ++ [of_Z time])
                        l_mean) l_std) 0 3,
         t), w).
Proof.
  intros Eid Etime Est E1 E2 E3 E4 B1 B2 B3 B4 Et.
  unfold get_norm_stats in Est. injection Est as S1 S2 S3 S4.
  unfold cut_and_normalize.
  rewrite Eid. unfold lift at 1. unfold bind at 1.
  rewrite Etime. unfold lift at 1. unfold bind at 1.
  rewrite S1, (bind_ok _ _ _ _ _ (from_numpy_some _ _ _ E1)).
  unfold broadcast2 at 1. cbn [ncols rows]. rewrite B1.
  unfold lift at 1. unfold bind at 1.
  rewrite S2, (bind_ok _ _ _ _ _ (from_numpy_some _ _ _ E2)).
  unfold broadcast2 at 1. cbn [ncols rows]. rewrite B2.
  unfold lift at 1. unfold bind at 1.
  rewrite S3, (bind_ok _ _ _ _ _ (from_numpy_some _ _ _ E3)).
  unfold broadcast1 at 1. rewrite B3.
  unfold lift at 1. unfold bind at 1.
  rewrite S4, (bind_ok _ _ _ _ _ (from_numpy_some _ _ _ E4)).
  unfold broadcast1 at 1. rewrite B4.
  unfold lift at 1. unfold bind at 1.
  rewrite Et. unfold lift at 1. unfold bind at 1.
  reflexivity.
Qed.

(** An empty window makes the accessor fail on [frame_ids[-1]]. *)
Lemma cut_and_normalize_empty (self : BadmintonDataset F) s start_idx end_idx
    (w : world F) :
  py_slice (frame_ids s) start_idx (end_idx + 1) = [] ->
  cut_and_normalize self s start_idx end_idx w = (Raise IndexError, w).
Proof.
  intros E. unfold cut_and_normalize. rewrite E, py_index_empty.
  reflexivity.
Qed.

(** The window of a dataset that is not in training mode. *)
Lemma sample_window_eval (self : BadmintonDataset F) total_len (w : world F) :
  self_mode self <> "train"%string ->
  sample_window self total_len w
  = (Ok (total_len - self_max_len self, total_len - 1), w).
Proof.
  intros Hm. unfold sample_window.
  destruct (String.eqb_spec (self_mode self) "train"); [contradiction|].
  reflexivity.
Qed.

(** The window of a training dataset with a range of int64 that is not
    empty: the draw lies in [[min_len, max_len]] and only the numpy
    generator moves, by one draw. *)
Lemma sample_window_train (self : BadmintonDataset F) total_len (w : world F) :
  self_mode self = "train"%string ->
  int64_min <= self_min_len self ->
  self_min_len self <= self_max_len self ->
  self_max_len self <= int64_max ->
  exists draw w',
    self_min_len self <= draw <= self_max_len self
    /\ sample_window self total_len w
       = (Ok (total_len - 1 - Z.min draw total_len + 1, total_len - 1), w')
    /\ w' = {| np_random := advance (np_random w);
               py_random := py_random w;
               store := store w |}.
Proof.
  intros Hm Hlow Hle Hhigh. unfold sample_window. rewrite Hm, String.eqb_refl.
  destruct (randint_rng_ok (self_min_len self) (self_max_len self + 1)
              (np_random w)) as (draw & Hdraw & Er); [lia..|].
  unfold randint, bind. rewrite Er.
  exists draw. eexists. split; [lia|]. split; [|reflexivity].
  unfold ret. do 3 f_equal.
  destruct (Z.ltb_spec total_len draw); lia.
Qed.

(** The same, with the draw named: it is what [randint] returns in the
    world of the access. *)
Lemma sample_window_train_draw (self : BadmintonDataset F) total_len
    (w : world F) :
  self_mode self = "train"%string ->
  int64_min <= self_min_len self ->
  self_min_len self <= self_max_len self ->
  self_max_len self <= int64_max ->
  exists draw w',
    self_min_len self <= draw <= self_max_len self
    /\ fst (randint (self_min_len self) (self_max_len self + 1) w) = Ok draw
    /\ sample_window self total_len w
       = (Ok (total_len - 1 - Z.min draw total_len + 1, total_len - 1), w')
    /\ w' = {| np_random := advance (np_random w);
               py_random := py_random w;
               store := store w |}.
Proof.
  intros Hm Hlow Hle Hhigh. unfold sample_window. rewrite Hm, String.eqb_refl.
  destruct (randint_rng_ok (self_min_len self) (self_max_len self + 1)
              (np_random w)) as (draw & Hdraw & Er); [lia..|].
  unfold randint, bind. rewrite Er.
  exists draw. eexists. split; [lia|]. split; [reflexivity|].
  split; [|reflexivity].
  unfold ret. do 3 f_equal.
  destruct (Z.ltb_spec total_len draw); lia.
Qed.

(** The window of a training dataset, when it is returned. *)
Lemma sample_window_train_inv (self : BadmintonDataset F) total_len
    (w w' : world F) win :
  self_mode self = "train"%string ->
  sample_window self total_len w = (Ok win, w') ->
  exists draw,
    self_min_len self <= draw <= self_max_len self
    /\ win = (total_len - 1 - Z.min draw total_len + 1, total_len - 1)
    /\ store w' = store w.
Proof.
  intros Hm. unfold sample_window. rewrite Hm, String.eqb_refl.
  unfold randint, bind.
  destruct (randint_rng (self_min_len self) (self_max_len self + 1)
              (np_random w)) as [[draw|e] g] eqn:Er; [|discriminate].
  apply randint_rng_inv in Er. destruct Er as (Hdraw & _).
  unfold ret. intros E. injection E as <- <-.
  exists draw. split; [lia|]. split; [|reflexivity].
  do 2 f_equal. destruct (Z.ltb_spec total_len draw); lia.
Qed.
End AccessorFacts.

(** ** The evaluation window *)

Section EvalWindow.
Context {F : Type} `{Scalar F}.

Lemma py_slice_incl {A} (l : list A) start stop x :
  In x (py_slice l start stop) -> In x l.
Proof.
  unfold py_slice. intros Hx.
  set (a := Z.to_nat (slice_bound start (len l))) in *.
  set (n := Z.to_nat _) in Hx.
  rewrite <- (firstn_skipn a l). apply in_or_app. right.
  rewrite <- (firstn_skipn n (skipn a l)). apply in_or_app. left. exact Hx.
Qed.

(** The last element of a suffix is the last element of the list. *)
Lemma py_index_last_of_suffix {A} (l : list A) start d :
  0 <= start < len l ->
  py_index (py_slice l start (len l)) (-1)
  = Ok (nth (Z.to_nat (len l - 1)) l d).
Proof.
  intros Hs. rewrite py_slice_suffix by lia.
  assert (L : len (skipn (Z.to_nat start) l) = len l - start).
  { unfold len in *. rewrite length_skipn. lia. }
  destruct (py_index_negative (skipn (Z.to_nat start) l) (-1)) as (x & E & N);
    [lia|].
  rewrite E. f_equal.
  rewrite nth_error_skipn in N.
  replace (Z.to_nat start + Z.to_nat (-1 + len (skipn (Z.to_nat start) l)))%nat
    with (Z.to_nat (len l - 1)) in N by lia.
  symmetry. apply nth_error_nth. exact N.
Qed.

(** When [max_len] lies between the length of the trajectory and twice that
    length, the negative start wraps around: the window is the last
    [max_len - total_len] frames. *)
Lemma eval_window_wraps {A} (l : list A) max_len :
  len l < max_len < 2 * len l ->
  py_slice l (len l - max_len) (len l - 1 + 1)
  = skipn (Z.to_nat (2 * len l - max_len)) l
  /\ len (py_slice l (len l - max_len) (len l - 1 + 1)) = max_len - len l.
Proof.
  intros Hm.
  replace (len l - 1 + 1) with (len l) by lia.
  rewrite py_slice_negative_start by lia.
  rewrite py_slice_suffix by lia.
  replace (len l - max_len + len l) with (2 * len l - max_len) by lia.
  split; [reflexivity|].
  unfold len in *. rewrite length_skipn. lia.
Qed.

(** From twice the length on, the start is clipped and the window is the
    whole trajectory. *)
Lemma eval_window_clipped {A} (l : list A) max_len :
  2 * len l <= max_len ->
  py_slice l (len l - max_len) (len l - 1 + 1) = l.
Proof.
  intros Hm.
  replace (len l - 1 + 1) with (len l) by lia.
  rewrite py_slice_clipped_start by lia. apply py_slice_all.
Qed.

(** C2, as the code has it.  For a dataset that is not in training mode, a
    sample of the data model (frames of one width, as many frame ids as
    frames, three landing coordinates, [drop_frame] in the range of int32),
    statistics of the matching widths, and [1 <= max_len <= total_len]:
    [__getitem__] returns the window
    [frames[total_len - max_len : total_len]] of length [max_len], the
    features normalized element by element as [(x - feature_mean) /
    feature_std], the landing point as [(label - label_mean) / label_std]
    and the time label [(time - label_mean[3]) / label_std[3]], where
    [time] is the int32 difference [drop_frame - frame_ids[total_len - 1]],
    the difference itself when it fits in int32; the world is left as it
    was.  For frame ids [0 .. 19], [drop_frame = 25] and [max_len = 10] the
    window is rows 10 to 19 and the time label is
    [(6 - label_mean[3]) / label_std[3]]. *)
Theorem getitem_eval_window (self : BadmintonDataset F) (idx : Z)
    (w : world F) (s : Sample F) (r1 r2 r3 r4 : ref)
    (f_mean f_std l_mean l_std : list F) :
  self_mode self <> "train"%string ->
  py_index (self_samples self) idx = Ok s ->
  get_norm_stats self = (Some r1, Some r2, Some r3, Some r4) ->
  nth_error (store w) r1 = Some f_mean ->
  nth_error (store w) r2 = Some f_std ->
  nth_error (store w) r3 = Some l_mean ->
  nth_error (store w) r4 = Some l_std ->
  wf_array2 (frames s) ->
  len (frame_ids s) = len (rows (frames s)) ->
  length (label_xyz s) = 3%nat ->
  in_int32 (drop_frame s) = true ->
  length f_mean = ncols (frames s) ->
  length f_std = ncols (frames s) ->
  length l_mean = 4%nat ->
  length l_std = 4%nat ->
  1 <= self_max_len self <= len (rows (frames s)) ->
  let total_len := len (rows (frames s)) in
  let max_len := self_max_len self in
  let start_idx := total_len - max_len in
  let end_idx := total_len - 1 in
  let window := py_slice (rows (frames s)) start_idx total_len in
  let normalize := fun r => zip_with fdiv (zip_with fsub r f_mean) f_std in
  let time := drop_frame s - nth (Z.to_nat end_idx) (frame_ids s) 0 in
  exists out xyz t,
    __getitem__ self idx w = (Ok (out, max_len, xyz, t), w)
    /\ window = skipn (Z.to_nat start_idx) (rows (frames s))
    /\ len window = max_len
    /\ ncols out = ncols (frames s)
    /\ rows out = map normalize window
    /\ xyz = zip_with fdiv (zip_with fsub (label_xyz s) (firstn 3 l_mean))
                      (firstn 3 l_std)
    /\ t = fdiv (fsub (of_Z (wrap_int32 time)) (nth 3 l_mean fzero))
                (nth 3 l_std fzero)
    /\ (in_int32 time = true ->
        t = fdiv (fsub (of_Z time) (nth 3 l_mean fzero)) (nth 3 l_std fzero))
    /\ (frame_ids s = map Z.of_nat (seq 0 20) -> drop_frame s = 25 ->
        max_len = 10 ->
        rows out = map normalize (skipn 10 (rows (frames s)))
        /\ t = fdiv (fsub (of_Z 6) (nth 3 l_mean fzero)) (nth 3 l_std fzero)).
Proof.
  intros Hmode Hs Hst E1 E2 E3 E4 Hwf Hids Hxyz Hdrop32 Lfm Lfs Llm Lls Hmax.
  intros total_len max_len start_idx end_idx window normalize time.
  assert (Hwin : window = skipn (Z.to_nat start_idx) (rows (frames s))).
  { apply py_slice_suffix. subst start_idx total_len max_len. lia. }
  assert (Hlen : len window = max_len).
  { unfold window. rewrite py_slice_inside_length;
      subst start_idx total_len max_len; lia. }
  assert (Hend : end_idx + 1 = total_len) by (subst end_idx; lia).
  set (last_id := nth (Z.to_nat end_idx) (frame_ids s) 0).
  assert (Hlast : py_index (py_slice (frame_ids s) start_idx (end_idx + 1)) (-1)
                  = Ok last_id).
  { rewrite Hend. unfold total_len. rewrite <- Hids.
    rewrite (py_index_last_of_suffix _ _ 0).
    - unfold last_id, end_idx, total_len. rewrite Hids. reflexivity.
    - rewrite Hids. subst start_idx total_len max_len. lia. }
  pose proof (int32_rsub_ok (drop_frame s) last_id Hdrop32) as Htime.
  fold time in Htime.
  set (time_raw := of_Z (wrap_int32 time)).
  destruct (label_xyz s) as [|x0 [|x1 [|x2 [|]]]] eqn:Exyz; try discriminate.
  destruct l_mean as [|m0 [|m1 [|m2 [|m3 [|]]]]]; try discriminate.
  destruct l_std as [|s0 [|s1 [|s2 [|s3 [|]]]]]; try discriminate.
  pose proof (cut_and_normalize_run self s start_idx end_idx w last_id
                (wrap_int32 time)
                r1 r2 r3 r4 f_mean f_std [m0; m1; m2; m3] [s0; s1; s2; s3]
                (fdiv (fsub time_raw m3) s3) Hlast Htime Hst E1 E2 E3 E4) as Run.
  rewrite Lfm, Lfs, Exyz in Run.
  rewrite !bc_size_same, !bc_ok_same in Run.
  specialize (Run eq_refl eq_refl eq_refl eq_refl eq_refl).
  rewrite Hend in Run. fold window in Run.
  eexists. eexists. eexists.
  split.
  { unfold __getitem__. rewrite Hs. unfold lift at 1. unfold bind at 1.
    rewrite (bind_ok _ _ _ _ _ (sample_window_eval self _ w Hmode)).
    cbn [fst snd]. fold total_len max_len start_idx end_idx.
    rewrite Run, Hlen. reflexivity. }
  assert (Hrows : map (fun r => bc_row fdiv r f_std)
                    (map (fun r => bc_row fsub r f_mean) window)
                  = map normalize window).
  { rewrite map_map. apply map_ext_in. intros r Hr.
    apply py_slice_incl in Hr.
    unfold wf_array2 in Hwf. rewrite Forall_forall in Hwf.
    specialize (Hwf r Hr).
    apply normalize_row_same; congruence. }
  split; [exact Hwin|]. split; [exact Hlen|]. split; [reflexivity|].
  split; [exact Hrows|]. split; [reflexivity|]. split; [reflexivity|].
  split.
  { intros Hfit. unfold time_raw. rewrite (wrap_int32_small time Hfit).
    reflexivity. }
  intros Hfi Hdrop Hten.
  assert (Htot : total_len = 20).
  { unfold total_len. rewrite <- Hids, Hfi. reflexivity. }
  split.
  - cbn [rows]. rewrite Hrows, Hwin. do 2 f_equal.
    subst start_idx. rewrite Hten, Htot. reflexivity.
  - unfold time_raw, time, last_id. subst end_idx.
    rewrite Htot, Hdrop, Hfi. reflexivity.
Qed.
End EvalWindow.

Lemma getitem_eval_window_witness :
  exists out xyz t,
    __getitem__ (ex_eval [ex_sample 20 25] 10) 0 ex_stats_world
    = (Ok (out, 10, xyz, t), ex_stats_world)
    /\ rows out = skipn 10 (rows (frames (ex_sample 20 25)))
    /\ t = 6.
Proof.
  destruct (getitem_eval_window (ex_eval [ex_sample 20 25] 10) 0 ex_stats_world
              (ex_sample 20 25) 0%nat 1%nat 2%nat 3%nat
              [0; 0] [1; 1] [0; 0; 0; 0] [1; 1; 1; 1])
    as (out & xyz & t & E & _ & _ & _ & R & _ & T & _).
  - simpl. discriminate.
  - reflexivity.
  - reflexivity.
  - reflexivity.
  - reflexivity.
  - reflexivity.
  - reflexivity.
  - unfold wf_array2. simpl. repeat constructor.
  - reflexivity.
  - reflexivity.
  - reflexivity.
  - reflexivity.
  - reflexivity.
  - reflexivity.
  - reflexivity.
  - vm_compute. split; discriminate.
  - exists out, xyz, t. split; [exact E|]. split.
    + rewrite R. reflexivity.
    + rewrite T. reflexivity.
Defined.

(** C2 as stated fails for [max_len = 0]: the sample has
    [total_len = 3 >= max_len], the window is empty and [frame_ids[-1]]
    raises [IndexError] instead of a tuple being returned.  It fails also
    for [drop_frame = 2^31], outside the range of int32: the subtraction
    of the int32 frame id raises [OverflowError].  And for
    [drop_frame = 2^31 - 1] and a last frame id of [-1] the raw time label
    is not [drop_frame - frame_ids[end] = 2^31] but [-2^31]. *)
Lemma getitem_eval_max_len_zero :
  (self_max_len (ex_eval [ex_sample 3 5] 0)
   <= len (rows (frames (ex_sample 3 5)))
   /\ __getitem__ (ex_eval [ex_sample 3 5] 0) 0 ex_stats_world
      = (Raise IndexError, ex_stats_world))
  /\ (self_max_len (ex_eval [ex_sample 3 (2 ^ 31)] 3)
      <= len (rows (frames (ex_sample 3 (2 ^ 31))))
      /\ __getitem__ (ex_eval [ex_sample 3 (2 ^ 31)] 3) 0 ex_stats_world
         = (Raise OverflowError, ex_stats_world))
  /\ (exists out xyz,
        __getitem__
          (ex_eval [ {| frames := {| ncols := 2; rows := [[0; 0]] |};
                        frame_ids := [-1];
                        drop_frame := 2 ^ 31 - 1;
                        label_xyz := [100; 50; 0] |} ] 1) 0 ex_stats_world
        = (Ok (out, 1, xyz, - 2 ^ 31), ex_stats_world)).
Proof.
  split; [|split].
  - split; [vm_compute; discriminate|reflexivity].
  - split; [vm_compute; discriminate|vm_compute; reflexivity].
  - do 2 eexists. vm_compute. reflexivity.
Qed.

(** C9 at [total_len = 5], [max_len = 7]: the accessor neither fails nor
    uses the whole trajectory; the negative start [5 - 7 = -2] counts from
    the end and the result is the last two frames, with [length = 2]. *)
Theorem getitem_eval_short_trajectory :
  len (rows (frames (ex_sample 5 9))) = 5
  /\ self_max_len (ex_eval [ex_sample 5 9] 7) = 7
  /\ __getitem__ (ex_eval [ex_sample 5 9] 7) 0 ex_stats_world
     = (Ok ({| ncols := 2; rows := [[3; 30]; [4; 40]] |}, 2, [100; 50; 0], 5),
        ex_stats_world).
Proof. repeat split. Qed.

(** ** The statistics are shared and never written *)

Section Frame.
Context {F : Type} `{Scalar F}.

Lemma keeps_world_store {A} (m : M F A) : keeps_world m -> keeps_store m.
Proof. intros K w. rewrite K. reflexivity. Qed.

Lemma keeps_world_ret {A} (a : A) : keeps_world (ret (F := F) a).
Proof. intros w. reflexivity. Qed.

Lemma keeps_world_raise {A} e : keeps_world (raise (F := F) (A := A) e).
Proof. intros w. reflexivity. Qed.

Lemma keeps_world_lift {A} (r : result A) : keeps_world (lift (F := F) r).
Proof. intros w. reflexivity. Qed.

Lemma keeps_world_load r : keeps_world (load (F := F) r).
Proof. intros w. unfold load. destruct (nth_error (store w) r); reflexivity. Qed.

Lemma keeps_world_from_numpy a : keeps_world (from_numpy (F := F) a).
Proof.
  destruct a; [apply keeps_world_load|apply keeps_world_raise].
Qed.

Lemma keeps_world_bind {A B} (m : M F A) (k : A -> M F B) :
  keeps_world m -> (forall a, keeps_world (k a)) -> keeps_world (bind m k).
Proof.
  intros Km Kk w. unfold bind. specialize (Km w).
  destruct (m w) as [[a|e] w1]; simpl in Km; subst w1.
  - apply Kk.
  - reflexivity.
Qed.

Lemma keeps_store_bind {A B} (m : M F A) (k : A -> M F B) :
  keeps_store m -> (forall a, keeps_store (k a)) -> keeps_store (bind m k).
Proof.
  intros Km Kk w. unfold bind. specialize (Km w).
  destruct (m w) as [[a|e] w1]; simpl in Km.
  - rewrite Kk. exact Km.
  - exact Km.
Qed.

Lemma keeps_store_randint low high : keeps_store (randint (F := F) low high).
Proof.
  intros w. unfold randint.
  destruct (randint_rng low high (np_random w)). reflexivity.
Qed.

Lemma keeps_store_shuffle {A} (x : list A) : keeps_store (shuffle (F := F) x).
Proof.
  intros w. unfold shuffle.
  destruct (shuffle_rng x (py_random w)). reflexivity.
Qed.

(** Past the window the accessor only reads. *)
Lemma keeps_world_cut_and_normalize (self : BadmintonDataset F) s a b :
  keeps_world (cut_and_normalize self s a b).
Proof.
  unfold cut_and_normalize.
  repeat first
    [ apply keeps_world_bind; [|intros ?]
    | apply keeps_world_lift
    | apply keeps_world_from_numpy
    | apply keeps_world_ret ].
Qed.

Lemma keeps_store_sample_window (self : BadmintonDataset F) total_len :
  keeps_store (sample_window self total_len).
Proof.
  unfold sample_window. destruct (String.eqb (self_mode self) "train").
  - apply keeps_store_bind; [apply keeps_store_randint|].
    intros a. apply keeps_world_store, keeps_world_ret.
  - apply keeps_world_store, keeps_world_ret.
Qed.

(** [__getitem__] writes no array of the store, on any dataset. *)
Lemma keeps_store_getitem (self : BadmintonDataset F) idx :
  keeps_store (__getitem__ self idx).
Proof.
  unfold __getitem__.
  apply keeps_store_bind; [apply keeps_world_store, keeps_world_lift|].
  intros s. apply keeps_store_bind; [apply keeps_store_sample_window|].
  intros win. apply keeps_world_store, keeps_world_cut_and_normalize.
Qed.

Lemma run_accesses_store (train eval : BadmintonDataset F) accesses w :
  store (run_accesses train eval accesses w) = store w.
Proof.
  revert w. induction accesses as [|[b idx] rest IH]; intros w; simpl.
  - reflexivity.
  - rewrite IH. apply keeps_store_getitem.
Qed.

(** What a successful training-mode construction leaves. *)
Lemma init_train_inv (samples : list (Sample F)) min_len max_len r a b c d
    (w w1 : world F) (train : BadmintonDataset F) :
  __init__ samples min_len max_len "train" r a b c d w = (Ok train, w1) ->
  exists f_mean f_std l_mean l_std,
    norm_stats samples = Ok (f_mean, f_std, l_mean, l_std)
    /\ store w1 = store w ++ [f_mean; f_std; l_mean; l_std]
    /\ get_norm_stats train
       = (Some (length (store w)), Some (S (length (store w))),
          Some (S (S (length (store w)))), Some (S (S (S (length (store w))))))
    /\ self_samples train = fst (shuffle_rng (replicate samples r) (py_random w))
    /\ self_min_len train = min_len
    /\ self_max_len train = max_len
    /\ self_mode train = "train"%string
    /\ (2 <= length l_std)%nat.
Proof.
  unfold __init__.
  destruct (negb (0 <? len samples)); [discriminate|].
  rewrite String.eqb_refl.
  intros E.
  apply bind_inv in E. destruct E as ([[[f_mean f_std] l_mean] l_std] & w' & E0 & E).
  apply lift_inv in E0. destruct E0 as [E0 ->].
  unfold alloc at 1 in E. unfold bind at 1 in E.
  unfold alloc at 1 in E. unfold bind at 1 in E.
  unfold alloc at 1 in E. unfold bind at 1 in E.
  unfold alloc at 1 in E. unfold bind at 1 in E.
  cbn [store np_random py_random] in E.
  apply bind_inv in E. destruct E as (std_x & w' & Ex & E).
  apply lift_inv in Ex. destruct Ex as [Ex ->].
  apply bind_inv in E. destruct E as (std_y & w' & Ey & E).
  apply lift_inv in Ey. destruct Ey as [Ey ->].
  apply bind_inv in E. destruct E as (expanded & w' & Er & E).
  rewrite resampling_v2_run in Er. injection Er as <- <-.
  unfold ret in E. injection E as <- <-.
  exists f_mean, f_std, l_mean, l_std.
  cbn [store np_random py_random get_norm_stats self_feature_mean
       self_feature_std self_label_mean self_label_std self_samples
       self_min_len self_max_len self_mode].
  rewrite !length_app. cbn [length].
  rewrite <- !app_assoc. cbn [app].
  replace (length (store w) + 1)%nat with (S (length (store w))) by lia.
  replace (S (length (store w)) + 1)%nat with (S (S (length (store w)))) by lia.
  replace (S (S (length (store w))) + 1)%nat
    with (S (S (S (length (store w))))) by lia.
  split; [exact E0|]. repeat (split; [reflexivity|]).
  destruct l_std as [|? [|? ?]]; [discriminate Ex|discriminate Ey|].
  cbn [length]. lia.
Qed.
End Frame.

Section SharedStatistics.
Context {F : Type} `{Scalar F}.

Lemma stats_values_store (w w' : world F) refs :
  store w' = store w -> stats_values w' refs = stats_values w refs.
Proof. intros E. unfold stats_values. rewrite E. reflexivity. Qed.

Lemma nth_error_appended {A} (l : list A) a0 a1 a2 a3 :
  nth_error (l ++ [a0; a1; a2; a3]) (length l) = Some a0
  /\ nth_error (l ++ [a0; a1; a2; a3]) (S (length l)) = Some a1
  /\ nth_error (l ++ [a0; a1; a2; a3]) (S (S (length l))) = Some a2
  /\ nth_error (l ++ [a0; a1; a2; a3]) (S (S (S (length l)))) = Some a3.
Proof.
  repeat split.
  - rewrite nth_error_app2 by lia. rewrite Nat.sub_diag. reflexivity.
  - rewrite nth_error_app2 by lia.
    replace (S (length l) - length l)%nat with 1%nat by lia. reflexivity.
  - rewrite nth_error_app2 by lia.
    replace (S (S (length l)) - length l)%nat with 2%nat by lia. reflexivity.
  - rewrite nth_error_app2 by lia.
    replace (S (S (S (length l))) - length l)%nat with 3%nat by lia.
    reflexivity.
Qed.

(** After a training-mode construction the references of the dataset point
    to the statistics of its samples. *)
Lemma init_train_stats_values (samples : list (Sample F)) min_len max_len r
    a b c d (w w1 : world F) (train : BadmintonDataset F) :
  __init__ samples min_len max_len "train" r a b c d w = (Ok train, w1) ->
  exists stats,
    norm_stats samples = Ok stats
    /\ stats_values w1 (get_norm_stats train) = Some stats.
Proof.
  intros E. apply init_train_inv in E.
  destruct E as (f_mean & f_std & l_mean & l_std & En & Es & Eg & _).
  exists (f_mean, f_std, l_mean, l_std). split; [exact En|].
  rewrite Eg. unfold stats_values. rewrite Es.
  destruct (nth_error_appended (store w) f_mean f_std l_mean l_std)
    as (-> & -> & -> & ->).
  reflexivity.
Qed.

(** A construction in another mode than training stores what it is given
    and touches nothing. *)
Lemma init_eval_run (samples : list (Sample F)) min_len max_len mode r
    a b c d (w : world F) :
  samples <> [] -> mode <> "train"%string ->
  __init__ samples min_len max_len mode r a b c d w
  = (Ok {| self_samples := samples;
           self_min_len := min_len;
           self_max_len := max_len;
           self_mode := mode;
           self_feature_mean := a;
           self_feature_std := b;
           self_label_mean := c;
           self_label_std := d;
           self_noise_std_x := None;
           self_noise_std_y := None |}, w).
Proof.
  intros Hs Hm. unfold __init__.
  destruct samples as [|s0 rest]; [congruence|].
  destruct (String.eqb_spec mode "train"); [contradiction|].
  reflexivity.
Qed.

(** C1. An evaluation-mode dataset constructed with the four statistics of
    a training-mode dataset stores exactly the references it is given: the
    arrays they point to are the statistics of the training samples, not
    of the evaluation samples; the construction changes nothing in the
    world, and after any sequence of [__getitem__] accesses on either
    dataset the store is the same and [get_norm_stats] of both datasets
    still yields the training-time statistics. *)
Theorem eval_stats_are_training_stats
    (samples eval_samples : list (Sample F))
    (min_len max_len eval_min_len eval_max_len r eval_r : Z)
    (a b c d : option ref) (mode : string) (w w1 : world F)
    (train : BadmintonDataset F) :
  __init__ samples min_len max_len "train" r a b c d w = (Ok train, w1) ->
  eval_samples <> [] ->
  mode <> "train"%string ->
  exists stats eval f_mean f_std l_mean l_std,
    get_norm_stats train = (f_mean, f_std, l_mean, l_std)
    /\ norm_stats samples = Ok stats
    /\ stats_values w1 (get_norm_stats train) = Some stats
    /\ __init__ eval_samples eval_min_len eval_max_len mode eval_r
         f_mean f_std l_mean l_std w1 = (Ok eval, w1)
    /\ get_norm_stats eval = get_norm_stats train
    /\ forall accesses,
         store (run_accesses train eval accesses w1) = store w1
         /\ stats_values (run_accesses train eval accesses w1)
              (get_norm_stats train) = Some stats
         /\ stats_values (run_accesses train eval accesses w1)
              (get_norm_stats eval) = Some stats.
Proof.
  intros Etrain Hs Hm.
  destruct (init_train_stats_values _ _ _ _ _ _ _ _ _ _ _ Etrain)
    as (stats & En & Ev).
  destruct (get_norm_stats train) as [[[f_mean f_std] l_mean] l_std] eqn:Eg.
  eexists stats, _, f_mean, f_std, l_mean, l_std.
  split; [reflexivity|]. split; [exact En|]. split; [exact Ev|].
  split; [apply init_eval_run; assumption|].
  split; [reflexivity|].
  intros accesses.
  pose proof (run_accesses_store train
                {| self_samples := eval_samples;
                   self_min_len := eval_min_len;
                   self_max_len := eval_max_len;
                   self_mode := mode;
                   self_feature_mean := f_mean;
                   self_feature_std := f_std;
                   self_label_mean := l_mean;
                   self_label_std := l_std;
                   self_noise_std_x := None;
                   self_noise_std_y := None |} accesses w1) as St.
  split; [exact St|].
  unfold get_norm_stats at 1.
  cbn [self_feature_mean self_feature_std self_label_mean self_label_std].
  rewrite !(stats_values_store _ _ _ St). split; exact Ev.
Qed.
End SharedStatistics.

Lemma eval_stats_are_training_stats_witness :
  exists stats eval f_mean f_std l_mean l_std,
    get_norm_stats ex_train = (f_mean, f_std, l_mean, l_std)
    /\ norm_stats [ex_sample 3 5; ex_sample 4 6] = Ok stats
    /\ stats_values ex_train_world (get_norm_stats ex_train) = Some stats
    /\ __init__ [ex_sample 5 9] 10 3 "test" 5 f_mean f_std l_mean l_std
         ex_train_world = (Ok eval, ex_train_world)
    /\ get_norm_stats eval = get_norm_stats ex_train
    /\ forall accesses,
         store (run_accesses ex_train eval accesses ex_train_world)
         = store ex_train_world
         /\ stats_values (run_accesses ex_train eval accesses ex_train_world)
              (get_norm_stats ex_train) = Some stats
         /\ stats_values (run_accesses ex_train eval accesses ex_train_world)
              (get_norm_stats eval) = Some stats.
Proof.
  apply (eval_stats_are_training_stats
           [ex_sample 3 5; ex_sample 4 6] [ex_sample 5 9] 2 3 10 3 2 5
           None None None None "test" ex_world ex_train_world ex_train).
  - vm_compute. reflexivity.
  - discriminate.
  - discriminate.
Defined.

(** ** Construction without statistics *)

Section MissingStatistics.
Context {F : Type} `{Scalar F}.

Lemma from_numpy_inv a (w w' : world F) v :
  from_numpy a w = (Ok v, w') -> exists r, a = Some r.
Proof. destruct a as [r|]; [eauto|discriminate]. Qed.

(** An access that returns has read all four statistics. *)
Lemma getitem_ok_stats (self : BadmintonDataset F) idx (w w' : world F) item :
  __getitem__ self idx w = (Ok item, w') ->
  exists r1 r2 r3 r4,
    get_norm_stats self = (Some r1, Some r2, Some r3, Some r4).
Proof.
  unfold __getitem__. intros E.
  apply bind_inv in E. destruct E as (s & w1 & _ & E).
  apply bind_inv in E. destruct E as (win & w2 & _ & E).
  unfold cut_and_normalize in E.
  apply bind_inv in E. destruct E as (last_id & w3 & _ & E).
  apply bind_inv in E. destruct E as (time & w3' & _ & E).
  apply bind_inv in E. destruct E as (f_mean & w4 & E1 & E).
  apply bind_inv in E. destruct E as (seq1 & w5 & _ & E).
  apply bind_inv in E. destruct E as (f_std & w6 & E2 & E).
  apply bind_inv in E. destruct E as (seq2 & w7 & _ & E).
  apply bind_inv in E. destruct E as (l_mean & w8 & E3 & E).
  apply bind_inv in E. destruct E as (lab1 & w9 & _ & E).
  apply bind_inv in E. destruct E as (l_std & w10 & E4 & _).
  apply from_numpy_inv in E1, E2, E3, E4.
  destruct E1 as [r1 E1], E2 as [r2 E2], E3 as [r3 E3], E4 as [r4 E4].
  exists r1, r2, r3, r4. unfold get_norm_stats.
  rewrite E1, E2, E3, E4. reflexivity.
Qed.

(** C3, as the code has it.  A construction in another mode than training
    checks only that the samples are not empty: with any of the four
    statistics left out it still succeeds, stores the samples and the four
    arguments as they are ([None] where one is left out), computes no
    statistics and changes nothing in the world; every [__getitem__] on a
    dataset that lacks one of the statistics then raises instead of
    returning a tuple. *)
Theorem init_eval_stores_arguments (samples : list (Sample F))
    (min_len max_len r : Z) (mode : string) (a b c d : option ref)
    (w : world F) :
  samples <> [] ->
  mode <> "train"%string ->
  exists self,
    __init__ samples min_len max_len mode r a b c d w = (Ok self, w)
    /\ get_norm_stats self = (a, b, c, d)
    /\ self_samples self = samples
    /\ (a = None \/ b = None \/ c = None \/ d = None ->
        forall idx w', exists e w'', __getitem__ self idx w' = (Raise e, w'')).
Proof.
  intros Hs Hm. eexists. split; [apply init_eval_run; assumption|].
  split; [reflexivity|]. split; [reflexivity|].
  intros Hnone idx w'.
  match goal with |- context [__getitem__ ?self idx w'] =>
    destruct (__getitem__ self idx w') as [[item|e] w''] eqn:E
  end.
  - apply getitem_ok_stats in E. destruct E as (r1 & r2 & r3 & r4 & E).
    unfold get_norm_stats in E.
    cbn [self_feature_mean self_feature_std self_label_mean self_label_std] in E.
    injection E as -> -> -> ->.
    destruct Hnone as [Hn|[Hn|[Hn|Hn]]]; discriminate Hn.
  - eauto.
Qed.
End MissingStatistics.

Lemma init_eval_stores_arguments_witness :
  exists self,
    __init__ [ex_sample 3 5] 10 50 "test" 5 (Some 0%nat) None (Some 2%nat) None
      ex_stats_world = (Ok self, ex_stats_world)
    /\ get_norm_stats self = (Some 0%nat, None, Some 2%nat, None)
    /\ self_samples self = [ex_sample 3 5]
    /\ (Some 0%nat = None \/ @None ref = None \/ Some 2%nat = None
        \/ @None ref = None ->
        forall idx w', exists e w'', __getitem__ self idx w' = (Raise e, w'')).
Proof.
  apply (init_eval_stores_arguments [ex_sample 3 5] 10 50 5 "test"
           (Some 0%nat) None (Some 2%nat) None ex_stats_world).
  - discriminate.
  - discriminate.
Defined.

(** C3 as stated fails: with all four statistics left out the construction
    does not fail; it returns a dataset that has no statistics. *)
Lemma init_eval_without_stats_succeeds :
  exists self,
    __init__ [ex_sample 3 5] 10 50 "test" 5 None None None None ex_world
    = (Ok self, ex_world)
    /\ get_norm_stats self = (None, None, None, None).
Proof. eexists. split; reflexivity. Qed.

(** ** The batch collator *)

Section Collator.
Context {F : Type} `{Scalar F}.

Lemma max_of_spec l0 (lengths : list Z) :
  In (max_of l0 lengths) (l0 :: lengths)
  /\ Forall (fun l => l <= max_of l0 lengths) (l0 :: lengths).
Proof.
  unfold max_of. revert l0. induction lengths as [|l t IH]; intros l0; simpl.
  - split; [left; reflexivity|]. constructor; [lia|constructor].
  - destruct (IH (Z.max l0 l)) as [Hin Hall]. split.
    + destruct Hin as [Hin|Hin]; [|right; right; exact Hin].
      rewrite <- Hin. destruct (Z.max_spec l0 l) as [[_ ->]|[_ ->]];
        [right; left|left]; reflexivity.
    + inversion Hall as [|x y Hx Ht]; subst.
      constructor; [lia|]. constructor; [lia|exact Ht].
Qed.

Lemma collect_ok_map {A B} (f : A -> result B) (g : A -> B) (l : list A) :
  (forall x, In x l -> f x = Ok (g x)) -> collect f l = Ok (map g l).
Proof.
  induction l as [|a t IH]; intros Hf; simpl; [reflexivity|].
  rewrite (Hf a) by (left; reflexivity).
  rewrite IH by (intros x Hx; apply Hf; right; exact Hx).
  reflexivity.
Qed.

Lemma combine_map {A B C} (f : A -> B) (g : A -> C) (l : list A) :
  combine (map f l) (map g l) = map (fun x => (f x, g x)) l.
Proof. induction l; simpl; congruence. Qed.

Lemma skipn_repeat {A} (x : A) n m :
  skipn n (repeat x m) = repeat x (m - n).
Proof.
  revert m. induction n as [|n IH]; intros m.
  - rewrite Nat.sub_0_r. reflexivity.
  - destruct m as [|m]; [reflexivity|]. simpl. apply IH.
Qed.

Lemma forallb_const_true {A} (p : A -> bool) (l : list A) :
  (forall x, In x l -> p x = true) -> forallb p l = true.
Proof. intros Hp. apply forallb_forall. exact Hp. Qed.

(** One round of the loop on a sequence no longer than [max_len]: zero
    frames in front, [false] in front of the mask. *)
Lemma pad_one_run (feature_dim : nat) (max_len : Z) (seq : array2 F) :
  ncols seq = feature_dim ->
  len (rows seq) <= max_len ->
  pad_one feature_dim max_len (seq, len (rows seq))
  = Ok ({| ncols := feature_dim;
           rows := zeros (max_len - len (rows seq)) feature_dim ++ rows seq |},
        repeat false (Z.to_nat (max_len - len (rows seq)))
        ++ repeat true (Z.to_nat (len (rows seq)))).
Proof.
  intros Hc Hl. pose proof (len_nonneg (rows seq)) as H0.
  unfold pad_one.
  assert (Hones : ones max_len = Ok (repeat true (Z.to_nat max_len))).
  { unfold ones. destruct (Z.ltb_spec max_len 0); [lia|reflexivity]. }
  assert (Hmask : fill_prefix (repeat true (Z.to_nat max_len))
                    (max_len - len (rows seq)) false
                  = repeat false (Z.to_nat (max_len - len (rows seq)))
                    ++ repeat true (Z.to_nat (len (rows seq)))).
  { unfold fill_prefix.
    assert (L : len (repeat true (Z.to_nat max_len)) = max_len).
    { unfold len. rewrite repeat_length. lia. }
    rewrite L, slice_bound_inside by lia.
    rewrite skipn_repeat. do 2 f_equal. lia. }
  destruct (Z.ltb_spec 0 (max_len - len (rows seq))).
  - unfold cat. rewrite Hc, Nat.eqb_refl, Hones, Hmask. reflexivity.
  - rewrite Hones, Hmask.
    replace (max_len - len (rows seq)) with 0 by lia.
    destruct seq as [c r]. simpl in Hc. subst c. reflexivity.
Qed.

(** C5. For a batch that is not empty, of sequences of one width
    [feature_dim], each with its number of frames as [length] and three
    coordinates: [collate_fn_dynamic] returns sequences of shape
    [(B, maxL, feature_dim)] with [maxL] the greatest length, row [i] being
    [maxL - length_i] zero frames followed by the sequence unchanged; masks
    of shape [(B, maxL)], row [i] being [maxL - length_i] times [false]
    followed by [length_i] times [true], all [true] for a sequence of the
    greatest length; and the lengths, the coordinates and the time labels
    in the order of the batch. *)
Theorem collate_fn_dynamic_left_pads (batch : list (example F))
    (feature_dim : nat) :
  batch <> [] ->
  Forall (wf_example feature_dim) batch ->
  exists (max_l : Z) seqs_padded masks,
    collate_fn_dynamic batch
    = Ok (seqs_padded, map length_of batch, masks,
          map xyz_of batch, map time_of batch)
    /\ In max_l (map length_of batch)
    /\ Forall (fun l => l <= max_l) (map length_of batch)
    /\ seqs_padded
       = map (fun b => zeros (max_l - length_of b) feature_dim
                       ++ rows (seq_of b)) batch
    /\ masks
       = map (fun b => repeat false (Z.to_nat (max_l - length_of b))
                       ++ repeat true (Z.to_nat (length_of b))) batch
    /\ length seqs_padded = length batch
    /\ Forall (fun m => len m = max_l
                        /\ Forall (fun r => length r = feature_dim) m)
         seqs_padded
    /\ length masks = length batch
    /\ Forall (fun m => len m = max_l) masks
    /\ (forall b, In b batch -> length_of b = max_l ->
        repeat false (Z.to_nat (max_l - length_of b))
        ++ repeat true (Z.to_nat (length_of b))
        = repeat true (Z.to_nat max_l)).
Proof.
  intros Hne Hwf. rewrite Forall_forall in Hwf.
  destruct batch as [|b0 rest]; [congruence|].
  set (batch := b0 :: rest) in *.
  set (max_l := max_of (length_of b0) (map length_of rest)).
  destruct (max_of_spec (length_of b0) (map length_of rest)) as [Hin Hmax].
  fold max_l in Hin, Hmax. rewrite Forall_forall in Hmax.
  assert (Hfd : ncols (seq_of b0) = feature_dim).
  { apply (Hwf b0). left. reflexivity. }
  set (g := fun b : example F =>
              ({| ncols := feature_dim;
                  rows := zeros (max_l - length_of b) feature_dim
                          ++ rows (seq_of b) |},
               repeat false (Z.to_nat (max_l - length_of b))
               ++ repeat true (Z.to_nat (length_of b)))).
  assert (Hcollect :
    collect (pad_one feature_dim max_l)
      (combine (map seq_of batch) (map length_of batch))
    = Ok (map g batch)).
  { rewrite combine_map.
    rewrite (collect_ok_map _ (fun sl => g (sl, xyz_of b0, time_of b0))).
    - rewrite map_map. reflexivity.
    - intros sl Hsl. apply in_map_iff in Hsl. destruct Hsl as (b & <- & Hb).
      destruct (Hwf b Hb) as (_ & Hc & Hl & _ & _).
      unfold g, length_of, seq_of. cbn [fst snd].
      fold (seq_of b). fold (length_of b). rewrite Hl.
      apply pad_one_run; [exact Hc|].
      rewrite <- Hl. apply Hmax. apply (in_map length_of batch b Hb). }
  assert (Hrows : forall b, In b batch ->
            len (zeros (max_l - length_of b) feature_dim ++ rows (seq_of b))
            = max_l).
  { intros b Hb. destruct (Hwf b Hb) as (_ & _ & Hl & _ & _).
    pose proof (Hmax _ (in_map length_of batch b Hb)) as Hle.
    pose proof (len_nonneg (rows (seq_of b))) as H0.
    unfold len, zeros in *. rewrite length_app, repeat_length. lia. }
  assert (Hmasklen : forall b, In b batch ->
            len (repeat false (Z.to_nat (max_l - length_of b))
                 ++ repeat true (Z.to_nat (length_of b))) = max_l).
  { intros b Hb. destruct (Hwf b Hb) as (_ & _ & Hl & _ & _).
    pose proof (Hmax _ (in_map length_of batch b Hb)) as Hle.
    pose proof (len_nonneg (rows (seq_of b))) as H0.
    unfold len in *. rewrite length_app, !repeat_length. lia. }
  exists max_l.
  exists (map (fun b => zeros (max_l - length_of b) feature_dim
                        ++ rows (seq_of b)) batch).
  exists (map (fun b => repeat false (Z.to_nat (max_l - length_of b))
                        ++ repeat true (Z.to_nat (length_of b))) batch).
  split.
  { unfold collate_fn_dynamic. fold batch.
    change (map seq_of batch) with (seq_of b0 :: map seq_of rest) at 1.
    change (map length_of batch) with (length_of b0 :: map length_of rest) at 1.
    cbv iota. rewrite Hfd. fold max_l.
    change (seq_of b0 :: map seq_of rest) with (map seq_of batch).
    change (length_of b0 :: map length_of rest) with (map length_of batch).
    rewrite Hcollect.
    assert (S2 : stack2 (map fst (map g batch))
                 = Ok (map (fun b => zeros (max_l - length_of b) feature_dim
                                     ++ rows (seq_of b)) batch)).
    { rewrite map_map. unfold batch at 1. cbn [map]. unfold stack2.
      rewrite forallb_const_true.
      - fold batch. cbn [map]. rewrite map_map. reflexivity.
      - intros u Hu. apply in_map_iff in Hu. destruct Hu as (b & <- & Hb).
        unfold g. cbn [fst rows ncols].
        rewrite Nat.eqb_refl, andb_true_r. apply Nat.eqb_eq.
        pose proof (Hrows b (or_intror Hb)) as R1.
        pose proof (Hrows b0 (or_introl eq_refl)) as R0.
        unfold len in R1, R0. lia. }
    rewrite S2.
    assert (S1 : stack1 (map snd (map g batch))
                 = Ok (map (fun b => repeat false (Z.to_nat (max_l - length_of b))
                                     ++ repeat true (Z.to_nat (length_of b)))
                         batch)).
    { rewrite map_map. unfold batch at 1. cbn [map]. unfold stack1.
      rewrite forallb_const_true.
      - reflexivity.
      - intros u Hu. apply in_map_iff in Hu. destruct Hu as (b & <- & Hb).
        unfold g. cbn [snd]. apply Nat.eqb_eq.
        pose proof (Hmasklen b (or_intror Hb)) as R1.
        pose proof (Hmasklen b0 (or_introl eq_refl)) as R0.
        unfold len in R1, R0. lia. }
    rewrite S1.
    assert (S3 : stack1 (map xyz_of batch) = Ok (map xyz_of batch)).
    { unfold batch. cbn [map]. unfold stack1.
      rewrite forallb_const_true; [reflexivity|].
      intros u Hu. apply in_map_iff in Hu. destruct Hu as (b & <- & Hb).
      apply Nat.eqb_eq.
      destruct (Hwf b (or_intror Hb)) as (_ & _ & _ & _ & ->).
      destruct (Hwf b0 (or_introl eq_refl)) as (_ & _ & _ & _ & ->).
      reflexivity. }
    rewrite S3. reflexivity. }
  split; [exact Hin|].
  split; [apply Forall_forall; exact Hmax|].
  split; [reflexivity|]. split; [reflexivity|].
  split; [apply length_map|].
  split.
  { apply Forall_forall. intros m Hm. apply in_map_iff in Hm.
    destruct Hm as (b & <- & Hb). split; [apply Hrows; exact Hb|].
    destruct (Hwf b Hb) as (Hw & Hc & _).
    apply Forall_app. split.
    - apply Forall_forall. intros r Hr. unfold zeros in Hr.
      apply repeat_spec in Hr. subst r. apply repeat_length.
    - unfold wf_array2 in Hw. rewrite Hc in Hw. exact Hw. }
  split; [apply length_map|].
  split.
  { apply Forall_forall. intros m Hm. apply in_map_iff in Hm.
    destruct Hm as (b & <- & Hb). apply Hmasklen; exact Hb. }
  intros b Hb E. rewrite E, Z.sub_diag. reflexivity.
Qed.
End Collator.

Lemma collate_fn_dynamic_left_pads_witness :
  exists seqs_padded masks,
    collate_fn_dynamic ex_batch
    = Ok (seqs_padded, [3; 5; 2], masks,
          [[1; 2; 3]; [4; 5; 6]; [7; 8; 9]], [7; 8; 9])
    /\ seqs_padded = [ [[0]; [0]; [1]; [2]; [3]];
                       [[1]; [2]; [3]; [4]; [5]];
                       [[0]; [0]; [0]; [1]; [2]] ]
    /\ masks = [ [false; false; true; true; true];
                 [true; true; true; true; true];
                 [false; false; false; true; true] ].
Proof.
  destruct (collate_fn_dynamic_left_pads ex_batch 1)
    as (max_l & seqs_padded & masks & E & _).
  - discriminate.
  - unfold ex_batch.
    repeat apply Forall_cons; try apply Forall_nil;
      unfold wf_example, wf_array2, length_of, seq_of, xyz_of; simpl;
      (split; [repeat constructor|]); repeat split; lia.
  - exists seqs_padded, masks. split; [exact E|].
    vm_compute in E. injection E as <- <-. split; reflexivity.
Defined.

(** ** The training window *)

Section TrainWindow.
Context {F : Type} `{Scalar F}.

Lemma collect_inv {A B} (f : A -> result B) (l : list A) (bs : list B) :
  collect f l = Ok bs -> Forall2 (fun a b => f a = Ok b) l bs.
Proof.
  revert bs. induction l as [|a t IH]; intros bs E; simpl in E.
  - injection E as <-. constructor.
  - destruct (f a) as [b|e] eqn:Ea; [|discriminate].
    destruct (collect f t) as [bs'|e]; [|discriminate].
    injection E as <-. constructor; [exact Ea|]. apply IH. reflexivity.
Qed.

Lemma mean_axis0_length (a : array2 F) : length (mean_axis0 a) = ncols a.
Proof. unfold mean_axis0. rewrite length_map, length_seq. reflexivity. Qed.

Lemma std_axis0_length (a : array2 F) :
  length (add_eps (std_axis0 a)) = ncols a.
Proof.
  unfold add_eps, std_axis0. rewrite !length_map, length_seq. reflexivity.
Qed.

Lemma np_concatenate_inv (arrays : list (array2 F)) all :
  np_concatenate arrays = Ok all ->
  rows all = flat_map rows arrays
  /\ forall a, In a arrays -> ncols a = ncols all.
Proof.
  unfold np_concatenate. destruct arrays as [|a0 rest]; [discriminate|].
  destruct (forallb _ rest) eqn:E; [|discriminate].
  intros E'. injection E' as <-. split; [reflexivity|].
  intros a [<-|Ha]; [reflexivity|].
  rewrite forallb_forall in E. apply Nat.eqb_eq. apply E. exact Ha.
Qed.

Lemma np_stack_inv (vectors : list (list F)) all :
  np_stack vectors = Ok all ->
  rows all = vectors
  /\ forall v, In v vectors -> length v = ncols all.
Proof.
  unfold np_stack. destruct vectors as [|v0 rest]; [discriminate|].
  destruct (forallb _ rest) eqn:E; [|discriminate].
  intros E'. injection E' as <-. split; [reflexivity|].
  intros v [<-|Hv]; [reflexivity|].
  rewrite forallb_forall in E. apply Nat.eqb_eq. apply E. exact Hv.
Qed.

Lemma Forall2_In_l {A B} (R : A -> B -> Prop) l l' a :
  Forall2 R l l' -> In a l -> exists b, In b l' /\ R a b.
Proof.
  induction 1 as [|x y l l' Hxy _ IH]; intros Ha; [destruct Ha|].
  destruct Ha as [<-|Ha].
  - exists y. split; [left; reflexivity|exact Hxy].
  - destruct (IH Ha) as (b & Hb & Hr). exists b. split; [right|]; assumption.
Qed.

(** What a label vector that was built is made of. *)
Lemma label_of_inv (s : Sample F) v :
  label_of s = Ok v ->
  exists last_id,
    py_index (frame_ids s) (-1) = Ok last_id
    /\ in_int32 (drop_frame s) = true
    /\ v = label_xyz s ++ [of_Z (wrap_int32 (drop_frame s - last_id))].
Proof.
  unfold label_of.
  destruct (py_index (frame_ids s) (-1)) as [last_id|]; [|discriminate].
  destruct (int32_rsub (drop_frame s) last_id) as [time|] eqn:Et;
    [|discriminate].
  apply int32_rsub_inv in Et. destruct Et as [Hd ->].
  intros E. injection E as <-. exists last_id. auto.
Qed.

(** The label vector of a sample with frame ids and a landing frame in the
    range of int32. *)
Lemma label_of_ok (s : Sample F) :
  frame_ids s <> [] -> in_int32 (drop_frame s) = true ->
  label_of s
  = Ok (label_xyz s
        ++ [of_Z (wrap_int32 (drop_frame s - last (frame_ids s) 0))]).
Proof.
  intros Hne Hd. unfold label_of.
  rewrite (py_index_last _ 0 Hne), (int32_rsub_ok _ _ Hd). reflexivity.
Qed.

(** The samples of a pool that has statistics: their label vectors were
    built. *)
Lemma norm_stats_labels (samples : list (Sample F)) stats :
  norm_stats samples = Ok stats ->
  forall s, In s samples -> exists v, label_of s = Ok v.
Proof.
  unfold norm_stats.
  destruct (np_concatenate (map frames samples)); [|discriminate].
  destruct (collect label_of samples) as [labels|] eqn:El; [|discriminate].
  intros _ s Hs. apply collect_inv in El.
  destruct (Forall2_In_l _ _ _ _ El Hs) as (v & _ & Ev). eauto.
Qed.

(** The shapes of the statistics of a pool. *)
Lemma norm_stats_shapes (samples : list (Sample F)) f_mean f_std l_mean l_std :
  norm_stats samples = Ok (f_mean, f_std, l_mean, l_std) ->
  length f_std = length f_mean
  /\ length l_std = length l_mean
  /\ forall s, In s samples ->
       ncols (frames s) = length f_mean
       /\ S (length (label_xyz s)) = length l_mean.
Proof.
  unfold norm_stats.
  destruct (np_concatenate (map frames samples)) as [all_features|] eqn:Ec;
    [|discriminate].
  destruct (collect label_of samples) as [labels|] eqn:El; [|discriminate].
  destruct (np_stack labels) as [all_labels|] eqn:Es; [|discriminate].
  intros E. injection E as <- <- <- <-.
  rewrite !std_axis0_length, !mean_axis0_length.
  split; [reflexivity|]. split; [reflexivity|].
  intros s Hs.
  apply np_concatenate_inv in Ec. destruct Ec as [_ Hc].
  apply np_stack_inv in Es. destruct Es as [_ Hl].
  apply collect_inv in El.
  split.
  - apply (Hc (frames s)). apply in_map. exact Hs.
  - destruct (Forall2_In_l _ _ _ _ El Hs) as (v & Hv & Ev).
    rewrite <- (Hl v Hv). apply label_of_inv in Ev.
    destruct Ev as (last_id & _ & _ & ->).
    rewrite length_app. cbn [length]. lia.
Qed.

(** C4, as the code has it.  For a training-mode dataset constructed from
    trajectories of the data model, with [1 <= min_len <= max_len] and
    [max_len] in the range of int64, and for every index of the dataset
    and every state of the generators: [__getitem__] draws a length,
    the result of [randint(min_len, max_len + 1)], in
    [[min_len, max_len]], clamps it to [total_len], and uses the window
    with [end = total_len - 1] and [start = end - seq_len + 1];
    [0 <= start <= end], the access returns (it does not raise) the
    normalized window of [seq_len] frames, and when
    [total_len <= min_len] the window is the whole trajectory. *)
Theorem getitem_train_window (samples : list (Sample F))
    (min_len max_len r : Z) (a b c d : option ref) (w w1 w2 : world F)
    (train : BadmintonDataset F) (idx : Z) :
  Forall wf_sample samples ->
  1 <= min_len <= max_len ->
  max_len <= int64_max ->
  __init__ samples min_len max_len "train" r a b c d w = (Ok train, w1) ->
  store w2 = store w1 ->
  - __len__ train <= idx < __len__ train ->
  exists s f_mean f_std l_mean l_std draw out xyz t w3,
    py_index (self_samples train) idx = Ok s
    /\ In s samples
    /\ norm_stats samples = Ok (f_mean, f_std, l_mean, l_std)
    /\ fst (randint min_len (max_len + 1) w2) = Ok draw
    /\ min_len <= draw <= max_len
    /\ let total_len := len (rows (frames s)) in
       let seq_len := Z.min draw total_len in
       let end_idx := total_len - 1 in
       let start_idx := end_idx - seq_len + 1 in
       let window := py_slice (rows (frames s)) start_idx (end_idx + 1) in
       0 <= start_idx <= end_idx
       /\ __getitem__ train idx w2 = (Ok (out, seq_len, xyz, t), w3)
       /\ store w3 = store w2
       /\ len window = seq_len
       /\ rows out
          = map (fun r => zip_with fdiv (zip_with fsub r f_mean) f_std) window
       /\ (total_len <= min_len -> window = rows (frames s)).
Proof.
  intros Hwf Hlen Hmax64 Einit Hstore Hidx. rewrite Forall_forall in Hwf.
  destruct (init_train_inv _ _ _ _ _ _ _ _ _ _ _ Einit)
    as (f_mean & f_std & l_mean & l_std & En & Es & Eg & Esam & Emin & Emax
        & Emode & _).
  destruct (norm_stats_shapes _ _ _ _ _ En) as (Lfs & Lls & Hshape).
  unfold __len__ in Hidx.
  destruct (py_index_in_range (self_samples train) idx Hidx) as (s & Eidx & Hin).
  assert (Hs : In s samples).
  { rewrite Esam in Hin.
    apply (Permutation_in _ (shuffle_rng_perm _ _)) in Hin.
    apply replicate_In in Hin. apply Hin. }
  destruct (Hwf s Hs) as (Hw & Hids & Hone & Hxyz).
  destruct (Hshape s Hs) as (Hcols & Hlab).
  destruct (norm_stats_labels _ _ En s Hs) as (v & Ev).
  apply label_of_inv in Ev. destruct Ev as (_ & _ & Hdrop32 & _).
  destruct (sample_window_train_draw train (len (rows (frames s))) w2 Emode)
    as (draw & w3 & Hdraw & Edraw & Ewin & Hw3);
    [rewrite Emin; unfold int64_min; lia
    |rewrite Emin, Emax; lia|rewrite Emax; exact Hmax64|].
  assert (Hst3 : store w3 = store w2) by (rewrite Hw3; reflexivity).
  rewrite Emin, Emax in Hdraw, Edraw.
  set (total_len := len (rows (frames s))) in *.
  set (seq_len := Z.min draw total_len) in *.
  set (end_idx := total_len - 1) in *.
  set (start_idx := end_idx - seq_len + 1) in *.
  assert (Hrange : 0 <= start_idx <= end_idx) by lia.
  assert (Hend : end_idx + 1 = total_len) by lia.
  set (last_id := nth (Z.to_nat end_idx) (frame_ids s) 0).
  assert (Hlast : py_index (py_slice (frame_ids s) start_idx (end_idx + 1)) (-1)
                  = Ok last_id).
  { rewrite Hend, <- Hids.
    rewrite (py_index_last_of_suffix _ _ 0) by (rewrite Hids; lia).
    unfold last_id, end_idx. rewrite Hids. reflexivity. }
  pose proof (int32_rsub_ok (drop_frame s) last_id Hdrop32) as Htime.
  set (time := wrap_int32 (drop_frame s - last_id)) in *.
  destruct (nth_error_appended (store w) f_mean f_std l_mean l_std)
    as (N1 & N2 & N3 & N4).
  rewrite <- Es, <- Hstore in N1, N2, N3, N4. rewrite <- Hst3 in N1, N2, N3, N4.
  set (label_all := bc_row fdiv
                      (bc_row fsub (label_xyz s ++ [of_Z time]) l_mean) l_std).
  assert (Lraw : length (label_xyz s ++ [of_Z time]) = length l_mean).
  { rewrite length_app. cbn [length]. lia. }
  assert (Lsub : length (bc_row fsub (label_xyz s ++ [of_Z time]) l_mean)
                 = length l_std).
  { rewrite bc_row_same by exact Lraw.
    rewrite zip_with_length by exact Lraw. congruence. }
  assert (Lall : len label_all = 4).
  { unfold label_all, len. rewrite bc_row_same by exact Lsub.
    rewrite zip_with_length by exact Lsub. lia. }
  destruct (py_index_inside label_all 3) as (t & Et & _); [lia|].
  pose proof (cut_and_normalize_run train s start_idx end_idx w3 last_id time
                _ _ _ _ f_mean f_std l_mean l_std t Hlast Htime Eg N1 N2 N3 N4)
    as Run.
  rewrite Hcols, Lfs, Lraw, Lsub in Run.
  rewrite !bc_size_same, !bc_ok_same in Run.
  specialize (Run eq_refl eq_refl eq_refl eq_refl Et).
  assert (Hwinlen : len (py_slice (rows (frames s)) start_idx (end_idx + 1))
                    = seq_len).
  { rewrite py_slice_inside_length; fold total_len; lia. }
  exists s, f_mean, f_std, l_mean, l_std, draw.
  eexists. eexists. exists t, w3.
  split; [exact Eidx|]. split; [exact Hs|]. split; [exact En|].
  split; [exact Edraw|].
  split; [exact Hdraw|].
  split; [exact Hrange|].
  split.
  { unfold __getitem__. rewrite Eidx. unfold lift at 1. unfold bind at 1.
    fold total_len. rewrite (bind_ok _ _ _ _ _ Ewin). cbn [fst snd].
    fold end_idx. fold seq_len. fold start_idx.
    rewrite Run, Hwinlen. reflexivity. }
  split; [exact Hst3|].
  split; [exact Hwinlen|].
  split.
  { cbn [rows]. rewrite map_map. apply map_ext_in. intros row Hrow.
    apply py_slice_incl in Hrow.
    unfold wf_array2 in Hw. rewrite Forall_forall in Hw.
    specialize (Hw row Hrow).
    apply normalize_row_same; congruence. }
  intros Hshort. fold total_len in Hshort |- *.
  fold end_idx. fold seq_len. fold start_idx.
  replace start_idx with 0 by lia.
  rewrite Hend. apply py_slice_all.
Qed.
End TrainWindow.

Lemma getitem_train_window_witness :
  exists item w3, __getitem__ ex_train 0 ex_train_world = (Ok item, w3).
Proof.
  destruct (getitem_train_window [ex_sample 3 5; ex_sample 4 6] 2 3 2
              None None None None ex_world ex_train_world ex_train_world
              ex_train 0)
    as (s & f_mean & f_std & l_mean & l_std & draw & out & xyz & t & w3
        & _ & _ & _ & _ & _ & Hrest).
  - repeat apply Forall_cons; try apply Forall_nil;
      unfold wf_sample, wf_array2, len; simpl;
      (split; [repeat constructor|]); repeat split; lia.
  - lia.
  - unfold int64_max. lia.
  - vm_compute. reflexivity.
  - reflexivity.
  - cbv. split; [discriminate|reflexivity].
  - cbv zeta in Hrest. destruct Hrest as (_ & E & _).
    eexists. eexists. exact E.
Defined.

(** C4 as stated fails for [min_len = 0]: the trajectory has three frames,
    the drawn length is 0, the window has [start = 3 > end = 2] and is
    empty, and the access raises [IndexError].  It fails also for
    [min_len = max_len = 2^63], outside the range of int64: the draw
    raises [ValueError]. *)
Lemma getitem_train_min_len_zero :
  (exists train w1,
     __init__ [ex_sample 3 5] 0 0 "train" 1 None None None None ex_world
     = (Ok train, w1)
     /\ 1 <= len (rows (frames (ex_sample 3 5)))
     /\ fst (sample_window train (len (rows (frames (ex_sample 3 5)))) w1)
        = Ok (3, 2)
     /\ fst (__getitem__ train 0 w1) = Raise IndexError)
  /\ (exists train w1,
        __init__ [ex_sample 3 5] (2 ^ 63) (2 ^ 63) "train" 1
          None None None None ex_world
        = (Ok train, w1)
        /\ 1 <= len (rows (frames (ex_sample 3 5)))
        /\ __getitem__ train 0 w1 = (Raise ValueError, w1)).
Proof.
  split.
  - eexists. eexists. split; [vm_compute; reflexivity|].
    split; [vm_compute; discriminate|].
    split; vm_compute; reflexivity.
  - eexists. eexists. split; [vm_compute; reflexivity|].
    split; [vm_compute; discriminate|].
    vm_compute. reflexivity.
Qed.

(** ** The interior-sampling expander *)

Section InteriorExpander.
Context {F : Type} `{Scalar F}.

(** A draw from a range of int64 that is not empty lies in the range and
    moves the numpy generator by one. *)
Lemma randint_spec low high (w : world F) :
  int64_min <= low -> high - 1 <= int64_max -> low < high ->
  exists v,
    low <= v < high
    /\ randint low high w
       = (Ok v, {| np_random := advance (np_random w);
                   py_random := py_random w;
                   store := store w |}).
Proof.
  intros Hlow Hhigh Hlt.
  destruct (randint_rng_ok low high (np_random w) Hlow Hhigh Hlt)
    as (v & Hv & E).
  exists v. split; [exact Hv|]. unfold randint. rewrite E. reflexivity.
Qed.

(** Every value of the range is drawn by some generator. *)
Lemma randint_any low high v :
  int64_min <= low -> high - 1 <= int64_max ->
  low <= v < high ->
  randint_rng low high {| draws := fun _ => Z.to_nat (v - low); pos := 0 |}
  = (Ok v, {| draws := fun _ => Z.to_nat (v - low); pos := 1 |}).
Proof.
  intros Hlow Hhigh Hv. unfold randint_rng, randbelow.
  destruct (Z.ltb_spec low int64_min); [lia|].
  destruct (Z.ltb_spec int64_max (high - 1)); [lia|].
  destruct (Z.ltb_spec low high); [|lia].
  cbn [draws pos advance]. rewrite Nat.mod_small by lia.
  f_equal. f_equal. lia.
Qed.

(** The replicas of one sample: every round draws a length, and an end
    index when the length does not exceed the trajectory. *)
Lemma resampling_replicas (s : Sample F) (min_len max_len : Z)
    (ks : list nat) (w : world F) :
  int64_min < min_len -> min_len <= max_len -> max_len <= int64_max ->
  array_sized s ->
  exists draws w',
    for_each ks (fun _ =>
      seq_len <- randint min_len (max_len + 1) ;;
      if len (rows (frames s)) <? seq_len then ret []
      else
        end_idx <- randint (seq_len - 1) (len (rows (frames s))) ;;
        ret [ {| frames :=
                   {| ncols := ncols (frames s);
                      rows := py_slice (rows (frames s))
                                (end_idx - seq_len + 1) (end_idx + 1) |};
                 frame_ids := py_slice (frame_ids s)
                                (end_idx - seq_len + 1) (end_idx + 1);
                 drop_frame := drop_frame s;
                 label_xyz := label_xyz s |} ]) w
    = (Ok (replicas_of s draws), w')
    /\ length draws = length ks
    /\ Forall (fun d =>
                 min_len <= fst d <= max_len
                 /\ (fst d <= len (rows (frames s)) ->
                     fst d - 1 <= snd d <= len (rows (frames s)) - 1)) draws
    /\ py_random w' = py_random w.
Proof.
  intros Hlow Hle Hhigh Hsize. unfold array_sized in Hsize.
  revert w. induction ks as [|k ks IH]; intros w.
  - exists [], w. split; [reflexivity|]. split; [reflexivity|].
    split; [constructor|reflexivity].
  - destruct (randint_spec min_len (max_len + 1) w) as (seq_len & Hr & Er);
      [lia..|].
    destruct (Z.ltb_spec (len (rows (frames s))) seq_len) as [Hskip|Hfit].
    + destruct (IH {| np_random := advance (np_random w);
                      py_random := py_random w; store := store w |})
        as (draws & w' & Eloop & Ld & Fd & Py).
      exists ((seq_len, 0) :: draws), w'. split.
      { cbn [for_each]. unfold bind at 1. unfold bind at 1. rewrite Er.
        destruct (Z.ltb_spec (len (rows (frames s))) seq_len); [|lia].
        unfold ret at 1. unfold bind at 1. rewrite Eloop.
        unfold ret, replicas_of. cbn [flat_map fst].
        destruct (Z.ltb_spec (len (rows (frames s))) seq_len); [|lia].
        reflexivity. }
      split; [cbn [length]; congruence|].
      split; [|exact Py].
      constructor; [|exact Fd]. cbn [fst snd]. split; lia.
    + destruct (randint_spec (seq_len - 1) (len (rows (frames s)))
                  {| np_random := advance (np_random w);
                     py_random := py_random w; store := store w |})
        as (end_idx & He & Ee); [lia..|].
      cbn [np_random py_random store] in Ee.
      destruct (IH {| np_random := advance (advance (np_random w));
                      py_random := py_random w; store := store w |})
        as (draws & w' & Eloop & Ld & Fd & Py).
      exists ((seq_len, end_idx) :: draws), w'. split.
      { cbn [for_each]. unfold bind at 1. unfold bind at 1. rewrite Er.
        destruct (Z.ltb_spec (len (rows (frames s))) seq_len); [lia|].
        unfold bind at 1. rewrite Ee.
        unfold ret at 1. unfold bind at 1. rewrite Eloop.
        unfold ret, replicas_of. cbn [flat_map fst snd].
        destruct (Z.ltb_spec (len (rows (frames s))) seq_len); [lia|].
        reflexivity. }
      split; [cbn [length]; congruence|].
      split; [|exact Py].
      constructor; [|exact Fd]. cbn [fst snd]. split; lia.
Qed.

(** The loop of [resampling] over the samples. *)
Lemma resampling_loop (samples : list (Sample F))
    (num_subsamples min_len max_len : Z) (w : world F) :
  int64_min < min_len -> min_len <= max_len -> max_len <= int64_max ->
  Forall array_sized samples ->
  exists draws w',
    for_each samples (fun s =>
      for_each (range num_subsamples) (fun _ =>
        seq_len <- randint min_len (max_len + 1) ;;
        if len (rows (frames s)) <? seq_len then ret []
        else
          end_idx <- randint (seq_len - 1) (len (rows (frames s))) ;;
          ret [ {| frames :=
                     {| ncols := ncols (frames s);
                        rows := py_slice (rows (frames s))
                                  (end_idx - seq_len + 1) (end_idx + 1) |};
                   frame_ids := py_slice (frame_ids s)
                                  (end_idx - seq_len + 1) (end_idx + 1);
                   drop_frame := drop_frame s;
                   label_xyz := label_xyz s |} ])) w
    = (Ok (concat (zip_with replicas_of samples draws)), w')
    /\ Forall2 (draws_of_sample num_subsamples min_len max_len) samples draws
    /\ py_random w' = py_random w.
Proof.
  intros Hlow Hle Hhigh Hsize. revert w.
  induction Hsize as [|s samples Hs _ IH]; intros w.
  - exists [], w. split; [reflexivity|]. split; [constructor|reflexivity].
  - destruct (resampling_replicas s min_len max_len (range num_subsamples) w
                Hlow Hle Hhigh Hs) as (ds & w1 & E1 & L1 & F1 & P1).
    destruct (IH w1) as (draws & w2 & E2 & F2 & P2).
    exists (ds :: draws), w2. split.
    { cbn [for_each]. rewrite (bind_ok _ _ _ _ _ E1), (bind_ok _ _ _ _ _ E2).
      reflexivity. }
    split; [|congruence].
    constructor; [|exact F2]. split; [|exact F1].
    rewrite L1. unfold range. apply length_seq.
Qed.

(** [resampling] with a range of int64 that is not empty, on trajectories
    of the size of arrays: the result is, up to the order, what the draws
    of the replicas append. *)
Lemma resampling_trace (samples : list (Sample F))
    (num_subsamples min_len max_len : Z) (w : world F) :
  int64_min < min_len -> min_len <= max_len -> max_len <= int64_max ->
  Forall array_sized samples ->
  exists draws expanded w',
    resampling samples num_subsamples min_len max_len w = (Ok expanded, w')
    /\ Forall2 (draws_of_sample num_subsamples min_len max_len) samples draws
    /\ Permutation expanded (concat (zip_with replicas_of samples draws)).
Proof.
  intros Hlow Hle Hhigh Hsize.
  destruct (resampling_loop samples num_subsamples min_len max_len w
              Hlow Hle Hhigh Hsize) as (draws & w1 & Eloop & Fd & _).
  pose proof (shuffle_rng_perm (concat (zip_with replicas_of samples draws))
                (py_random w1)) as Perm.
  destruct (shuffle_rng (concat (zip_with replicas_of samples draws))
              (py_random w1)) as [expanded g] eqn:Esh.
  cbn [fst] in Perm.
  exists draws, expanded.
  exists {| np_random := np_random w1; py_random := g; store := store w1 |}.
  split; [|split; [exact Fd|exact Perm]].
  unfold resampling. rewrite (bind_ok _ _ _ _ _ Eloop).
  unfold shuffle. rewrite Esh. reflexivity.
Qed.

Lemma replicas_of_In (s e : Sample F) draws :
  In e (replicas_of s draws) ->
  exists d, In d draws /\ fst d <= len (rows (frames s))
            /\ e = interior_cut s (fst d) (snd d).
Proof.
  unfold replicas_of. rewrite in_flat_map. intros (d & Hd & He).
  destruct (Z.ltb_spec (len (rows (frames s))) (fst d)); [destruct He|].
  destruct He as [<-|[]]. exists d. repeat split; [exact Hd|lia].
Qed.



(** Every replica whose length exceeds the trajectory is skipped. *)
Lemma replicas_of_none_fit (s : Sample F) draws :
  Forall (fun d => len (rows (frames s)) < fst d) draws ->
  replicas_of s draws = [].
Proof.
  unfold replicas_of. induction 1 as [|d ds Hd _ IH]; [reflexivity|].
  cbn [flat_map]. rewrite IH.
  destruct (Z.ltb_spec (len (rows (frames s))) (fst d)); [reflexivity|lia].
Qed.

Lemma trace_In (samples : list (Sample F)) draws e
    (R : Sample F -> list (Z * Z) -> Prop) :
  Forall2 R samples draws ->
  In e (concat (zip_with replicas_of samples draws)) ->
  exists s ds, In s samples /\ R s ds /\ In e (replicas_of s ds).
Proof.
  induction 1 as [|s ds samples draws Hr _ IH]; cbn [zip_with concat];
    [intros []|].
  intros He. apply in_app_or in He. destruct He as [He|He].
  - exists s, ds. split; [left; reflexivity|]. split; assumption.
  - destruct (IH He) as (s' & ds' & Hs' & Hr' & He').
    exists s', ds'. split; [right; exact Hs'|]. split; assumption.
Qed.




End InteriorExpander.



(** ** The statistics of a pool *)

Section StatisticsFacts.
Context {F : Type} `{Scalar F}.

Lemma np_concatenate_ok (arrays : list (array2 F)) width :
  arrays <> [] ->
  (forall a, In a arrays -> ncols a = width) ->
  np_concatenate arrays
  = Ok {| ncols := width; rows := flat_map rows arrays |}.
Proof.
  intros Hne Hw. unfold np_concatenate.
  destruct arrays as [|a0 rest]; [congruence|].
  rewrite forallb_const_true.
  - rewrite (Hw a0) by (left; reflexivity). reflexivity.
  - intros b Hb. apply Nat.eqb_eq.
    rewrite (Hw a0) by (left; reflexivity). apply Hw. right. exact Hb.
Qed.

Lemma np_stack_ok (vectors : list (list F)) width :
  vectors <> [] ->
  (forall v, In v vectors -> length v = width) ->
  np_stack vectors = Ok {| ncols := width; rows := vectors |}.
Proof.
  intros Hne Hw. unfold np_stack.
  destruct vectors as [|v0 rest]; [congruence|].
  rewrite forallb_const_true.
  - rewrite (Hw v0) by (left; reflexivity). reflexivity.
  - intros u Hu. apply Nat.eqb_eq.
    rewrite (Hw v0) by (left; reflexivity). apply Hw. right. exact Hu.
Qed.

Lemma collect_label_of_inv (samples : list (Sample F)) labels :
  collect label_of samples = Ok labels ->
  labels = map label_vector samples
  /\ forall s, In s samples -> label_of s = Ok (label_vector s).
Proof.
  intros E. apply collect_inv in E.
  induction E as [|s v samples labels Hs _ [IH1 IH2]].
  - split; [reflexivity|]. intros s [].
  - split.
    + simpl. unfold label_vector at 1. rewrite Hs, IH1. reflexivity.
    + intros s' [<-|Hs'].
      * unfold label_vector. rewrite Hs. reflexivity.
      * apply IH2. exact Hs'.
Qed.

(** The deviations of a pool are deviations with the floor added. *)
Lemma norm_stats_std_form (samples : list (Sample F))
    f_mean f_std l_mean l_std :
  norm_stats samples = Ok (f_mean, f_std, l_mean, l_std) ->
  exists all_features all_labels,
    f_std = add_eps (std_axis0 all_features)
    /\ l_std = add_eps (std_axis0 all_labels).
Proof.
  unfold norm_stats.
  destruct (np_concatenate (map frames samples)) as [all_features|];
    [|discriminate].
  destruct (collect label_of samples) as [labels|]; [|discriminate].
  destruct (np_stack labels) as [all_labels|]; [|discriminate].
  intros E. injection E as <- <- <- <-. eauto.
Qed.


End StatisticsFacts.

(** * Floating-point statistics *)

Section FloatFacts.
Variables prec emax : Z.
Hypothesis Hprec : 0 < prec.
Hypothesis Hemax : prec < emax.

Local Abbreviation lo := (emin prec emax).

















(** *** No NaN from finite numbers *)











Section Floor.
Variable me : positive.
Variable ee : Z.
Hypothesis Hme : Z.pos (digits2_pos me) = prec.
Hypothesis Hee : lo <= ee.




Local Abbreviation fmt := (float_scalar prec emax (S754_finite false me ee)).






End Floor.
End FloatFacts.

(** The floor of each format is the float nearest to [1e-6]: the
    correctly rounded quotient of [1] by [10^6]. *)
Lemma float32_eps_nearest :
  float32_eps = @fdiv _ float32 (@of_Z _ float32 1) (@of_Z _ float32 1000000).
Proof. vm_compute. reflexivity. Qed.

Lemma float64_eps_nearest :
  float64_eps = @fdiv _ float64 (@of_Z _ float64 1) (@of_Z _ float64 1000000).
Proof. vm_compute. reflexivity. Qed.





(** * Further properties of the dataset *)

Section DatasetFacts.
Context {F : Type} `{Scalar F}.

(** X1. A constructed dataset has [max(0, num_subsamples) * N] entries in
    training mode (every sample copied [num_subsamples] times) and [N]
    entries in any other mode. *)
Theorem len_after_init (samples : list (Sample F)) (min_len max_len r : Z)
    (mode : string) (a b c d : option ref) (w w1 : world F)
    (self : BadmintonDataset F) :
  __init__ samples min_len max_len mode r a b c d w = (Ok self, w1) ->
  __len__ self
  = if String.eqb mode "train" then Z.max 0 r * len samples else len samples.
Proof.
  intros E. destruct (String.eqb_spec mode "train") as [->|Hm].
  - apply init_train_inv in E.
    destruct E as (_ & _ & _ & _ & _ & _ & _ & Esam & _).
    unfold __len__, len. rewrite Esam.
    rewrite (Permutation_length (shuffle_rng_perm _ _)).
    pose proof (replicate_length samples (Z.max 0 r)) as L.
    unfold replicate, len in *.
    replace (Z.to_nat r) with (Z.to_nat (Z.max 0 r)) by lia.
    apply L. lia.
  - assert (Hs : samples <> []).
    { intros ->. unfold __init__ in E. discriminate E. }
    rewrite (init_eval_run samples min_len max_len mode r a b c d w Hs Hm) in E.
    injection E as <- _. reflexivity.
Qed.

(** What any construction leaves in the store: the arrays that were there,
    at their places, and at most four new ones behind them. *)
Lemma init_store (samples : list (Sample F)) (min_len max_len r : Z)
    (mode : string) (a b c d : option ref) (w : world F) :
  exists added,
    store (snd (__init__ samples min_len max_len mode r a b c d w))
    = store w ++ added.
Proof.
  unfold __init__.
  destruct (negb (0 <? len samples)); [exists []; symmetry; apply app_nil_r|].
  destruct (String.eqb mode "train"); [|exists []; symmetry; apply app_nil_r].
  unfold bind at 1. unfold lift at 1.
  destruct (norm_stats samples) as [[[[f_mean f_std] l_mean] l_std]|e];
    [|exists []; symmetry; apply app_nil_r].
  unfold alloc at 1. unfold bind at 1.
  unfold alloc at 1. unfold bind at 1.
  unfold alloc at 1. unfold bind at 1.
  unfold alloc at 1. unfold bind at 1.
  cbn [store np_random py_random].
  exists [f_mean; f_std; l_mean; l_std].
  rewrite <- !app_assoc. cbn [app].
  unfold bind at 1. unfold lift at 1.
  destruct (py_index l_std 0); [|reflexivity].
  unfold bind at 1. unfold lift at 1.
  destruct (py_index l_std 1); [|reflexivity].
  unfold bind at 1. rewrite resampling_v2_run. reflexivity.
Qed.

(** X2. No construction, in any mode and whether it returns or raises,
    overwrites an array of the store: the statistics that references
    pointed to before the construction are the statistics they point to
    after it, so building another dataset never disturbs the statistics of
    an existing one. *)
Theorem init_keeps_existing_stats (samples : list (Sample F))
    (min_len max_len r : Z) (mode : string) (a b c d : option ref)
    (w : world F) (refs : option ref * option ref * option ref * option ref)
    (values : list F * list F * list F * list F) :
  stats_values w refs = Some values ->
  stats_values (snd (__init__ samples min_len max_len mode r a b c d w)) refs
  = Some values.
Proof.
  destruct (init_store samples min_len max_len r mode a b c d w) as [added E].
  unfold stats_values. rewrite E.
  destruct refs as [[[[r1|] [r2|]] [r3|]] [r4|]]; try discriminate.
  destruct (nth_error (store w) r1) as [a1|] eqn:E1; [|discriminate].
  destruct (nth_error (store w) r2) as [a2|] eqn:E2; [|discriminate].
  destruct (nth_error (store w) r3) as [a3|] eqn:E3; [|discriminate].
  destruct (nth_error (store w) r4) as [a4|] eqn:E4; [|discriminate].
  intros V.
  rewrite !nth_error_app1 by (apply nth_error_Some; congruence).
  rewrite E1, E2, E3, E4. exact V.
Qed.

(** X3. The statistics of a training-mode dataset have the shapes of its
    data: [feature_mean] and [feature_std] have the width of the frames of
    every sample, [label_mean] and [label_std] have one entry more than
    the landing point of every sample has coordinates. *)
Theorem init_train_stats_shapes (samples : list (Sample F))
    (min_len max_len r : Z) (a b c d : option ref) (w w1 : world F)
    (train : BadmintonDataset F) :
  __init__ samples min_len max_len "train" r a b c d w = (Ok train, w1) ->
  exists f_mean f_std l_mean l_std,
    stats_values w1 (get_norm_stats train)
    = Some (f_mean, f_std, l_mean, l_std)
    /\ length f_std = length f_mean
    /\ length l_std = length l_mean
    /\ forall s, In s samples ->
         ncols (frames s) = length f_mean
         /\ S (length (label_xyz s)) = length l_mean.
Proof.
  intros E.
  destruct (init_train_stats_values _ _ _ _ _ _ _ _ _ _ _ E)
    as ([[[f_mean f_std] l_mean] l_std] & En & Ev).
  exists f_mean, f_std, l_mean, l_std. split; [exact Ev|].
  apply norm_stats_shapes. exact En.
Qed.

(** X4. What an access draws.  In another mode than training
    [__getitem__] leaves the whole world as it was: it draws nothing.  In
    training mode, at an index of the dataset: when
    [min_len <= max_len] and both are in the range of int64 the access
    takes exactly one draw from the numpy generator and none from
    [random], whether it returns or raises; when [min_len > max_len] or
    one of them is outside int64 it raises [ValueError] and draws nothing.
    An access at an index outside the dataset raises [IndexError] and
    draws nothing. *)
Theorem getitem_draws (self : BadmintonDataset F) (idx : Z) (w : world F) :
  (self_mode self <> "train"%string -> snd (__getitem__ self idx w) = w)
  /\ (self_mode self = "train"%string ->
      - __len__ self <= idx < __len__ self ->
      (int64_min <= self_min_len self <= self_max_len self
       /\ self_max_len self <= int64_max ->
       snd (__getitem__ self idx w)
       = {| np_random := advance (np_random w);
            py_random := py_random w;
            store := store w |})
      /\ (self_min_len self < int64_min \/ int64_max < self_max_len self
          \/ self_max_len self < self_min_len self ->
          __getitem__ self idx w = (Raise ValueError, w)))
  /\ (idx < - __len__ self \/ __len__ self <= idx ->
      __getitem__ self idx w = (Raise IndexError, w)).
Proof.
  split; [|split].
  - intros Hm. unfold __getitem__, bind, lift.
    destruct (py_index (self_samples self) idx) as [s|e]; [|reflexivity].
    rewrite (sample_window_eval self _ w Hm).
    pose proof (keeps_world_cut_and_normalize self s
                  (fst (len (rows (frames s)) - self_max_len self,
                        len (rows (frames s)) - 1))
                  (snd (len (rows (frames s)) - self_max_len self,
                        len (rows (frames s)) - 1)) w) as K.
    destruct (cut_and_normalize self s _ _ w) as [[item|e] w']; exact K.
  - intros Hm Hidx. unfold __len__ in Hidx.
    destruct (py_index_in_range (self_samples self) idx Hidx) as (s & Es & _).
    split.
    + intros [[Hlow Hle] Hhigh].
      destruct (sample_window_train self (len (rows (frames s))) w Hm
                  Hlow Hle Hhigh) as (draw & w' & _ & Ewin & ->).
      unfold __getitem__. rewrite Es. unfold lift at 1. unfold bind at 1.
      unfold bind at 1. rewrite Ewin.
      apply keeps_world_cut_and_normalize.
    + intros Hbad.
      unfold __getitem__. rewrite Es. unfold lift at 1. unfold bind at 1.
      unfold sample_window. rewrite Hm, String.eqb_refl.
      unfold bind at 1. unfold bind at 1. unfold randint.
      rewrite randint_rng_fails by lia.
      destruct w; reflexivity.
  - intros Hidx. unfold __getitem__, bind, lift.
    assert (E : py_index (self_samples self) idx = Raise IndexError).
    { unfold py_index, __len__ in *.
      destruct (Z.ltb_spec idx 0);
        destruct (Z.leb_spec 0 (idx + len (self_samples self)));
        destruct (Z.leb_spec 0 idx);
        destruct (Z.ltb_spec (idx + len (self_samples self))
                             (len (self_samples self)));
        destruct (Z.ltb_spec idx (len (self_samples self)));
        simpl; try reflexivity; lia. }
    rewrite E. reflexivity.
Qed.
End DatasetFacts.

Lemma len_after_init_witness :
  __len__ ex_train
  = if String.eqb "train" "train"
    then Z.max 0 2 * len [ex_sample 3 5; ex_sample 4 6]
    else len [ex_sample 3 5; ex_sample 4 6].
Proof.
  apply (len_after_init [ex_sample 3 5; ex_sample 4 6] 2 3 2 "train"
           None None None None ex_world ex_train_world ex_train).
  vm_compute. reflexivity.
Defined.

Lemma init_keeps_existing_stats_witness :
  stats_values
    (snd (__init__ [ex_sample 3 5; ex_sample 4 6] 2 3 "train" 2
            None None None None ex_stats_world))
    (Some 0%nat, Some 1%nat, Some 2%nat, Some 3%nat)
  = Some ([0; 0], [1; 1], [0; 0; 0; 0], [1; 1; 1; 1]).
Proof.
  apply (init_keeps_existing_stats [ex_sample 3 5; ex_sample 4 6] 2 3 2
           "train" None None None None ex_stats_world).
  reflexivity.
Defined.

Lemma init_train_stats_shapes_witness :
  exists f_mean f_std l_mean l_std,
    stats_values ex_train_world (get_norm_stats ex_train)
    = Some (f_mean, f_std, l_mean, l_std)
    /\ length f_std = length f_mean
    /\ length l_std = length l_mean
    /\ forall s, In s [ex_sample 3 5; ex_sample 4 6] ->
         ncols (frames s) = length f_mean
         /\ S (length (label_xyz s)) = length l_mean.
Proof.
  apply (init_train_stats_shapes [ex_sample 3 5; ex_sample 4 6] 2 3 2
           None None None None ex_world ex_train_world ex_train).
  vm_compute. reflexivity.
Defined.

(** ** The accessor on windows that end with the trajectory *)

Section SuffixWindows.
Context {F : Type} `{Scalar F}.

(** Past the window, for a sample of the data model and statistics of its
    shapes, when the slice is the trajectory without its first [k]
    frames. *)
Lemma cut_and_normalize_suffix (self : BadmintonDataset F) (s : Sample F)
    (start_idx end_idx : Z) (w : world F) (k : nat) (r1 r2 r3 r4 : ref)
    (f_mean f_std l_mean l_std : list F) :
  py_slice (rows (frames s)) start_idx (end_idx + 1)
  = skipn k (rows (frames s)) ->
  py_slice (frame_ids s) start_idx (end_idx + 1) = skipn k (frame_ids s) ->
  (k < length (frame_ids s))%nat ->
  get_norm_stats self = (Some r1, Some r2, Some r3, Some r4) ->
  nth_error (store w) r1 = Some f_mean ->
  nth_error (store w) r2 = Some f_std ->
  nth_error (store w) r3 = Some l_mean ->
  nth_error (store w) r4 = Some l_std ->
  wf_array2 (frames s) ->
  len (frame_ids s) = len (rows (frames s)) ->
  length (label_xyz s) = 3%nat ->
  in_int32 (drop_frame s) = true ->
  length f_mean = ncols (frames s) ->
  length f_std = ncols (frames s) ->
  length l_mean = 4%nat ->
  length l_std = 4%nat ->
  exists out xyz t,
    cut_and_normalize self s start_idx end_idx w
    = (Ok (out, len (rows (frames s)) - Z.of_nat k, xyz, t), w)
    /\ ncols out = ncols (frames s)
    /\ rows out
       = map (fun r => zip_with fdiv (zip_with fsub r f_mean) f_std)
           (skipn k (rows (frames s)))
    /\ wf_array2 out
    /\ len (rows out) = len (rows (frames s)) - Z.of_nat k
    /\ length xyz = 3%nat
    /\ t = fdiv (fsub (of_Z (wrap_int32
                               (drop_frame s
                                - nth (Z.to_nat (len (frame_ids s) - 1))
                                    (frame_ids s) 0)))
                      (nth 3 l_mean fzero))
                (nth 3 l_std fzero).
Proof.
  intros Erows Eids Hk Hst E1 E2 E3 E4 Hwf Hids Hxyz Hdrop32 Lfm Lfs Llm Lls.
  set (last_id := nth (Z.to_nat (len (frame_ids s) - 1)) (frame_ids s) 0).
  assert (Hlast : py_index (py_slice (frame_ids s) start_idx (end_idx + 1)) (-1)
                  = Ok last_id).
  { rewrite Eids.
    assert (L : len (skipn k (frame_ids s)) = len (frame_ids s) - Z.of_nat k).
    { unfold len. rewrite length_skipn. lia. }
    destruct (py_index_negative (skipn k (frame_ids s)) (-1)) as (x & E & N).
    { unfold len in *. lia. }
    rewrite E. f_equal. rewrite nth_error_skipn in N.
    replace (k + Z.to_nat (-1 + len (skipn k (frame_ids s))))%nat
      with (Z.to_nat (len (frame_ids s) - 1)) in N by (unfold len in *; lia).
    symmetry. apply nth_error_nth. exact N. }
  pose proof (int32_rsub_ok (drop_frame s) last_id Hdrop32) as Htime.
  set (time_raw := of_Z (wrap_int32 (drop_frame s - last_id))).
  destruct (label_xyz s) as [|x0 [|x1 [|x2 [|]]]] eqn:Exyz; try discriminate.
  destruct l_mean as [|m0 [|m1 [|m2 [|m3 [|]]]]]; try discriminate.
  destruct l_std as [|s0 [|s1 [|s2 [|s3 [|]]]]]; try discriminate.
  pose proof (cut_and_normalize_run self s start_idx end_idx w last_id
                (wrap_int32 (drop_frame s - last_id))
                r1 r2 r3 r4 f_mean f_std [m0; m1; m2; m3] [s0; s1; s2; s3]
                (fdiv (fsub time_raw m3) s3) Hlast Htime Hst E1 E2 E3 E4)
    as Run.
  rewrite Lfm, Lfs, Exyz in Run.
  rewrite !bc_size_same, !bc_ok_same in Run.
  specialize (Run eq_refl eq_refl eq_refl eq_refl eq_refl).
  rewrite Erows in Run.
  assert (Hrows : map (fun r => bc_row fdiv r f_std)
                    (map (fun r => bc_row fsub r f_mean)
                       (skipn k (rows (frames s))))
                  = map (fun r => zip_with fdiv (zip_with fsub r f_mean) f_std)
                      (skipn k (rows (frames s)))).
  { rewrite map_map. apply map_ext_in. intros r Hr.
    assert (Hin : In r (rows (frames s))).
    { rewrite <- (firstn_skipn k (rows (frames s))).
      apply in_or_app. right. exact Hr. }
    unfold wf_array2 in Hwf. rewrite Forall_forall in Hwf.
    specialize (Hwf r Hin).
    apply normalize_row_same; congruence. }
  rewrite Hrows in Run.
  assert (Hlen : len (skipn k (rows (frames s)))
                 = len (rows (frames s)) - Z.of_nat k).
  { unfold len in *. rewrite length_skipn. lia. }
  rewrite Hlen in Run.
  eexists. eexists. eexists. split; [exact Run|].
  cbn [ncols rows].
  split; [reflexivity|]. split; [reflexivity|].
  split.
  { unfold wf_array2. cbn [ncols rows]. apply Forall_forall.
    intros r Hr. apply in_map_iff in Hr. destruct Hr as (r0 & <- & Hr0).
    assert (Hin : In r0 (rows (frames s))).
    { rewrite <- (firstn_skipn k (rows (frames s))).
      apply in_or_app. right. exact Hr0. }
    unfold wf_array2 in Hwf. rewrite Forall_forall in Hwf.
    specialize (Hwf r0 Hin).
    rewrite zip_with_length; rewrite zip_with_length; congruence. }
  split.
  { unfold len. rewrite length_map. exact Hlen. }
  split; reflexivity.
Qed.

(** X5. In evaluation mode, for a sample of the data model that is shorter
    than [max_len] and whose [drop_frame] is in the range of int32, the
    access does not fail.  While [max_len < 2 * total_len] the negative
    start counts from the end and the window is only the last
    [max_len - total_len] frames; from [max_len >= 2 * total_len] on the
    start is clipped and the window is the whole trajectory.  In both
    cases the window ends with the trajectory, so the time label is the
    int32 difference of [drop_frame] and the last frame id, the
    difference itself when it fits in int32. *)
Theorem getitem_eval_long_max_len (self : BadmintonDataset F) (idx : Z)
    (w : world F) (s : Sample F) (r1 r2 r3 r4 : ref)
    (f_mean f_std l_mean l_std : list F) :
  self_mode self <> "train"%string ->
  py_index (self_samples self) idx = Ok s ->
  get_norm_stats self = (Some r1, Some r2, Some r3, Some r4) ->
  nth_error (store w) r1 = Some f_mean ->
  nth_error (store w) r2 = Some f_std ->
  nth_error (store w) r3 = Some l_mean ->
  nth_error (store w) r4 = Some l_std ->
  wf_sample s ->
  in_int32 (drop_frame s) = true ->
  length f_mean = ncols (frames s) ->
  length f_std = ncols (frames s) ->
  length l_mean = 4%nat ->
  length l_std = 4%nat ->
  len (rows (frames s)) < self_max_len self ->
  let total_len := len (rows (frames s)) in
  let kept := if self_max_len self <? 2 * total_len
              then self_max_len self - total_len
              else total_len in
  let time := drop_frame s - nth (Z.to_nat (total_len - 1)) (frame_ids s) 0 in
  exists out xyz t,
    __getitem__ self idx w = (Ok (out, kept, xyz, t), w)
    /\ 1 <= kept <= total_len
    /\ rows out
       = map (fun r => zip_with fdiv (zip_with fsub r f_mean) f_std)
           (skipn (Z.to_nat (total_len - kept)) (rows (frames s)))
    /\ t = fdiv (fsub (of_Z (wrap_int32 time)) (nth 3 l_mean fzero))
                (nth 3 l_std fzero)
    /\ (in_int32 time = true ->
        t = fdiv (fsub (of_Z time) (nth 3 l_mean fzero)) (nth 3 l_std fzero)).
Proof.
  intros Hmode Hs Hst E1 E2 E3 E4 (Hwf & Hids & Hone & Hxyz) Hdrop32
    Lfm Lfs Llm Lls Hlong total_len kept time.
  set (k := Z.to_nat (total_len - kept)).
  assert (Hkept : 1 <= kept <= total_len).
  { unfold kept. destruct (Z.ltb_spec (self_max_len self) (2 * total_len));
      fold total_len in Hlong; lia. }
  assert (Hslice : forall (A : Type) (l : list A),
            len l = total_len ->
            py_slice l (total_len - self_max_len self) (total_len - 1 + 1)
            = skipn k l).
  { intros A l Hl. unfold k, kept. rewrite <- Hl.
    destruct (Z.ltb_spec (self_max_len self) (2 * len l)) as [Hlt|Hge].
    - destruct (eval_window_wraps l (self_max_len self)) as [-> _];
        [rewrite Hl; fold total_len in Hlong; lia|].
      f_equal. lia.
    - rewrite (eval_window_clipped l (self_max_len self) Hge).
      replace (Z.to_nat (len l - len l)) with 0%nat by lia. reflexivity. }
  destruct (cut_and_normalize_suffix self s
              (total_len - self_max_len self) (total_len - 1) w k
              r1 r2 r3 r4 f_mean f_std l_mean l_std)
    as (out & xyz & t & Run & _ & Hrows & _ & _ & _ & Ht);
    try assumption.
  { apply Hslice. reflexivity. }
  { apply Hslice. exact Hids. }
  { unfold k. unfold len in *. fold total_len in Hids. lia. }
  assert (Ht' : t = fdiv (fsub (of_Z (wrap_int32 time)) (nth 3 l_mean fzero))
                         (nth 3 l_std fzero)).
  { rewrite Ht. unfold time, total_len. rewrite Hids. reflexivity. }
  exists out, xyz, t. split.
  { unfold __getitem__. rewrite Hs. unfold lift at 1. unfold bind at 1.
    rewrite (bind_ok _ _ _ _ _ (sample_window_eval self _ w Hmode)).
    cbn [fst snd]. fold total_len. rewrite Run.
    replace (len (rows (frames s)) - Z.of_nat k) with kept; [reflexivity|].
    fold total_len. unfold k. lia. }
  split; [exact Hkept|]. split; [exact Hrows|]. split; [exact Ht'|].
  intros Hfit. rewrite Ht', (wrap_int32_small time Hfit). reflexivity.
Qed.
End SuffixWindows.

Lemma getitem_eval_long_max_len_witness :
  exists out xyz t,
    __getitem__ (ex_eval [ex_sample 5 9] 7) 0 ex_stats_world
    = (Ok (out, 2, xyz, t), ex_stats_world)
    /\ rows out = [[3; 30]; [4; 40]]
    /\ t = 5.
Proof.
  destruct (getitem_eval_long_max_len (ex_eval [ex_sample 5 9] 7) 0
              ex_stats_world (ex_sample 5 9) 0%nat 1%nat 2%nat 3%nat
              [0; 0] [1; 1] [0; 0; 0; 0] [1; 1; 1; 1])
    as (out & xyz & t & E & _ & R & T & _).
  - simpl. discriminate.
  - reflexivity.
  - reflexivity.
  - reflexivity.
  - reflexivity.
  - reflexivity.
  - reflexivity.
  - unfold wf_sample, wf_array2, len. simpl.
    split; [repeat constructor|]. repeat split; lia.
  - reflexivity.
  - reflexivity.
  - reflexivity.
  - reflexivity.
  - reflexivity.
  - vm_compute. reflexivity.
  - exists out, xyz, t. split; [exact E|]. split.
    + rewrite R. reflexivity.
    + rewrite T. reflexivity.
Defined.

(** ** From the accessor to the collator *)

Section AccessorToCollator.
Context {F : Type} `{Scalar F}.

(** The collator returns on every batch of well-formed examples. *)
Lemma collate_defined (batch : list (example F)) (feature_dim : nat) :
  batch <> [] ->
  Forall (wf_example feature_dim) batch ->
  exists seqs_padded masks,
    collate_fn_dynamic batch
    = Ok (seqs_padded, map length_of batch, masks,
          map xyz_of batch, map time_of batch).
Proof.
  intros Hne Hwf. rewrite Forall_forall in Hwf.
  destruct batch as [|b0 rest]; [congruence|].
  set (batch := b0 :: rest) in *.
  set (max_l := max_of (length_of b0) (map length_of rest)).
  destruct (max_of_spec (length_of b0) (map length_of rest)) as [_ Hmax].
  fold max_l in Hmax. rewrite Forall_forall in Hmax.
  assert (Hfd : ncols (seq_of b0) = feature_dim).
  { apply (Hwf b0). left. reflexivity. }
  set (g := fun b : example F =>
              ({| ncols := feature_dim;
                  rows := zeros (max_l - length_of b) feature_dim
                          ++ rows (seq_of b) |},
               repeat false (Z.to_nat (max_l - length_of b))
               ++ repeat true (Z.to_nat (length_of b)))).
  assert (Hle : forall b, In b batch -> 0 <= length_of b <= max_l).
  { intros b Hb. destruct (Hwf b Hb) as (_ & _ & _ & H1 & _).
    pose proof (Hmax _ (in_map length_of batch b Hb)). lia. }
  assert (Hcollect :
    collect (pad_one feature_dim max_l)
      (combine (map seq_of batch) (map length_of batch))
    = Ok (map g batch)).
  { rewrite combine_map.
    rewrite (collect_ok_map _ (fun sl => g (sl, xyz_of b0, time_of b0))).
    - rewrite map_map. reflexivity.
    - intros sl Hsl. apply in_map_iff in Hsl. destruct Hsl as (b & <- & Hb).
      destruct (Hwf b Hb) as (_ & Hc & Hl & _ & _).
      unfold g, length_of, seq_of. cbn [fst snd].
      fold (seq_of b). fold (length_of b). rewrite Hl.
      apply pad_one_run; [exact Hc|].
      rewrite <- Hl. apply Hle. exact Hb. }
  unfold collate_fn_dynamic. fold batch.
  change (map seq_of batch) with (seq_of b0 :: map seq_of rest) at 1.
  change (map length_of batch) with (length_of b0 :: map length_of rest) at 1.
  cbv iota. rewrite Hfd. fold max_l.
  change (seq_of b0 :: map seq_of rest) with (map seq_of batch).
  change (length_of b0 :: map length_of rest) with (map length_of batch).
  rewrite Hcollect.
  assert (S2 : exists seqs, stack2 (map fst (map g batch)) = Ok seqs).
  { rewrite map_map. unfold batch. cbn [map]. unfold stack2.
    rewrite forallb_const_true; [eexists; reflexivity|].
    intros u Hu. apply in_map_iff in Hu. destruct Hu as (b & <- & Hb).
    unfold g. cbn [fst rows ncols].
    rewrite Nat.eqb_refl, andb_true_r. apply Nat.eqb_eq.
    destruct (Hwf b (or_intror Hb)) as (_ & _ & Hl & _ & _).
    destruct (Hwf b0 (or_introl eq_refl)) as (_ & _ & Hl0 & _ & _).
    pose proof (Hle b (or_intror Hb)). pose proof (Hle b0 (or_introl eq_refl)).
    unfold zeros, len in *. rewrite !length_app, !repeat_length. lia. }
  destruct S2 as [seqs ->].
  assert (S1 : exists masks, stack1 (map snd (map g batch)) = Ok masks).
  { rewrite map_map. unfold batch. cbn [map]. unfold stack1.
    rewrite forallb_const_true; [eexists; reflexivity|].
    intros u Hu. apply in_map_iff in Hu. destruct Hu as (b & <- & Hb).
    unfold g. cbn [snd]. apply Nat.eqb_eq.
    pose proof (Hle b (or_intror Hb)). pose proof (Hle b0 (or_introl eq_refl)).
    rewrite !length_app, !repeat_length. lia. }
  destruct S1 as [masks ->].
  assert (S3 : stack1 (map xyz_of batch) = Ok (map xyz_of batch)).
  { unfold batch. cbn [map]. unfold stack1.
    rewrite forallb_const_true; [reflexivity|].
    intros u Hu. apply in_map_iff in Hu. destruct Hu as (b & <- & Hb).
    apply Nat.eqb_eq.
    destruct (Hwf b (or_intror Hb)) as (_ & _ & _ & _ & ->).
    destruct (Hwf b0 (or_introl eq_refl)) as (_ & _ & _ & _ & ->).
    reflexivity. }
  rewrite S3. eexists. eexists. reflexivity.
Qed.

(** Whatever a training-mode dataset over trajectories of the data model
    returns is a well-formed example for the collator. *)
Lemma getitem_train_item_wf (samples : list (Sample F))
    (min_len max_len r : Z) (a b c d : option ref) (w w1 w2 w3 : world F)
    (train : BadmintonDataset F) (idx : Z) (item : example F) :
  Forall wf_sample samples ->
  1 <= min_len <= max_len ->
  __init__ samples min_len max_len "train" r a b c d w = (Ok train, w1) ->
  store w2 = store w1 ->
  __getitem__ train idx w2 = (Ok item, w3) ->
  exists f_mean f_std l_mean l_std,
    norm_stats samples = Ok (f_mean, f_std, l_mean, l_std)
    /\ wf_example (length f_mean) item
    /\ length_of item <= max_len.
Proof.
  intros Hwf Hlen Einit Hstore Eget. rewrite Forall_forall in Hwf.
  destruct (init_train_inv _ _ _ _ _ _ _ _ _ _ _ Einit)
    as (f_mean & f_std & l_mean & l_std & En & Es & Eg & Esam & Emin & Emax
        & Emode & _).
  destruct (norm_stats_shapes _ _ _ _ _ En) as (Lfs & Lls & Hshape).
  exists f_mean, f_std, l_mean, l_std. split; [exact En|].
  unfold __getitem__ in Eget.
  apply bind_inv in Eget. destruct Eget as (s & w' & Es0 & Eget).
  apply lift_inv in Es0. destruct Es0 as [Eidx ->].
  assert (Hs : In s samples).
  { assert (Hin : In s (self_samples train)).
    { unfold py_index in Eidx.
      destruct ((0 <=? (if idx <? 0 then idx + len (self_samples train) else idx))
                && ((if idx <? 0 then idx + len (self_samples train) else idx)
                    <? len (self_samples train))); [|discriminate].
      destruct (nth_error (self_samples train) _) eqn:N; [|discriminate].
      injection Eidx as <-. eapply nth_error_In. exact N. }
    rewrite Esam in Hin.
    apply (Permutation_in _ (shuffle_rng_perm _ _)) in Hin.
    apply replicate_In in Hin. apply Hin. }
  destruct (Hwf s Hs) as (Hw & Hids & Hone & Hxyz).
  destruct (Hshape s Hs) as (Hcols & Hlab).
  destruct (norm_stats_labels _ _ En s Hs) as (v & Ev).
  apply label_of_inv in Ev. destruct Ev as (_ & _ & Hdrop32 & _).
  apply bind_inv in Eget. destruct Eget as (win & w5 & Ewin & Eget).
  destruct (sample_window_train_inv train _ w2 w5 win Emode Ewin)
    as (draw & Hdraw & -> & Hst5).
  rewrite Emin, Emax in Hdraw.
  cbn [fst snd] in Eget.
  set (total_len := len (rows (frames s))) in *.
  set (seq_len := Z.min draw total_len) in *.
  set (start_idx := total_len - 1 - seq_len + 1) in *.
  assert (Hend : total_len - 1 + 1 = total_len) by lia.
  destruct (nth_error_appended (store w) f_mean f_std l_mean l_std)
    as (N1 & N2 & N3 & N4).
  rewrite <- Es, <- Hstore in N1, N2, N3, N4. rewrite <- Hst5 in N1, N2, N3, N4.
  destruct (cut_and_normalize_suffix train s start_idx (total_len - 1) w5
              (Z.to_nat start_idx)
              (length (store w)) (S (length (store w)))
              (S (S (length (store w)))) (S (S (S (length (store w)))))
              f_mean f_std l_mean l_std)
    as (out & xyz & t & Run & Hnc & Hrows & Hwfo & Hlo & Hx & _);
    try assumption; try congruence.
  { rewrite Hend. apply py_slice_suffix. lia. }
  { rewrite Hend. replace total_len with (len (frame_ids s)) at 1.
    apply py_slice_suffix. rewrite Hids. lia. }
  { unfold len in Hids. unfold total_len in *. unfold len in *. lia. }
  rewrite Run in Eget. injection Eget as <- _.
  unfold wf_example, seq_of, length_of, xyz_of. cbn [fst snd].
  split; [|lia].
  split; [exact Hwfo|]. split; [congruence|].
  split; [rewrite Hlo; reflexivity|]. split; [|exact Hx].
  lia.
Qed.

(** X6. The outputs of the accessor are valid inputs of the collator: for
    a training-mode dataset built from trajectories of the data model
    with [1 <= min_len <= max_len], every batch, not empty, of items that
    [__getitem__] returned is collated without error; the lengths, the
    coordinates and the time labels come back in the order of the batch
    and every length lies between 1 and [max_len]. *)
Theorem train_items_collate (samples : list (Sample F))
    (min_len max_len r : Z) (a b c d : option ref) (w w1 : world F)
    (train : BadmintonDataset F) (batch : list (example F)) :
  Forall wf_sample samples ->
  1 <= min_len <= max_len ->
  __init__ samples min_len max_len "train" r a b c d w = (Ok train, w1) ->
  batch <> [] ->
  Forall (fun item => exists idx w2 w3,
            store w2 = store w1
            /\ __getitem__ train idx w2 = (Ok item, w3)) batch ->
  exists seqs_padded masks,
    collate_fn_dynamic batch
    = Ok (seqs_padded, map length_of batch, masks,
          map xyz_of batch, map time_of batch)
    /\ Forall (fun l => 1 <= l <= max_len) (map length_of batch).
Proof.
  intros Hwf Hlen Einit Hne Hitems. rewrite Forall_forall in Hitems.
  destruct (init_train_inv _ _ _ _ _ _ _ _ _ _ _ Einit)
    as (f_mean & f_std & l_mean & l_std & En & _).
  assert (Hall : forall item, In item batch ->
            wf_example (length f_mean) item /\ length_of item <= max_len).
  { intros item Hi. destruct (Hitems item Hi) as (idx & w2 & w3 & Hst & Eget).
    destruct (getitem_train_item_wf samples min_len max_len r a b c d
                w w1 w2 w3 train idx item Hwf Hlen Einit Hst Eget)
      as (f' & g' & h' & i' & En' & Hw & Hl).
    rewrite En in En'. injection En' as <- <- <- <-. split; assumption. }
  destruct (collate_defined batch (length f_mean) Hne) as (seqs & masks & E).
  { apply Forall_forall. intros item Hi. apply Hall. exact Hi. }
  exists seqs, masks. split; [exact E|].
  apply Forall_forall. intros l Hl. apply in_map_iff in Hl.
  destruct Hl as (item & <- & Hi). destruct (Hall item Hi) as [Hw Hm].
  destruct Hw as (_ & _ & _ & H1 & _). lia.
Qed.
End AccessorToCollator.

Lemma train_items_collate_witness :
  exists seqs_padded masks,
    collate_fn_dynamic [ex_train_item 0; ex_train_item 1]
    = Ok (seqs_padded, map length_of [ex_train_item 0; ex_train_item 1], masks,
          map xyz_of [ex_train_item 0; ex_train_item 1],
          map time_of [ex_train_item 0; ex_train_item 1])
    /\ Forall (fun l => 1 <= l <= 3)
         (map length_of [ex_train_item 0; ex_train_item 1]).
Proof.
  apply (train_items_collate [ex_sample 3 5; ex_sample 4 6] 2 3 2
           None None None None ex_world ex_train_world ex_train).
  - repeat apply Forall_cons; try apply Forall_nil;
      unfold wf_sample, wf_array2, len; simpl;
      (split; [repeat constructor|]); repeat split; lia.
  - lia.
  - vm_compute. reflexivity.
  - discriminate.
  - repeat apply Forall_cons; try apply Forall_nil.
    + exists 0, ex_train_world, (snd (__getitem__ ex_train 0 ex_train_world)).
      split; [reflexivity|]. vm_compute. reflexivity.
    + exists 1, ex_train_world, (snd (__getitem__ ex_train 1 ex_train_world)).
      split; [reflexivity|]. vm_compute. reflexivity.
Defined.

(** * The down-sampler *)

Section DownSampling.
Context {F : Type} `{Scalar F}.

Lemma world_eta (w : world F) :
  {| np_random := np_random w; py_random := py_random w; store := store w |}
  = w.
Proof. destruct w; reflexivity. Qed.

(** An empty range, or a bound outside int64, makes the draw fail and
    leaves the world as it was. *)
Lemma randint_empty low high (w : world F) :
  low < int64_min \/ int64_max < high - 1 \/ high <= low ->
  randint low high w = (Raise ValueError, w).
Proof.
  intros Hbad. unfold randint. rewrite (randint_rng_fails _ _ _ Hbad).
  apply f_equal, world_eta.
Qed.

(** The loop of [down_sampling]: one cut per sample, each with a drawn
    length of the range. *)
Lemma down_sampling_loop (samples : list (Sample F)) (total_len : Z)
    (min_len max_len : Z) (w : world F) :
  int64_min <= min_len -> min_len <= max_len -> max_len <= int64_max ->
  exists seq_lens w',
    for_each samples (fun s =>
      seq_len <- randint min_len (max_len + 1) ;;
      ret [down_sample_cut total_len s seq_len]) w
    = (Ok (zip_with (down_sample_cut total_len) samples seq_lens), w')
    /\ length seq_lens = length samples
    /\ Forall (fun n => min_len <= n <= max_len) seq_lens
    /\ store w' = store w
    /\ py_random w' = py_random w.
Proof.
  intros Hlow Hle Hhigh. revert w. induction samples as [|s t IH]; intros w.
  - exists [], w. repeat split. constructor.
  - destruct (randint_spec min_len (max_len + 1) w) as (n & Hn & En);
      [lia..|].
    destruct (IH {| np_random := advance (np_random w);
                    py_random := py_random w; store := store w |})
      as (ns & w2 & Eloop & Ln & Fn & St & Py).
    exists (n :: ns), w2. split.
    + simpl for_each. unfold bind at 1. unfold bind at 1.
      rewrite En. unfold ret at 1. unfold bind at 1. rewrite Eloop.
      reflexivity.
    + split; [simpl; congruence|]. split; [constructor; [lia|exact Fn]|].
      split; [exact St|exact Py].
Qed.

(** [down_sampling] on a list that is not empty, with a range that is not
    empty. *)
Lemma down_sampling_run (samples : list (Sample F))
    (min_len max_len : Z) (w : world F) :
  samples <> [] ->
  int64_min <= min_len -> min_len <= max_len -> max_len <= int64_max ->
  exists first seq_lens expanded w',
    py_index samples 0 = Ok first
    /\ In first samples
    /\ down_sampling samples min_len max_len w = (Ok expanded, w')
    /\ length seq_lens = length samples
    /\ Forall (fun n => min_len <= n <= max_len) seq_lens
    /\ Permutation expanded
         (zip_with (down_sample_cut (len (rows (frames first))))
            samples seq_lens)
    /\ store w' = store w.
Proof.
  intros Hne Hlow Hle Hhigh.
  destruct samples as [|s0 rest] eqn:Es; [congruence|].
  rewrite <- Es in *.
  assert (E0 : py_index samples 0 = Ok s0) by (rewrite Es; reflexivity).
  destruct (down_sampling_loop samples (len (rows (frames s0)))
              min_len max_len w Hlow Hle Hhigh)
    as (seq_lens & w1 & Eloop & Ln & Fn & St & _).
  pose proof (shuffle_rng_perm
                (zip_with (down_sample_cut (len (rows (frames s0))))
                   samples seq_lens) (py_random w1)) as P.
  destruct (shuffle_rng
              (zip_with (down_sample_cut (len (rows (frames s0))))
                 samples seq_lens) (py_random w1)) as [x g] eqn:Esh.
  cbn [fst] in P.
  exists s0, seq_lens, x,
    {| np_random := np_random w1; py_random := g; store := store w1 |}.
  split; [exact E0|]. split; [rewrite Es; left; reflexivity|]. split.
  { unfold down_sampling. rewrite E0. unfold lift at 1. unfold bind at 1.
    unfold bind at 1. rewrite Eloop. unfold shuffle. rewrite Esh.
    reflexivity. }
  split; [exact Ln|]. split; [exact Fn|]. split; [exact P|].
  cbn [store]. exact St.
Qed.

Lemma zip_with_cut_facts (total_len : Z) (l : list (Sample F)) ns :
  length ns = length l ->
  length (zip_with (down_sample_cut total_len) l ns) = length l
  /\ map drop_frame (zip_with (down_sample_cut total_len) l ns)
     = map drop_frame l
  /\ map label_xyz (zip_with (down_sample_cut total_len) l ns)
     = map label_xyz l.
Proof.
  revert ns. induction l as [|a l IH]; intros [|n ns] E; simpl in E;
    try discriminate.
  - repeat split.
  - destruct (IH ns) as (I1 & I2 & I3); [lia|]. simpl.
    repeat split; congruence.
Qed.

Lemma zip_with_In {X Y Z'} (op : X -> Y -> Z') (l : list X) (ns : list Y) z :
  In z (zip_with op l ns) -> exists x n, In x l /\ In n ns /\ z = op x n.
Proof.
  revert ns. induction l as [|a l IH]; intros [|n ns] Hz; simpl in Hz;
    try contradiction.
  destruct Hz as [<-|Hz].
  - exists a, n. repeat split; left; reflexivity.
  - destruct (IH ns Hz) as (x & m & Hx & Hm & ->).
    exists x, m. repeat split; right; assumption.
Qed.

(** X7. On a list of samples that is not empty and with
    [min_len <= max_len], both in the range of int64, [down_sampling]
    does not fail and returns exactly one entry per sample: up to the
    order, the result is the list of the samples, each cut to
    [[total_len - seq_len + 1 : total_len]] for a length [seq_len] of
    [[min_len, max_len]] of its own, where [total_len] is the length of
    the first sample for all of them; the landing frames and the landing
    points are those of the samples. *)
Theorem down_sampling_one_per_sample (samples : list (Sample F))
    (min_len max_len : Z) (w : world F) :
  samples <> [] ->
  int64_min <= min_len ->
  min_len <= max_len ->
  max_len <= int64_max ->
  exists first seq_lens expanded w',
    py_index samples 0 = Ok first
    /\ down_sampling samples min_len max_len w = (Ok expanded, w')
    /\ length seq_lens = length samples
    /\ Forall (fun n => min_len <= n <= max_len) seq_lens
    /\ Permutation expanded
         (zip_with (down_sample_cut (len (rows (frames first))))
            samples seq_lens)
    /\ len expanded = len samples
    /\ Permutation (map drop_frame expanded) (map drop_frame samples)
    /\ Permutation (map label_xyz expanded) (map label_xyz samples).
Proof.
  intros Hne Hlow Hle Hhigh.
  destruct (down_sampling_run samples min_len max_len w Hne Hlow Hle Hhigh)
    as (first & seq_lens & expanded & w' & E0 & _ & Erun & Ln & Fn & P & _).
  destruct (zip_with_cut_facts (len (rows (frames first))) samples seq_lens Ln)
    as (L1 & L2 & L3).
  exists first, seq_lens, expanded, w'.
  split; [exact E0|]. split; [exact Erun|]. split; [exact Ln|].
  split; [exact Fn|]. split; [exact P|].
  split; [unfold len; rewrite (Permutation_length P), L1; reflexivity|].
  split.
  - rewrite <- L2. apply Permutation_map. exact P.
  - rewrite <- L3. apply Permutation_map. exact P.
Qed.

(** X8. The window of [down_sampling] is one frame short.  When all
    samples have [total_len] frames and as many frame ids, and
    [1 <= min_len <= max_len <= total_len + 1], every entry is the last
    [seq_len - 1] frames and frame ids of a sample, for a [seq_len] of
    [[min_len, max_len]]: it has between [min_len - 1] and [max_len - 1]
    frames, never [max_len].  This is so for every [max_len] in the range
    of int64, which every length of an array is; beyond it the first draw
    raises [ValueError]. *)
Theorem down_sampling_window (samples : list (Sample F))
    (total_len min_len max_len : Z) (w : world F) :
  samples <> [] ->
  Forall (fun s => len (rows (frames s)) = total_len
                   /\ len (frame_ids s) = total_len) samples ->
  1 <= min_len <= max_len ->
  max_len <= total_len + 1 ->
  (max_len <= int64_max ->
   exists expanded w',
     down_sampling samples min_len max_len w = (Ok expanded, w')
     /\ forall e, In e expanded ->
          exists s seq_len,
            In s samples
            /\ min_len <= seq_len <= max_len
            /\ rows (frames e)
               = skipn (Z.to_nat (total_len - seq_len + 1)) (rows (frames s))
            /\ frame_ids e
               = skipn (Z.to_nat (total_len - seq_len + 1)) (frame_ids s)
            /\ len (rows (frames e)) = seq_len - 1
            /\ len (frame_ids e) = seq_len - 1
            /\ min_len - 1 <= len (rows (frames e)) <= max_len - 1)
  /\ (int64_max < max_len ->
      down_sampling samples min_len max_len w = (Raise ValueError, w)).
Proof.
  intros Hne Hall Hmin Hmax. split; [intros Hmax64|intros Hover].
  2:{ destruct samples as [|s0 rest]; [congruence|].
      unfold down_sampling.
      change (py_index (s0 :: rest) 0) with (Ok s0).
      unfold lift at 1. unfold bind at 1.
      unfold bind at 1. simpl for_each. unfold bind at 1. unfold bind at 1.
      rewrite randint_empty by lia. reflexivity. }
  rewrite Forall_forall in Hall.
  destruct (down_sampling_run samples min_len max_len w Hne)
    as (first & seq_lens & expanded & w' & E0 & Hfirst & Erun & Ln & Fn & P & _);
    [unfold int64_min; lia|lia|exact Hmax64|].
  destruct (Hall first Hfirst) as [Tfirst _]. rewrite Tfirst in P.
  exists expanded, w'. split; [exact Erun|].
  intros e He. apply (Permutation_in _ P) in He.
  apply zip_with_In in He. destruct He as (s & n & Hs & Hn & ->).
  rewrite Forall_forall in Fn. specialize (Fn n Hn).
  destruct (Hall s Hs) as [Ts Ti].
  exists s, n. split; [exact Hs|]. split; [exact Fn|].
  unfold down_sample_cut. cbn [frames rows frame_ids].
  assert (R1 : py_slice (rows (frames s)) (total_len - n + 1) total_len
               = skipn (Z.to_nat (total_len - n + 1)) (rows (frames s))).
  { rewrite <- Ts at 2. apply py_slice_suffix. lia. }
  assert (R2 : py_slice (frame_ids s) (total_len - n + 1) total_len
               = skipn (Z.to_nat (total_len - n + 1)) (frame_ids s)).
  { rewrite <- Ti at 2. apply py_slice_suffix. lia. }
  rewrite R1, R2.
  assert (L1 : len (skipn (Z.to_nat (total_len - n + 1)) (rows (frames s)))
               = n - 1).
  { unfold len in *. rewrite length_skipn. lia. }
  assert (L2 : len (skipn (Z.to_nat (total_len - n + 1)) (frame_ids s))
               = n - 1).
  { unfold len in *. rewrite length_skipn. lia. }
  repeat split; try assumption; lia.
Qed.

(** X9. The failures of [down_sampling]: on an empty list it raises
    [IndexError] (there is no first sample), and on a list that is not
    empty with [min_len > max_len] it raises [ValueError] at the first
    draw; in both cases nothing was drawn and the world is as it was. *)
Theorem down_sampling_failures (samples : list (Sample F))
    (min_len max_len : Z) (w : world F) :
  (samples = [] ->
   down_sampling samples min_len max_len w = (Raise IndexError, w))
  /\ (samples <> [] -> max_len < min_len ->
      down_sampling samples min_len max_len w = (Raise ValueError, w)).
Proof.
  split.
  - intros ->. reflexivity.
  - intros Hne Hlt. destruct samples as [|s0 rest]; [congruence|].
    unfold down_sampling.
    change (py_index (s0 :: rest) 0) with (Ok s0).
    unfold lift at 1. unfold bind at 1.
    unfold bind at 1. simpl for_each. unfold bind at 1. unfold bind at 1.
    rewrite randint_empty by lia. reflexivity.
Qed.
End DownSampling.

Lemma down_sampling_one_per_sample_witness :
  exists expanded w',
    down_sampling [ex_sample 4 5; ex_sample 4 6; ex_sample 6 9] 1 5 ex_world
    = (Ok expanded, w')
    /\ len expanded = 3.
Proof.
  destruct (down_sampling_one_per_sample
              [ex_sample 4 5; ex_sample 4 6; ex_sample 6 9] 1 5 ex_world)
    as (first & seq_lens & expanded & w' & _ & E & _ & _ & _ & L & _).
  - discriminate.
  - unfold int64_min. lia.
  - lia.
  - unfold int64_max. lia.
  - exists expanded, w'. split; [exact E|exact L].
Defined.

Lemma down_sampling_window_witness :
  exists expanded w',
    down_sampling [ex_sample 4 5; ex_sample 4 6] 1 5 ex_world
    = (Ok expanded, w')
    /\ forall e, In e expanded -> 0 <= len (rows (frames e)) <= 4.
Proof.
  destruct (down_sampling_window [ex_sample 4 5; ex_sample 4 6] 4 1 5 ex_world)
    as [Hin _].
  - discriminate.
  - repeat apply Forall_cons; try apply Forall_nil; split; reflexivity.
  - lia.
  - lia.
  - destruct Hin as (expanded & w' & E & Hall); [unfold int64_max; lia|].
    exists expanded, w'. split; [exact E|].
    intros e He. destruct (Hall e He) as (s & n & _ & _ & _ & _ & _ & _ & B).
    lia.
Defined.

(** * The interior-sampling expander, further *)

Section InteriorExpanderFacts.
Context {F : Type} `{Scalar F}.

(** [resampling] with a range of int64 that is not empty: every entry is
    cut out of a sample, with a length and an end index of the ranges. *)
Lemma resampling_run (samples : list (Sample F))
    (num_subsamples min_len max_len : Z) (w : world F) :
  int64_min < min_len -> min_len <= max_len -> max_len <= int64_max ->
  Forall array_sized samples ->
  exists expanded w',
    resampling samples num_subsamples min_len max_len w = (Ok expanded, w')
    /\ Forall (fun e =>
         exists s seq_len end_idx,
           In s samples
           /\ min_len <= seq_len <= max_len
           /\ seq_len <= len (rows (frames s))
           /\ seq_len - 1 <= end_idx <= len (rows (frames s)) - 1
           /\ e = interior_cut s seq_len end_idx) expanded.
Proof.
  intros Hlow Hle Hhigh Hsize.
  destruct (resampling_trace samples num_subsamples min_len max_len w
              Hlow Hle Hhigh Hsize)
    as (draws & expanded & w' & Erun & Fd & Perm).
  exists expanded, w'. split; [exact Erun|].
  apply Forall_forall. intros e He. apply (Permutation_in _ Perm) in He.
  destruct (trace_In _ _ _ _ Fd He) as (s & ds & Hs & [_ Hds] & He').
  destruct (replicas_of_In _ _ _ He') as (d & Hd & Hfit & ->).
  rewrite Forall_forall in Hds. destruct (Hds d Hd) as [Hr Hi].
  exists s, (fst d), (snd d).
  split; [exact Hs|]. split; [exact Hr|]. split; [exact Hfit|].
  split; [exact (Hi Hfit)|reflexivity].
Qed.

(** X10. [resampling] keeps the data model: with [1 <= min_len <=
    max_len], [max_len] in the range of int64, on trajectories with frames
    of one width, as many frame ids as frames and three landing
    coordinates, it returns, and every entry of the result is again such a
    trajectory, with between [min_len] and [max_len] frames and the width
    of the sample it was cut from. *)
Theorem resampling_keeps_data_model (samples : list (Sample F))
    (num_subsamples min_len max_len : Z) (w : world F) :
  1 <= min_len <= max_len ->
  max_len <= int64_max ->
  Forall wf_sample samples ->
  Forall array_sized samples ->
  exists expanded w',
    resampling samples num_subsamples min_len max_len w = (Ok expanded, w')
    /\ Forall wf_sample expanded
    /\ Forall (fun e => min_len <= len (rows (frames e)) <= max_len) expanded
    /\ Forall (fun e => exists s, In s samples
                                  /\ ncols (frames e) = ncols (frames s))
         expanded.
Proof.
  intros Hlen Hhigh Hwf Hsize. rewrite Forall_forall in Hwf.
  destruct (resampling_run samples num_subsamples min_len max_len w)
    as (expanded & w' & E & Hcut);
    [unfold int64_min; lia|lia|exact Hhigh|exact Hsize|].
  rewrite Forall_forall in Hcut.
  exists expanded, w'. split; [exact E|].
  assert (Hall : forall e, In e expanded ->
            wf_sample e
            /\ min_len <= len (rows (frames e)) <= max_len
            /\ exists s, In s samples /\ ncols (frames e) = ncols (frames s)).
  { intros e He.
    destruct (Hcut e He) as (s & n & i & Hs & Hn & Hfit & Hi & ->).
    destruct (Hwf s Hs) as (Hw & Hids & Hone & Hxyz).
    unfold interior_cut. cbn [frames rows ncols frame_ids label_xyz].
    assert (L1 : len (py_slice (rows (frames s)) (i - n + 1) (i + 1)) = n).
    { rewrite py_slice_inside_length; lia. }
    assert (L2 : len (py_slice (frame_ids s) (i - n + 1) (i + 1)) = n).
    { rewrite py_slice_inside_length; lia. }
    split; [|split; [lia|exists s; split; [exact Hs|reflexivity]]].
    unfold wf_sample. cbn [frames rows ncols frame_ids label_xyz].
    split.
    { unfold wf_array2. cbn [rows ncols]. apply Forall_forall.
      intros r Hr. apply py_slice_incl in Hr.
      unfold wf_array2 in Hw. rewrite Forall_forall in Hw. apply Hw. exact Hr. }
    split; [congruence|]. split; [lia|exact Hxyz]. }
  split; [|split]; apply Forall_forall; intros e He; apply Hall; exact He.
Qed.

(** X11. When [resampling] fails.  With at least one sample and one
    replica, it raises [ValueError] at the first draw and leaves the world
    as it was when [min_len > max_len] or one of the two is outside the
    range of int64.  It returns a list when there is no sample or no
    replica, and when [min_len <= max_len] with [min_len] above the least
    int64, [max_len] in the range of int64 and trajectories of the size of
    arrays. *)
Theorem resampling_failure (samples : list (Sample F))
    (num_subsamples min_len max_len : Z) (w : world F) :
  (max_len < min_len \/ min_len < int64_min \/ int64_max < max_len ->
   samples <> [] -> 1 <= num_subsamples ->
   resampling samples num_subsamples min_len max_len w
   = (Raise ValueError, w))
  /\ ((int64_min < min_len /\ min_len <= max_len /\ max_len <= int64_max
       /\ Forall array_sized samples)
      \/ samples = [] \/ num_subsamples <= 0 ->
      exists expanded w',
        resampling samples num_subsamples min_len max_len w
        = (Ok expanded, w')).
Proof.
  split.
  - intros Hbad Hne Hr. destruct samples as [|s0 rest]; [congruence|].
    unfold resampling, range.
    destruct (Z.to_nat num_subsamples) as [|k] eqn:Ek; [lia|].
    simpl for_each. unfold bind at 1. unfold bind at 1. unfold bind at 1.
    unfold bind at 1.
    unfold randint. rewrite randint_rng_fails by lia.
    destruct w; reflexivity.
  - intros [(Hlow & Hle & Hhigh & Hsize)|[->|Hr]].
    + destruct (resampling_run samples num_subsamples min_len max_len w
                  Hlow Hle Hhigh Hsize) as (expanded & w' & E & _).
      exists expanded, w'. exact E.
    + unfold resampling. simpl for_each. unfold bind, ret, shuffle.
      destruct (shuffle_rng [] (py_random w)). eexists. eexists. reflexivity.
    + unfold resampling, range.
      replace (Z.to_nat num_subsamples) with 0%nat by lia.
      erewrite bind_ok.
      2:{ apply for_each_pure with (f := fun _ => []).
          intros s w0 _. reflexivity. }
      unfold shuffle.
      destruct (shuffle_rng _ (py_random w)). eexists. eexists. reflexivity.
Qed.
End InteriorExpanderFacts.

Lemma resampling_keeps_data_model_witness :
  exists expanded w',
    resampling [ex_sample 3 5; ex_sample 4 6] 3 2 4 ex_world = (Ok expanded, w')
    /\ Forall wf_sample expanded.
Proof.
  destruct (resampling_keeps_data_model [ex_sample 3 5; ex_sample 4 6] 3 2 4
              ex_world) as (expanded & w' & E & Hwf & _).
  - lia.
  - unfold int64_max. lia.
  - repeat apply Forall_cons; try apply Forall_nil;
      unfold wf_sample, wf_array2, len; simpl;
      (split; [repeat constructor|]); repeat split; lia.
  - repeat constructor; unfold array_sized; vm_compute; discriminate.
  - exists expanded, w'. split; assumption.
Defined.

(** * When a training-mode construction returns *)

Section ConstructionReturns.
Context {F : Type} `{Scalar F}.

(** The statistics of a pool are defined exactly when the pool is not
    empty, its frames have one width, no [frame_ids] is empty, every
    [drop_frame] is in the range of int32 and its landing points have one
    number of coordinates. *)
Lemma norm_stats_defined_iff (samples : list (Sample F)) :
  (exists stats, norm_stats samples = Ok stats)
  <-> (samples <> []
       /\ (exists width, forall s, In s samples -> ncols (frames s) = width)
       /\ (forall s, In s samples -> frame_ids s <> [])
       /\ (forall s, In s samples -> in_int32 (drop_frame s) = true)
       /\ (exists k, forall s, In s samples -> length (label_xyz s) = k)).
Proof.
  split.
  - intros [stats E]. pose proof (norm_stats_labels _ _ E) as Hlab.
    unfold norm_stats in E.
    destruct (np_concatenate (map frames samples)) as [all_features|] eqn:Ec;
      [|discriminate].
    destruct (collect label_of samples) as [labels|] eqn:El; [|discriminate].
    destruct (np_stack labels) as [all_labels|] eqn:Es; [|discriminate].
    apply np_concatenate_inv in Ec. destruct Ec as [_ Wf].
    apply collect_label_of_inv in El. destruct El as [-> Hvec].
    assert (Hne : samples <> []) by (intros ->; discriminate Es).
    apply np_stack_inv in Es. destruct Es as [_ Wl].
    split; [exact Hne|]. split.
    { exists (ncols all_features). intros s Hs. apply Wf, in_map, Hs. }
    split.
    { intros s Hs Hnil. destruct (Hlab s Hs) as (v & Ev).
      apply label_of_inv in Ev. destruct Ev as (last_id & Ei & _).
      rewrite Hnil, py_index_empty in Ei. discriminate. }
    split.
    { intros s Hs. destruct (Hlab s Hs) as (v & Ev).
      apply label_of_inv in Ev. destruct Ev as (_ & _ & Hd & _). exact Hd. }
    exists (pred (ncols all_labels)). intros s Hs.
    pose proof (Hvec s Hs) as Ev. apply label_of_inv in Ev.
    destruct Ev as (last_id & _ & _ & Ev).
    rewrite <- (Wl (label_vector s)) by (apply in_map, Hs).
    rewrite Ev, length_app. cbn [length]. lia.
  - intros (Hne & [width Hw] & Hids & Hd & [k Hk]). unfold norm_stats.
    rewrite (np_concatenate_ok (map frames samples) width).
    2:{ destruct samples; [congruence|discriminate]. }
    2:{ intros a Ha. apply in_map_iff in Ha. destruct Ha as (s & <- & Hs).
        apply Hw. exact Hs. }
    assert (Hlab : forall s, In s samples ->
              label_of s = Ok (label_vector s)
              /\ length (label_vector s) = S k).
    { intros s Hs. unfold label_vector.
      rewrite (label_of_ok s (Hids s Hs) (Hd s Hs)).
      split; [reflexivity|]. rewrite length_app, (Hk s Hs). cbn [length]. lia. }
    rewrite (collect_ok_map label_of label_vector)
      by (intros s Hs; apply Hlab; exact Hs).
    rewrite (np_stack_ok _ (S k)).
    2:{ destruct samples; [congruence|discriminate]. }
    2:{ intros v Hv. apply in_map_iff in Hv. destruct Hv as (s & <- & Hs).
        apply Hlab. exact Hs. }
    eexists. reflexivity.
Qed.

(** X12. A training-mode construction returns a dataset exactly when the
    list of samples is not empty, all frames have one width, no
    [frame_ids] is empty, every [drop_frame] is in the range of int32, and
    all landing points have one number of coordinates, at least one; in
    every other case it raises. *)
Theorem init_train_returns_iff (samples : list (Sample F))
    (min_len max_len r : Z) (a b c d : option ref) (w : world F) :
  (exists train w1,
     __init__ samples min_len max_len "train" r a b c d w = (Ok train, w1))
  <-> (samples <> []
       /\ (exists width, forall s, In s samples -> ncols (frames s) = width)
       /\ (forall s, In s samples -> frame_ids s <> [])
       /\ (forall s, In s samples -> in_int32 (drop_frame s) = true)
       /\ (exists k, (1 <= k)%nat
                     /\ forall s, In s samples -> length (label_xyz s) = k)).
Proof.
  split.
  - intros (train & w1 & E).
    destruct (init_train_inv _ _ _ _ _ _ _ _ _ _ _ E)
      as (f_mean & f_std & l_mean & l_std & En & _ & _ & _ & _ & _ & _ & L2).
    destruct (norm_stats_shapes _ _ _ _ _ En) as (_ & Lls & Hshape).
    destruct (proj1 (norm_stats_defined_iff samples))
      as (Hne & Hw & Hids & Hd & _); [eexists; exact En|].
    split; [exact Hne|]. split; [exact Hw|]. split; [exact Hids|].
    split; [exact Hd|].
    exists (pred (length l_mean)). split; [lia|].
    intros s Hs. destruct (Hshape s Hs) as [_ L]. lia.
  - intros (Hne & Hw & Hids & Hd & (k & Hk1 & Hk)).
    destruct (proj2 (norm_stats_defined_iff samples))
      as ([[[f_mean f_std] l_mean] l_std] & En).
    { split; [exact Hne|]. split; [exact Hw|]. split; [exact Hids|].
      split; [exact Hd|]. exists k. exact Hk. }
    destruct (norm_stats_shapes _ _ _ _ _ En) as (_ & Lls & Hshape).
    assert (L2 : (2 <= length l_std)%nat).
    { destruct samples as [|s0 rest]; [congruence|].
      destruct (Hshape s0 (or_introl eq_refl)) as [_ L].
      rewrite (Hk s0 (or_introl eq_refl)) in L. lia. }
    unfold __init__.
    replace (negb (0 <? len samples)) with false.
    2:{ destruct samples as [|s0 rest]; [congruence|]. reflexivity. }
    rewrite String.eqb_refl.
    rewrite En. unfold lift at 1. unfold bind at 1.
    unfold alloc at 1. unfold bind at 1.
    unfold alloc at 1. unfold bind at 1.
    unfold alloc at 1. unfold bind at 1.
    unfold alloc at 1. unfold bind at 1.
    destruct l_std as [|x0 [|x1 l_std']]; try (cbn [length] in L2; lia).
    unfold lift at 1. unfold bind at 1.
    unfold lift at 1. unfold bind at 1.
    assert (I0 : py_index (x0 :: x1 :: l_std') 0 = Ok x0).
    { destruct (py_index_inside (x0 :: x1 :: l_std') 0) as (x & E & N).
      - unfold len. cbn [length]. lia.
      - rewrite E. simpl in N. congruence. }
    assert (I1 : py_index (x0 :: x1 :: l_std') 1 = Ok x1).
    { destruct (py_index_inside (x0 :: x1 :: l_std') 1) as (x & E & N).
      - unfold len. cbn [length]. lia.
      - rewrite E. simpl in N. congruence. }
    rewrite I0, I1.
    unfold bind at 1. rewrite resampling_v2_run.
    eexists. eexists. reflexivity.
Qed.
End ConstructionReturns.

(** * The statistics and the expanded pool *)

Section ExpandedPool.
Context {F : Type} `{Scalar F}.

(** Two pools with the same members: when the statistics of one are
    defined, so are those of the other, with the same shapes. *)
Lemma norm_stats_same_members (samples samples' : list (Sample F))
    f_mean f_std l_mean l_std :
  (forall s, In s samples' <-> In s samples) ->
  norm_stats samples = Ok (f_mean, f_std, l_mean, l_std) ->
  exists f_mean' f_std' l_mean' l_std',
    norm_stats samples' = Ok (f_mean', f_std', l_mean', l_std')
    /\ length f_mean' = length f_mean /\ length f_std' = length f_std
    /\ length l_mean' = length l_mean /\ length l_std' = length l_std.
Proof.
  intros Hin En.
  assert (Ed : exists stats, norm_stats samples' = Ok stats).
  { apply norm_stats_defined_iff.
    destruct (proj1 (norm_stats_defined_iff samples)) as
      (Hne & (width & Hw) & Hids & Hd & (k & Hk)); [eauto|].
    split.
    { destruct samples as [|s0 rest]; [congruence|].
      intros E0. assert (Hs0 : In s0 samples').
      { apply Hin. left. reflexivity. }
      rewrite E0 in Hs0. destruct Hs0. }
    split; [exists width; intros s Hs; apply Hw, Hin, Hs|].
    split; [intros s Hs; apply Hids, Hin, Hs|].
    split; [intros s Hs; apply Hd, Hin, Hs|].
    exists k. intros s Hs. apply Hk, Hin, Hs. }
  destruct Ed as ([[[f_mean' f_std'] l_mean'] l_std'] & En').
  exists f_mean', f_std', l_mean', l_std'. split; [exact En'|].
  destruct (norm_stats_shapes _ _ _ _ _ En) as (L1 & L2 & L3).
  destruct (norm_stats_shapes _ _ _ _ _ En') as (L1' & L2' & L3').
  destruct samples as [|s0 rest].
  { unfold norm_stats in En. cbn in En. discriminate En. }
  destruct (L3 s0) as [A1 A2]; [left; reflexivity|].
  destruct (L3' s0) as [A1' A2']; [apply Hin; left; reflexivity|].
  lia.
Qed.

End ExpandedPool.



(** * The statistics in floating-point arithmetic *)

(** X17. The statistics and the order of the samples.  In every
    arithmetic, when the statistics of a pool are defined, those of a
    permutation of it are defined too and have the same shapes.  Their
    values depend on the order: in float32, for three trajectories of one
    frame with the features [2^24], [1] and [1], the feature mean is
    [11184811 * 2^-1] (5592405.5) in that order, where [2^24 + 1] is
    rounded to [2^24] twice, and [11184812 * 2^-1] (5592406) when the
    trajectory of [2^24] comes last. *)
Theorem norm_stats_order :
  (forall (F : Type) (fmt : Scalar F) (samples samples' : list (Sample F))
          f_mean f_std l_mean l_std,
     Permutation samples samples' ->
     @norm_stats F fmt samples = Ok (f_mean, f_std, l_mean, l_std) ->
     exists f_mean' f_std' l_mean' l_std',
       @norm_stats F fmt samples' = Ok (f_mean', f_std', l_mean', l_std')
       /\ length f_mean' = length f_mean /\ length f_std' = length f_std
       /\ length l_mean' = length l_mean /\ length l_std' = length l_std)
  /\ (exists f_mean f_std l_mean l_std f_mean' f_std' l_mean' l_std',
        Permutation
          [ex_float_one 16777216; ex_float_one 1; ex_float_one 1]
          [ex_float_one 1; ex_float_one 1; ex_float_one 16777216]
        /\ @norm_stats _ float32
             [ex_float_one 16777216; ex_float_one 1; ex_float_one 1]
           = Ok (f_mean, f_std, l_mean, l_std)
        /\ @norm_stats _ float32
             [ex_float_one 1; ex_float_one 1; ex_float_one 16777216]
           = Ok (f_mean', f_std', l_mean', l_std')
        /\ nth 0 f_mean S754_nan = S754_finite false 11184811 (-1)
        /\ nth 0 f_mean' S754_nan = S754_finite false 11184812 (-1)
        /\ f_mean <> f_mean').
Proof.
  split.
  - intros F fmt samples samples' f_mean f_std l_mean l_std HP En.
    apply (norm_stats_same_members samples samples' f_mean f_std l_mean l_std);
      [|exact En].
    intros s. split; intros Hs.
    + apply (Permutation_in _ (Permutation_sym HP)). exact Hs.
    + apply (Permutation_in _ HP). exact Hs.
  - do 8 eexists. split.
    { apply (Permutation_cons_append [ex_float_one 1; ex_float_one 1]
               (ex_float_one 16777216)). }
    split; [vm_compute; reflexivity|].
    split; [vm_compute; reflexivity|].
    cbn [nth]. split; [reflexivity|]. split; [reflexivity|]. discriminate.
Qed.

(** X18. A constant feature in float32.  For a training pool of seven
    trajectories of one frame whose features are all 3.3
    ([13841203 * 2^-22]), the constructor stores the feature mean
    [13841202 * 2^-22] (3.2999997) and the feature deviation
    [10893245 * 2^-43] (1.24e-06), and the accessor returns the feature
    normalized to [12919703 * 2^-26] (0.19): the sum of the seven is
    rounded.  For the pool of one such trajectory the mean is 3.3, the
    deviation is the floor [8796093 * 2^-43] and the feature is
    normalized to zero. *)
Theorem constant_feature_float32 :
  (exists train w1 out xyz t w2,
     ex_float_run (ex_float_const 7) 1 = (Ok train, w1)
     /\ nth_error (store w1) 0
        = Some [S754_finite false 13841202 (-22);
                S754_finite false 13841202 (-22)]
     /\ nth_error (store w1) 1
        = Some [S754_finite false 10893245 (-43);
                S754_finite false 10893245 (-43)]
     /\ @__getitem__ _ float32 train 0 w1 = (Ok (out, 1, xyz, t), w2)
     /\ rows out = [[S754_finite false 12919703 (-26);
                     S754_finite false 12919703 (-26)]])
  /\ (exists train w1 out xyz t w2,
        ex_float_run (ex_float_const 1) 1 = (Ok train, w1)
        /\ nth_error (store w1) 0 = Some [ex_f32_3_3; ex_f32_3_3]
        /\ nth_error (store w1) 1 = Some [float32_eps; float32_eps]
        /\ @__getitem__ _ float32 train 0 w1 = (Ok (out, 1, xyz, t), w2)
        /\ rows out = [[S754_zero false; S754_zero false]]).
Proof.
  split.
  - do 6 eexists. split; [vm_compute; reflexivity|].
    split; [reflexivity|]. split; [reflexivity|].
    split; [vm_compute; reflexivity|]. reflexivity.
  - do 6 eexists. split; [vm_compute; reflexivity|].
    split; [reflexivity|]. split; [reflexivity|].
    split; [vm_compute; reflexivity|]. reflexivity.
Qed.

(** * What the collator returns, on any batch *)

Section CollatorReturns.
Context {F : Type} `{Scalar F}.

Lemma fill_prefix_length {X} (mask : list X) stop v :
  length (fill_prefix mask stop v) = length mask.
Proof.
  unfold fill_prefix.
  set (b := Z.to_nat (slice_bound stop (len mask))).
  assert (Hb : (b <= length mask)%nat).
  { unfold b, slice_bound, len.
    destruct (Z.ltb_spec stop 0); lia. }
  rewrite length_app, repeat_length, length_skipn. lia.
Qed.

Lemma pad_one_inv (feature_dim : nat) (max_len : Z) (sl : array2 F * Z)
    (padded : array2 F) (mask : list bool) :
  pad_one feature_dim max_len sl = Ok (padded, mask) ->
  0 <= max_len /\ len mask = max_len.
Proof.
  unfold pad_one. destruct sl as [seq l].
  destruct (if 0 <? max_len - l
            then cat feature_dim (zeros (max_len - l) feature_dim) seq
            else Ok seq) as [p|]; [|discriminate].
  unfold ones. destruct (Z.ltb_spec max_len 0); [discriminate|].
  intros E. injection E as _ <-. split; [lia|].
  unfold len. rewrite fill_prefix_length, repeat_length. lia.
Qed.

Lemma Forall2_length_eq {A B} (R : A -> B -> Prop) l l' :
  Forall2 R l l' -> length l = length l'.
Proof. induction 1; simpl; congruence. Qed.

Lemma Forall2_In_r {A B} (R : A -> B -> Prop) l l' b :
  Forall2 R l l' -> In b l' -> exists a, In a l /\ R a b.
Proof.
  induction 1 as [|x y l l' Hxy _ IH]; intros Hb; [destruct Hb|].
  destruct Hb as [<-|Hb].
  - exists x. split; [left; reflexivity|exact Hxy].
  - destruct (IH Hb) as (a & Ha & Hr). exists a. split; [right|]; assumption.
Qed.

Lemma stack2_inv (tensors : list (array2 F)) stacked :
  stack2 tensors = Ok stacked ->
  stacked = map rows tensors
  /\ exists n, Forall (fun t => length (rows t) = n) tensors.
Proof.
  unfold stack2. destruct tensors as [|t rest]; [discriminate|].
  destruct (forallb _ rest) eqn:E; [|discriminate].
  intros E'. injection E' as <-. split; [reflexivity|].
  exists (length (rows t)). constructor; [reflexivity|].
  apply Forall_forall. intros u Hu. rewrite forallb_forall in E.
  specialize (E u Hu). apply andb_true_iff in E. destruct E as [E _].
  apply Nat.eqb_eq. exact E.
Qed.

Lemma stack1_inv {X} (tensors : list (list X)) stacked :
  stack1 tensors = Ok stacked ->
  stacked = tensors
  /\ exists n, Forall (fun t => length t = n) tensors.
Proof.
  unfold stack1. destruct tensors as [|t rest]; [discriminate|].
  destruct (forallb _ rest) eqn:E; [|discriminate].
  intros E'. injection E' as <-. split; [reflexivity|].
  exists (length t). constructor; [reflexivity|].
  apply Forall_forall. intros u Hu. rewrite forallb_forall in E.
  apply Nat.eqb_eq. apply E. exact Hu.
Qed.

(** X13. Whatever the batch, when [collate_fn_dynamic] returns, the batch
    was not empty; the lengths, the coordinates and the time labels are
    those of the batch, in its order; there is one padded sequence and
    one mask per example; all padded sequences have one number of frames,
    all coordinate vectors one length, and every mask has
    [max(lengths)] entries, a number that is not negative. *)
Theorem collate_returns_rectangular (batch : list (example F))
    seqs_padded lengths masks xyzs times :
  collate_fn_dynamic batch = Ok (seqs_padded, lengths, masks, xyzs, times) ->
  batch <> []
  /\ lengths = map length_of batch
  /\ xyzs = map xyz_of batch
  /\ times = map time_of batch
  /\ length seqs_padded = length batch
  /\ length masks = length batch
  /\ (exists n, Forall (fun m => length m = n) seqs_padded)
  /\ (exists k, Forall (fun x => length x = k) xyzs)
  /\ exists max_l,
       0 <= max_l
       /\ In max_l lengths
       /\ Forall (fun l => l <= max_l) lengths
       /\ Forall (fun m => len m = max_l) masks.
Proof.
  unfold collate_fn_dynamic.
  destruct batch as [|b0 rest]; [discriminate|].
  set (batch := b0 :: rest).
  change (map seq_of batch) with (seq_of b0 :: map seq_of rest) at 1.
  change (map length_of batch) with (length_of b0 :: map length_of rest) at 1.
  cbv iota.
  change (seq_of b0 :: map seq_of rest) with (map seq_of batch).
  change (length_of b0 :: map length_of rest) with (map length_of batch).
  set (max_l := max_of (length_of b0) (map length_of rest)).
  destruct (collect _ (combine (map seq_of batch) (map length_of batch)))
    as [padded|] eqn:Ec; [|discriminate].
  destruct (stack2 (map fst padded)) as [seqs|] eqn:E2; [|discriminate].
  destruct (stack1 (map snd padded)) as [ms|] eqn:E1; [|discriminate].
  destruct (stack1 (map xyz_of batch)) as [xs|] eqn:E3; [|discriminate].
  intros E. injection E as <- <- <- <- <-.
  apply collect_inv in Ec.
  pose proof (Forall2_length_eq _ _ _ Ec) as Lp.
  rewrite combine_map, length_map in Lp.
  apply stack2_inv in E2. destruct E2 as [-> [n Hn]].
  apply stack1_inv in E1. destruct E1 as [-> _].
  apply stack1_inv in E3. destruct E3 as [-> Hk].
  destruct (max_of_spec (length_of b0) (map length_of rest)) as [Hin Hmax].
  fold max_l in Hin, Hmax.
  assert (Hmask : forall p, In p padded -> 0 <= max_l /\ len (snd p) = max_l).
  { intros [p m] Hp. destruct (Forall2_In_r _ _ _ _ Ec Hp) as (sl & _ & Hsl).
    apply pad_one_inv in Hsl. exact Hsl. }
  split; [discriminate|]. split; [reflexivity|]. split; [reflexivity|].
  split; [reflexivity|].
  split; [rewrite !length_map; congruence|].
  split; [rewrite length_map; congruence|].
  split.
  { exists n. apply Forall_forall. intros m Hm.
    rewrite map_map in Hm. apply in_map_iff in Hm. destruct Hm as (p & <- & Hp).
    rewrite Forall_forall in Hn. apply Hn. apply in_map. exact Hp. }
  split; [exact Hk|].
  exists max_l. split.
  { destruct padded as [|p0 ps]; [discriminate Lp|].
    apply (Hmask p0). left. reflexivity. }
  split; [exact Hin|]. split; [exact Hmax|].
  apply Forall_forall. intros m Hm. apply in_map_iff in Hm.
  destruct Hm as (p & <- & Hp). apply Hmask. exact Hp.
Qed.
End CollatorReturns.

Lemma collate_returns_rectangular_witness :
  exists max_l,
    0 <= max_l /\ In max_l [3; 5; 2]
    /\ Forall (fun l => l <= max_l) [3; 5; 2].
Proof.
  destruct (collate_returns_rectangular ex_batch
              [ [[0]; [0]; [1]; [2]; [3]];
                [[1]; [2]; [3]; [4]; [5]];
                [[0]; [0]; [0]; [1]; [2]] ]
              [3; 5; 2]
              [ [false; false; true; true; true];
                [true; true; true; true; true];
                [false; false; false; true; true] ]
              [[1; 2; 3]; [4; 5; 6]; [7; 8; 9]] [7; 8; 9])
    as (_ & _ & _ & _ & _ & _ & _ & _ & max_l & H0 & Hin & Hmax & _).
  - reflexivity.
  - exists max_l. repeat split; assumption.
Defined.

(** * The parser and the loader *)

Section ParserFacts.
Context {F : Type} `{Scalar F}.
Variable py_int : string -> option Z.
Variable py_float : string -> option F.

Lemma split_chars_nonempty sep l : split_chars sep l <> [].
Proof.
  destruct l as [|c t]; simpl; [discriminate|].
  destruct (Ascii.eqb c sep); [discriminate|].
  destruct (split_chars sep t); discriminate.
Qed.

Lemma floats_of_length pieces xs :
  floats_of py_float pieces = Some xs -> length xs = length pieces.
Proof.
  revert xs. induction pieces as [|p t IH]; intros xs E; simpl in E.
  - injection E as <-. reflexivity.
  - destruct (py_float p); [|discriminate].
    destruct (floats_of py_float t) as [ys|]; [|discriminate].
    injection E as <-. simpl. f_equal. apply IH. reflexivity.
Qed.

(** A parsed line has at least one value. *)
Lemma parse_line_values ln n xs :
  parse_line py_int py_float ln = Some (n, xs) -> (1 <= length xs)%nat.
Proof.
  unfold parse_line.
  destruct (split ":" ln) as [|head [|values [|]]]; try discriminate.
  destruct (py_int head); [|discriminate].
  destruct (floats_of py_float (split "," values)) as [ys|] eqn:E;
    [|discriminate].
  intros E'. injection E' as _ <-.
  rewrite (floats_of_length _ _ E). unfold split. rewrite length_map.
  pose proof (split_chars_nonempty "," (list_ascii_of_string values)) as Hne.
  destruct (split_chars "," (list_ascii_of_string values)); [congruence|].
  simpl. lia.
Qed.

(** The value list of a frame line, cut as the loop cuts it, is its first
    63 values. *)
Lemma cut_is_firstn (coords : list F) :
  (if negb (len coords =? 63) then py_slice coords 0 63 else coords)
  = firstn 63 coords.
Proof.
  pose proof (len_nonneg coords) as Hn.
  destruct (Z.eqb_spec (len coords) 63) as [E|E]; cbn [negb].
  - symmetry. apply firstn_all2. unfold len in E. lia.
  - unfold py_slice.
    rewrite (slice_bound_inside 0 (len coords)) by lia.
    assert (B : slice_bound 63 (len coords) = Z.min 63 (len coords)).
    { unfold slice_bound. destruct (Z.ltb_spec 63 0); [lia|reflexivity]. }
    rewrite B. change (Z.to_nat 0) with 0%nat. rewrite skipn_0, Z.sub_0_r.
    destruct (Z.min_spec 63 (len coords)) as [[_ ->]|[Hle ->]].
    + f_equal.
    + unfold len in *. rewrite Nat2Z.id, firstn_all.
      symmetry. apply firstn_all2. lia.
Qed.

(** The loop over the frame lines: one id and one row per line, each row
    the first 63 values of its line. *)
Lemma parse_frames_inv lns ids rows0 :
  parse_frames py_int py_float lns = Some (ids, rows0) ->
  length ids = length lns
  /\ Forall2 (fun ln row =>
                exists fid coords,
                  parse_line py_int py_float ln = Some (fid, coords)
                  /\ row = firstn 63 coords) lns rows0.
Proof.
  revert ids rows0. induction lns as [|ln t IH]; intros ids rows0 E; simpl in E.
  - injection E as <- <-. split; [reflexivity|constructor].
  - destruct (parse_line py_int py_float ln) as [[fid coords]|] eqn:El;
      [|discriminate].
    destruct (parse_frames py_int py_float t) as [[ids' rows']|] eqn:Et;
      [|discriminate].
    injection E as <- <-. destruct (IH ids' rows' eq_refl) as [L R].
    split; [simpl; congruence|].
    constructor; [|exact R].
    exists fid, coords. split; [exact El|]. apply cut_is_firstn.
Qed.

Lemma removelast_length {A} (l : list A) :
  length (removelast l) = (length l - 1)%nat.
Proof.
  induction l as [|a [|b t] IH]; [reflexivity|reflexivity|].
  change (removelast (a :: b :: t)) with (a :: removelast (b :: t)).
  cbn [length] in *. lia.
Qed.

(** What a successful parse was made of. *)
Lemma parse_sample_file_inv (file : option (list string)) (s : Sample F) :
  parse_sample_file py_int py_float file = Parsed s ->
  exists text,
    file = Some text
    /\ 2 <= len (stripped_lines text)
    /\ parse_line py_int py_float (last (stripped_lines text) EmptyString)
       = Some (drop_frame s, label_xyz s)
    /\ length (frame_ids s) = length (removelast (stripped_lines text))
    /\ Forall2 (fun ln row =>
                  exists fid coords,
                    parse_line py_int py_float ln = Some (fid, coords)
                    /\ row = firstn 63 coords)
         (removelast (stripped_lines text)) (rows (frames s))
    /\ wf_array2 (frames s).
Proof.
  unfold parse_sample_file. destruct file as [text|]; [|discriminate].
  destruct (Z.ltb_spec (len (stripped_lines text)) 2); [discriminate|].
  destruct (parse_line py_int py_float (last (stripped_lines text) EmptyString))
    as [[drop xyz]|] eqn:El; [|discriminate].
  destruct (parse_frames py_int py_float (removelast (stripped_lines text)))
    as [[ids rows0]|] eqn:Ef; [|discriminate].
  destruct (np_stack rows0) as [stacked|] eqn:Es; [|discriminate].
  unfold int32_array.
  destruct (forallb _ ids); [|discriminate].
  intros E. injection E as <-. cbn [frames frame_ids drop_frame label_xyz].
  apply parse_frames_inv in Ef. destruct Ef as [L R].
  apply np_stack_inv in Es. destruct Es as [Er Hw].
  exists text. split; [reflexivity|]. split; [lia|]. split; [exact El|].
  split; [exact L|]. split; [rewrite Er; exact R|].
  unfold wf_array2. rewrite Er. apply Forall_forall. exact Hw.
Qed.

(** X14. A sample that [parse_sample_file] returns has the shape of the
    data model, but for the landing point: the file has at least two
    lines that are not blank; the sample has one frame and one frame id
    for each of them but the last, so at least one; its frames have one
    width, at least 1 and at most 63; the landing point has at least one
    coordinate (nothing makes them three). *)
Theorem parse_sample_file_shape (text : list string) (s : Sample F) :
  parse_sample_file py_int py_float (Some text) = Parsed s ->
  2 <= len (stripped_lines text)
  /\ len (rows (frames s)) = len (stripped_lines text) - 1
  /\ len (frame_ids s) = len (stripped_lines text) - 1
  /\ wf_array2 (frames s)
  /\ (1 <= ncols (frames s) <= 63)%nat
  /\ (1 <= length (label_xyz s))%nat.
Proof.
  intros E. apply parse_sample_file_inv in E.
  destruct E as (text' & Et & H2 & El & Li & R & Hw).
  injection Et as <-.
  pose proof (Forall2_length_eq _ _ _ R) as Lr.
  rewrite removelast_length in Lr, Li.
  split; [exact H2|].
  split; [unfold len in *; lia|]. split; [unfold len in *; lia|].
  split; [exact Hw|]. split; [|eapply parse_line_values; exact El].
  destruct (rows (frames s)) as [|row rest] eqn:Er.
  { unfold len in H2. cbn [length] in Lr. lia. }
  unfold wf_array2 in Hw. rewrite Er in Hw.
  inversion Hw as [|x y Hrow _]; subst.
  inversion R as [|ln x lns y (fid & coords & Ep & Erow) _]; subst.
  apply parse_line_values in Ep.
  rewrite <- Hrow, length_firstn. lia.
Qed.

(** X15. The frame lines are truncated, the landing line is not.  In a
    sample that [parse_sample_file] returns, row [i] of the frames is the
    first 63 values of frame line [i]: what a line has beyond them is
    dropped without an error.  A line is never padded, so when the frames
    are narrower than 63 every frame line has exactly that many values.
    The landing frame and the landing point are all of what the last line
    holds. *)
Theorem parse_sample_file_truncates (text : list string) (s : Sample F) :
  parse_sample_file py_int py_float (Some text) = Parsed s ->
  parse_line py_int py_float (last (stripped_lines text) EmptyString)
  = Some (drop_frame s, label_xyz s)
  /\ Forall2 (fun ln row =>
                exists fid coords,
                  parse_line py_int py_float ln = Some (fid, coords)
                  /\ row = firstn 63 coords
                  /\ ((ncols (frames s) < 63)%nat ->
                      length coords = ncols (frames s))
                  /\ (ncols (frames s) = 63%nat ->
                      (63 <= length coords)%nat))
       (removelast (stripped_lines text)) (rows (frames s)).
Proof.
  intros E. apply parse_sample_file_inv in E.
  destruct E as (text' & Et & H2 & El & Li & R & Hw).
  injection Et as <-. split; [exact El|].
  unfold wf_array2 in Hw. clear H2 El Li.
  set (width := ncols (frames s)) in *. clearbody width.
  revert Hw R. generalize (rows (frames s)) as rows0.
  generalize (removelast (stripped_lines text)) as lns.
  intros lns rows0 Hw R.
  induction R as [|ln row lns rows0 (fid & coords & Ep & Erow) _ IH].
  - constructor.
  - subst row. apply Forall_cons_iff in Hw. destruct Hw as [Hrow Hrest].
    constructor; [|apply IH; exact Hrest].
    exists fid, coords. split; [exact Ep|]. split; [reflexivity|].
    rewrite length_firstn in Hrow. split; intros Hc; lia.
Qed.
End ParserFacts.

Section LoaderFacts.
Context {F : Type} `{Scalar F}.
Variable py_int : string -> option Z.
Variable py_float : string -> option F.

Lemma insert_sorted_perm x l : Permutation (insert_sorted x l) (x :: l).
Proof.
  induction l as [|y t IH]; simpl; [reflexivity|].
  destruct (String.leb x y); [reflexivity|].
  eapply perm_trans; [apply perm_skip, IH|]. apply perm_swap.
Qed.

Lemma sorted_perm names : Permutation (sorted names) names.
Proof.
  induction names as [|x t IH]; simpl; [reflexivity|].
  eapply perm_trans; [apply insert_sorted_perm|]. apply perm_skip, IH.
Qed.

Lemma filter_length_perm {A} (p : A -> bool) l l' :
  Permutation l l' -> length (filter p l) = length (filter p l').
Proof.
  induction 1 as [|x l l' _ IH|x y l|l l' l'' _ IH1 _ IH2]; simpl.
  - reflexivity.
  - destruct (p x); simpl; congruence.
  - destruct (p x), (p y); reflexivity.
  - congruence.
Qed.

Lemma lookup_file_In (folder : list (string * option (list string))) fn file :
  NoDup (map fst folder) -> In (fn, file) folder ->
  lookup_file folder fn = file.
Proof.
  induction folder as [|[name f] t IH]; intros Hnd Hin; [destruct Hin|].
  simpl in Hnd. inversion Hnd as [|x l Hnotin Hnd']; subst.
  simpl. destruct Hin as [E|Hin].
  - injection E as -> ->. rewrite String.eqb_refl. reflexivity.
  - destruct (String.eqb_spec name fn) as [->|Hne].
    + exfalso. apply Hnotin. change fn with (fst (fn, file)).
      apply in_map. exact Hin.
    + apply IH; assumption.
Qed.

(** The loop of the loader, over any list of names. *)
Lemma load_loop_spec (folder : list (string * option (list string)))
    (suffix : string) (names : list string) :
  (forall s, In s (fst (load_loop py_int py_float folder suffix names)) <->
     exists fn, In fn names /\ endswith fn suffix = true
                /\ parse_sample_file py_int py_float (lookup_file folder fn)
                   = Parsed s)
  /\ (forall fn, In fn (snd (load_loop py_int py_float folder suffix names)) <->
        In fn names /\ endswith fn suffix = true
        /\ exists e, parse_sample_file py_int py_float (lookup_file folder fn)
                     = Failed e)
  /\ (length (fst (load_loop py_int py_float folder suffix names))
      + length (snd (load_loop py_int py_float folder suffix names))
      = length (filter (fun fn => endswith fn suffix) names))%nat.
Proof.
  induction names as [|fn t (IH1 & IH2 & IH3)].
  - simpl. split; [|split].
    + intros s. split; [intros []|intros (fn & [] & _)].
    + intros fn. split; [intros []|intros ([] & _)].
    + reflexivity.
  - simpl load_loop. simpl filter.
    destruct (load_loop py_int py_float folder suffix t) as [samples skipped].
    cbn [fst snd] in *.
    destruct (endswith fn suffix) eqn:Esuf; cbn [negb].
    + destruct (parse_sample_file py_int py_float (lookup_file folder fn))
        as [s0|e0] eqn:Ep; cbn [fst snd].
      * split; [|split].
        -- intros s. split.
           ++ intros [<-|Hs].
              ** exists fn. split; [left; reflexivity|]. split; assumption.
              ** apply IH1 in Hs. destruct Hs as (fn' & Hin & Hrest).
                 exists fn'. split; [right; exact Hin|exact Hrest].
           ++ intros (fn' & [<-|Hin] & Hsuf & Hp).
              ** left. congruence.
              ** right. apply IH1. exists fn'. split; [exact Hin|].
                 split; assumption.
        -- intros fn'. split.
           ++ intros Hs. apply IH2 in Hs. destruct Hs as (Hin & Hrest).
              split; [right; exact Hin|exact Hrest].
           ++ intros ([<-|Hin] & Hsuf & (e & He)).
              ** congruence.
              ** apply IH2. split; [exact Hin|]. split; [exact Hsuf|].
                 exists e. exact He.
        -- simpl. lia.
      * split; [|split].
        -- intros s. split.
           ++ intros Hs. apply IH1 in Hs. destruct Hs as (fn' & Hin & Hrest).
              exists fn'. split; [right; exact Hin|exact Hrest].
           ++ intros (fn' & [<-|Hin] & Hsuf & Hp).
              ** congruence.
              ** apply IH1. exists fn'. split; [exact Hin|].
                 split; assumption.
        -- intros fn'. split.
           ++ intros [<-|Hs].
              ** split; [left; reflexivity|]. split; [exact Esuf|].
                 exists e0. exact Ep.
              ** apply IH2 in Hs. destruct Hs as (Hin & Hrest).
                 split; [right; exact Hin|exact Hrest].
           ++ intros ([<-|Hin] & Hsuf & (e & He)).
              ** left. reflexivity.
              ** right. apply IH2. split; [exact Hin|]. split; [exact Hsuf|].
                 exists e. exact He.
        -- simpl. lia.
    + split; [|split].
      * intros s. split.
        -- intros Hs. apply IH1 in Hs. destruct Hs as (fn' & Hin & Hrest).
           exists fn'. split; [right; exact Hin|exact Hrest].
        -- intros (fn' & [<-|Hin] & Hsuf & Hp).
           ++ congruence.
           ++ apply IH1. exists fn'. split; [exact Hin|]. split; assumption.
      * intros fn'. split.
        -- intros Hs. apply IH2 in Hs. destruct Hs as (Hin & Hrest).
           split; [right; exact Hin|exact Hrest].
        -- intros ([<-|Hin] & Hsuf & (e & He)).
           ++ congruence.
           ++ apply IH2. split; [exact Hin|]. split; [exact Hsuf|].
              exists e. exact He.
      * exact IH3.
Qed.

(** X16. A bad file is skipped and the load goes on.  For a folder whose
    names are distinct, [load_all_samples] returns exactly the samples of
    the files whose name ends with the suffix and that parse, and reports
    exactly the names with the suffix whose file fails to open or to
    parse, whatever the exception; each file with the suffix is one or
    the other, and files of other names are not read. *)
Theorem load_all_samples_skips_bad_files
    (folder : list (string * option (list string))) (suffix : string) :
  NoDup (map fst folder) ->
  (forall s, In s (fst (load_all_samples py_int py_float folder suffix)) <->
     exists fn file,
       In (fn, file) folder /\ endswith fn suffix = true
       /\ parse_sample_file py_int py_float file = Parsed s)
  /\ (forall fn,
        In fn (snd (load_all_samples py_int py_float folder suffix)) <->
        exists file e,
          In (fn, file) folder /\ endswith fn suffix = true
          /\ parse_sample_file py_int py_float file = Failed e)
  /\ (length (fst (load_all_samples py_int py_float folder suffix))
      + length (snd (load_all_samples py_int py_float folder suffix))
      = length (filter (fun fn => endswith fn suffix) (map fst folder)))%nat.
Proof.
  intros Hnd. unfold load_all_samples.
  destruct (load_loop_spec folder suffix (sorted (map fst folder)))
    as (S1 & S2 & S3).
  pose proof (sorted_perm (map fst folder)) as P.
  assert (Hname : forall fn, In fn (sorted (map fst folder)) <->
                    exists file, In (fn, file) folder).
  { intros fn. split.
    - intros Hin. apply (Permutation_in _ P) in Hin.
      apply in_map_iff in Hin. destruct Hin as ([name file] & <- & Hin).
      exists file. exact Hin.
    - intros (file & Hin). apply (Permutation_in _ (Permutation_sym P)).
      change fn with (fst (fn, file)). apply in_map. exact Hin. }
  split; [|split].
  - intros s. rewrite S1. split.
    + intros (fn & Hin & Hsuf & Hp). apply Hname in Hin.
      destruct Hin as (file & Hin). exists fn, file.
      rewrite (lookup_file_In folder fn file Hnd Hin) in Hp.
      repeat split; assumption.
    + intros (fn & file & Hin & Hsuf & Hp). exists fn.
      split; [apply Hname; exists file; exact Hin|]. split; [exact Hsuf|].
      rewrite (lookup_file_In folder fn file Hnd Hin). exact Hp.
  - intros fn. rewrite S2. split.
    + intros (Hin & Hsuf & (e & Hp)). apply Hname in Hin.
      destruct Hin as (file & Hin). exists file, e.
      rewrite (lookup_file_In folder fn file Hnd Hin) in Hp.
      repeat split; assumption.
    + intros (file & e & Hin & Hsuf & Hp).
      split; [apply Hname; exists file; exact Hin|]. split; [exact Hsuf|].
      exists e. rewrite (lookup_file_In folder fn file Hnd Hin). exact Hp.
  - rewrite S3. apply filter_length_perm. exact P.
Qed.
End LoaderFacts.

Lemma parse_sample_file_shape_witness :
  exists s,
    parse_sample_file ex_int ex_int (Some ex_file) = Parsed s
    /\ len (rows (frames s)) = 2 /\ len (frame_ids s) = 2
    /\ ncols (frames s) = 3%nat.
Proof.
  exists {| frames := {| ncols := 3; rows := [[1; 2; 3]; [4; 5; 6]] |};
            frame_ids := [0; 1];
            drop_frame := 7;
            label_xyz := [10; 20; 30] |}.
  destruct (parse_sample_file_shape ex_int ex_int ex_file
              {| frames := {| ncols := 3; rows := [[1; 2; 3]; [4; 5; 6]] |};
                 frame_ids := [0; 1];
                 drop_frame := 7;
                 label_xyz := [10; 20; 30] |})
    as (_ & L1 & L2 & _).
  - vm_compute. reflexivity.
  - split; [vm_compute; reflexivity|]. split; [exact L1|].
    split; [exact L2|reflexivity].
Defined.

Lemma parse_sample_file_truncates_witness :
  parse_line ex_int ex_int (last (stripped_lines ex_file) EmptyString)
  = Some (7, [10; 20; 30]).
Proof.
  destruct (parse_sample_file_truncates ex_int ex_int ex_file
              {| frames := {| ncols := 3; rows := [[1; 2; 3]; [4; 5; 6]] |};
                 frame_ids := [0; 1];
                 drop_frame := 7;
                 label_xyz := [10; 20; 30] |})
    as (E & _).
  - vm_compute. reflexivity.
  - exact E.
Defined.

Lemma load_all_samples_skips_bad_files_witness :
  (length (fst (load_all_samples ex_int ex_int ex_folder ".txt"))
   + length (snd (load_all_samples ex_int ex_int ex_folder ".txt"))
   = length (filter (fun fn => endswith fn ".txt") (map fst ex_folder)))%nat.
Proof.
  destruct (load_all_samples_skips_bad_files ex_int ex_int ex_folder ".txt")
    as (_ & _ & L).
  - repeat constructor; simpl; intuition discriminate.
  - exact L.
Defined.
